(** * MCP session client, tool-dispatch loop and Lambda responder

    A shallow embedding of

    - [mcp_lambda.py] : [McpLambdaServer] ([tool], [handle], [_response],
      [_error]);
    - [bot.py] : [MCPClient] ([__init__], [initialize], [call_tool]) and
      [chat_with_llm].

    Python values that travel through this code are JSON-shaped: they are
    embedded as the type [json].  Two restrictions of the embedding are
    fixed here once: numbers are integers (no floats), and a character of a
    Python [str] is a code point below 256 (the type [ascii]).  Dicts keep
    their insertion order, as in Python, so they are association lists
    updated by [Dict.set].

    Exceptions are explicit: a computation that can raise returns a
    [result]; a [try ... except] is [try_except].  The mutable state of
    the client and of the loop is passed along explicitly.  The remote
    server and the language model are arbitrary functions of the history
    of the requests made to them, so a statement about every [server] or
    every [model] covers whatever they answer or raise. *)

From Stdlib Require Import String Ascii List ZArith Bool Lia Sorted.
From Stdlib Require Import DecimalString DecimalZ.
Import ListNotations.

Open Scope string_scope.
Open Scope Z_scope.

(** ** Python values *)

Unset Elimination Schemes.

Inductive json : Type :=
| JNull
| JBool (b : bool)
| JInt (z : Z)
| JStr (s : string)
| JList (l : list json)
| JDict (d : list (string * json)).

Set Elimination Schemes.

(** *** Dicts with insertion order *)

Module Dict.

Section WithValue.
Context {V : Type}.

Definition t := list (string * V).

Fixpoint get (k : string) (d : t) : option V :=
  match d with
  | [] => None
  | (k', v) :: d' => if String.eqb k k' then Some v else get k d'
  end.

(** [d.get(k, default)] *)
Definition get_default (k : string) (default : V) (d : t) : V :=
  match get k d with Some v => v | None => default end.

(** [k in d] *)
Definition mem (k : string) (d : t) : bool :=
  match get k d with Some _ => true | None => false end.

(** [d[k] = v] : an existing key keeps its position. *)
Fixpoint set (k : string) (v : V) (d : t) : t :=
  match d with
  | [] => [(k, v)]
  | (k', v') :: d' =>
      if String.eqb k k' then (k, v) :: d' else (k', v') :: set k v d'
  end.

(** [dict(pairs)] *)
Definition of_pairs (ps : list (string * V)) : t :=
  fold_left (fun d kv => set (fst kv) (snd kv) d) ps [].

Definition keys (d : t) : list string := map fst d.

End WithValue.

Arguments t : clear implicits.

End Dict.

(** *** Characters *)

Definition code (c : ascii) : nat := nat_of_ascii c.

Definition chr_LF : ascii := "010"%char.
Definition chr_CR : ascii := "013"%char.
Definition chr_TAB : ascii := "009"%char.
Definition chr_BS : ascii := "008"%char.
Definition chr_FF : ascii := "012"%char.
Definition chr_QUOTE : ascii := "034"%char.
Definition chr_APOS : ascii := "'"%char.
Definition chr_BACKSLASH : ascii := "\"%char.

Definition hex_digit (n : nat) : ascii :=
  match n with
  | 0 => "0" | 1 => "1" | 2 => "2" | 3 => "3" | 4 => "4"
  | 5 => "5" | 6 => "6" | 7 => "7" | 8 => "8" | 9 => "9"
  | 10 => "a" | 11 => "b" | 12 => "c" | 13 => "d" | 14 => "e"
  | _ => "f"
  end%nat%char.

(** Two lower-case hexadecimal digits of a code point below 256. *)
Definition hex2 (c : ascii) : string :=
  String (hex_digit (code c / 16)) (String (hex_digit (code c mod 16)) "").

Definition hex_value (c : ascii) : option nat :=
  let n := code c in
  if (48 <=? n)%nat && (n <=? 57)%nat then Some (n - 48)%nat
  else if (97 <=? n)%nat && (n <=? 102)%nat then Some (n - 87)%nat
  else if (65 <=? n)%nat && (n <=? 70)%nat then Some (n - 55)%nat
  else None.

Definition is_digit (c : ascii) : bool :=
  (48 <=? code c)%nat && (code c <=? 57)%nat.

(** *** [str(int)] *)

Definition str_of_Z (z : Z) : string := NilZero.string_of_int (Z.to_int z).

(** *** [repr] and [str] *)

Fixpoint contains_char (c : ascii) (s : string) : bool :=
  match s with
  | EmptyString => false
  | String c' s' => Ascii.eqb c c' || contains_char c s'
  end.

(** [str.isprintable] on one code point below 256: the ASCII range 32..126
    and the Latin-1 range 161..255 without the soft hyphen 173. *)
Definition is_printable (c : ascii) : bool :=
  let n := code c in
  ((32 <=? n) && (n <=? 126) || (161 <=? n) && negb (n =? 173))%nat.

Definition repr_char (quote : ascii) (c : ascii) : string :=
  if Ascii.eqb c quote || Ascii.eqb c chr_BACKSLASH then String chr_BACKSLASH (String c "")
  else if Ascii.eqb c chr_TAB then "\t"
  else if Ascii.eqb c chr_LF then "\n"
  else if Ascii.eqb c chr_CR then "\r"
  else if is_printable c then String c ""
  else "\x" ++ hex2 c.

Fixpoint repr_chars (quote : ascii) (s : string) : string :=
  match s with
  | EmptyString => ""
  | String c s' => repr_char quote c ++ repr_chars quote s'
  end.

(** [repr(s)] for a [str]: single quotes, unless the string has a single
    quote and no double quote. *)
Definition repr_str (s : string) : string :=
  let quote :=
    if contains_char chr_APOS s && negb (contains_char chr_QUOTE s)
    then chr_QUOTE else chr_APOS in
  String quote (repr_chars quote s ++ String quote "").

Fixpoint py_repr (v : json) : string :=
  match v with
  | JNull => "None"
  | JBool true => "True"
  | JBool false => "False"
  | JInt z => str_of_Z z
  | JStr s => repr_str s
  | JList l =>
      "[" ++
      (fix items (l : list json) : string :=
         match l with
         | [] => ""
         | [x] => py_repr x
         | x :: l' => py_repr x ++ ", " ++ items l'
         end) l
      ++ "]"
  | JDict d =>
      "{" ++
      (fix items (d : list (string * json)) : string :=
         match d with
         | [] => ""
         | [(k, x)] => repr_str k ++ ": " ++ py_repr x
         | (k, x) :: d' => repr_str k ++ ": " ++ py_repr x ++ ", " ++ items d'
         end) d
      ++ "}"
  end.

(** [str(v)], also what an f-string does with [{v}]. *)
Definition py_str (v : json) : string :=
  match v with
  | JStr s => s
  | _ => py_repr v
  end.

(** Truth value of [v] in a condition. *)
Definition truthy (v : json) : bool :=
  match v with
  | JNull => false
  | JBool b => b
  | JInt z => negb (z =? 0)
  | JStr s => negb (String.eqb s "")
  | JList l => match l with [] => false | _ => true end
  | JDict d => match d with [] => false | _ => true end
  end.

(** Name of the Python type of a value, as error texts print it. *)
Definition type_name (v : json) : string :=
  match v with
  | JNull => "NoneType"
  | JBool _ => "bool"
  | JInt _ => "int"
  | JStr _ => "str"
  | JList _ => "list"
  | JDict _ => "dict"
  end.

(** ** The [json] module *)

(** *** [json.dumps] *)

Definition escape_char (c : ascii) : string :=
  if Ascii.eqb c chr_QUOTE then String chr_BACKSLASH (String chr_QUOTE "")
  else if Ascii.eqb c chr_BACKSLASH then String chr_BACKSLASH (String chr_BACKSLASH "")
  else if Ascii.eqb c chr_LF then "\n"
  else if Ascii.eqb c chr_CR then "\r"
  else if Ascii.eqb c chr_TAB then "\t"
  else if Ascii.eqb c chr_BS then "\b"
  else if Ascii.eqb c chr_FF then "\f"
  else if ((32 <=? code c) && (code c <=? 126))%nat then String c ""
  else "\u00" ++ hex2 c.

Fixpoint escape_chars (s : string) : string :=
  match s with
  | EmptyString => ""
  | String c s' => escape_char c ++ escape_chars s'
  end.

Definition dumps_str (s : string) : string :=
  String chr_QUOTE (escape_chars s ++ String chr_QUOTE "").

(** [json.dumps(v)] with the default separators [", "] and [": "]. *)
Fixpoint json_dumps (v : json) : string :=
  match v with
  | JNull => "null"
  | JBool true => "true"
  | JBool false => "false"
  | JInt z => str_of_Z z
  | JStr s => dumps_str s
  | JList l =>
      "[" ++
      (fix items (l : list json) : string :=
         match l with
         | [] => ""
         | [x] => json_dumps x
         | x :: l' => json_dumps x ++ ", " ++ items l'
         end) l
      ++ "]"
  | JDict d =>
      "{" ++
      (fix items (d : list (string * json)) : string :=
         match d with
         | [] => ""
         | [(k, x)] => dumps_str k ++ ": " ++ json_dumps x
         | (k, x) :: d' => dumps_str k ++ ": " ++ json_dumps x ++ ", " ++ items d'
         end) d
      ++ "}"
  end.

Fixpoint spaces (n : nat) : string :=
  match n with
  | O => ""
  | S n' => String " " (spaces n')
  end.

Definition newline_indent (indent level : nat) : string :=
  String chr_LF (spaces (indent * level)).

(** [json.dumps(v, indent=indent)] at nesting depth [level]: one item per
    line, items separated by [","]. *)
Fixpoint json_dumps_indent_at (indent level : nat) (v : json) : string :=
  match v with
  | JList [] => "[]"
  | JList l =>
      "[" ++ newline_indent indent (S level) ++
      (fix items (l : list json) : string :=
         match l with
         | [] => ""
         | [x] => json_dumps_indent_at indent (S level) x
         | x :: l' =>
             json_dumps_indent_at indent (S level) x ++ "," ++
             newline_indent indent (S level) ++ items l'
         end) l
      ++ newline_indent indent level ++ "]"
  | JDict [] => "{}"
  | JDict d =>
      "{" ++ newline_indent indent (S level) ++
      (fix items (d : list (string * json)) : string :=
         match d with
         | [] => ""
         | [(k, x)] => dumps_str k ++ ": " ++ json_dumps_indent_at indent (S level) x
         | (k, x) :: d' =>
             dumps_str k ++ ": " ++ json_dumps_indent_at indent (S level) x ++ "," ++
             newline_indent indent (S level) ++ items d'
         end) d
      ++ newline_indent indent level ++ "}"
  | _ => json_dumps v
  end.

Definition json_dumps_indent (indent : nat) (v : json) : string :=
  json_dumps_indent_at indent 0 v.

(** *** [json.loads]

    A recursive-descent reading of the grammar that [json.loads] accepts in
    its default (strict) mode, over the values of the embedding.  A
    document with a float literal (a fraction, an exponent, [NaN],
    [Infinity]) or with a [\u] escape of a code point above 255 lies
    outside the embedding; [json_loads] gives [None] for it, as it does for
    a document that Python rejects with [JSONDecodeError]. *)

Definition is_ws (c : ascii) : bool :=
  Ascii.eqb c " " || Ascii.eqb c chr_TAB || Ascii.eqb c chr_LF || Ascii.eqb c chr_CR.

Fixpoint skip_ws (s : string) : string :=
  match s with
  | EmptyString => s
  | String c s' => if is_ws c then skip_ws s' else s
  end.

(** [s.startswith(p)], with the remainder [s[len(p):]] when it holds. *)
Fixpoint strip_prefix (p s : string) : option string :=
  match p with
  | EmptyString => Some s
  | String a p' =>
      match s with
      | EmptyString => None
      | String b s' => if Ascii.eqb a b then strip_prefix p' s' else None
      end
  end.

Definition startswith (p s : string) : bool :=
  match strip_prefix p s with Some _ => true | None => false end.

Definition unescape (e : ascii) : option ascii :=
  if Ascii.eqb e chr_QUOTE then Some chr_QUOTE
  else if Ascii.eqb e chr_BACKSLASH then Some chr_BACKSLASH
  else if Ascii.eqb e "/" then Some "/"%char
  else if Ascii.eqb e "b" then Some chr_BS
  else if Ascii.eqb e "f" then Some chr_FF
  else if Ascii.eqb e "n" then Some chr_LF
  else if Ascii.eqb e "r" then Some chr_CR
  else if Ascii.eqb e "t" then Some chr_TAB
  else None.

(** The code point of [\uXXXX], when it is below 256. *)
Definition unescape_u (h1 h2 h3 h4 : ascii) : option ascii :=
  match hex_value h1, hex_value h2, hex_value h3, hex_value h4 with
  | Some a, Some b, Some c, Some d =>
      if ((a =? 0) && (b =? 0))%nat then Some (ascii_of_nat (16 * c + d)) else None
  | _, _, _, _ => None
  end.

(** The body of a string literal, after its opening quote: the decoded
    text and what follows the closing quote. *)
Fixpoint scan_string (s : string) : option (string * string) :=
  match s with
  | EmptyString => None
  | String c s' =>
      if Ascii.eqb c chr_QUOTE then Some ("", s')
      else if Ascii.eqb c chr_BACKSLASH then
        match s' with
        | EmptyString => None
        | String e s'' =>
            if Ascii.eqb e "u" then
              match s'' with
              | String h1 (String h2 (String h3 (String h4 s3))) =>
                  match unescape_u h1 h2 h3 h4, scan_string s3 with
                  | Some ch, Some (str, r) => Some (String ch str, r)
                  | _, _ => None
                  end
              | _ => None
              end
            else
              match unescape e, scan_string s'' with
              | Some ch, Some (str, r) => Some (String ch str, r)
              | _, _ => None
              end
        end
      else if (code c <? 32)%nat then None
      else
        match scan_string s' with
        | Some (str, r) => Some (String c str, r)
        | None => None
        end
  end.

Fixpoint take_digits (s : string) : string * string :=
  match s with
  | EmptyString => ("", "")
  | String c s' =>
      if is_digit c then let (ds, r) := take_digits s' in (String c ds, r)
      else ("", s)
  end.

(** The integer part [0|[1-9]\d*] of a number literal. *)
Definition scan_digits (s : string) : option (string * string) :=
  match s with
  | EmptyString => None
  | String c s' =>
      if Ascii.eqb c "0" then Some ("0", s')
      else if is_digit c then let (ds, r) := take_digits s' in Some (String c ds, r)
      else None
  end.

Definition Z_of_digits (ds : string) : Z :=
  match NilEmpty.uint_of_string ds with
  | Some u => Z.of_uint u
  | None => 0
  end.

(** Does a fraction [\.\d+] or an exponent [[eE][-+]?\d+] follow? *)
Definition float_follows (r : string) : bool :=
  match r with
  | String c (String d r') =>
      if Ascii.eqb c "." then is_digit d
      else if Ascii.eqb c "e" || Ascii.eqb c "E" then
        if is_digit d then true
        else if Ascii.eqb d "+" || Ascii.eqb d "-" then
          match r' with
          | String d' _ => is_digit d'
          | EmptyString => false
          end
        else false
      else false
  | _ => false
  end.

Definition scan_number (s : string) : option (Z * string) :=
  let (neg, s1) :=
    match s with
    | String c s' => if Ascii.eqb c "-" then (true, s') else (false, s)
    | EmptyString => (false, s)
    end in
  match scan_digits s1 with
  | Some (ds, r) =>
      if float_follows r then None
      else Some (if neg then - Z_of_digits ds else Z_of_digits ds, r)
  | None => None
  end.

Fixpoint parse_value (fuel : nat) (s : string) : option (json * string) :=
  match fuel with
  | O => None
  | S f =>
      match s with
      | EmptyString => None
      | String c s' =>
          if Ascii.eqb c chr_QUOTE then
            match scan_string s' with
            | Some (str, r) => Some (JStr str, r)
            | None => None
            end
          else if Ascii.eqb c "{" then
            match strip_prefix "}" (skip_ws s') with
            | Some r => Some (JDict [], r)
            | None =>
                match parse_members f (skip_ws s') with
                | Some (ms, r) => Some (JDict (Dict.of_pairs ms), r)
                | None => None
                end
            end
          else if Ascii.eqb c "[" then
            match strip_prefix "]" (skip_ws s') with
            | Some r => Some (JList [], r)
            | None =>
                match parse_elements f (skip_ws s') with
                | Some (vs, r) => Some (JList vs, r)
                | None => None
                end
            end
          else if Ascii.eqb c "n" then
            match strip_prefix "ull" s' with
            | Some r => Some (JNull, r)
            | None => None
            end
          else if Ascii.eqb c "t" then
            match strip_prefix "rue" s' with
            | Some r => Some (JBool true, r)
            | None => None
            end
          else if Ascii.eqb c "f" then
            match strip_prefix "alse" s' with
            | Some r => Some (JBool false, r)
            | None => None
            end
          else
            match scan_number s with
            | Some (z, r) => Some (JInt z, r)
            | None => None
            end
      end
  end

(** The elements of an array, from the start of an element to the closing
    bracket. *)
with parse_elements (fuel : nat) (s : string) : option (list json * string) :=
  match fuel with
  | O => None
  | S f =>
      match parse_value f s with
      | None => None
      | Some (v, r) =>
          match skip_ws r with
          | EmptyString => None
          | String c r' =>
              if Ascii.eqb c "," then
                match parse_elements f (skip_ws r') with
                | Some (vs, r'') => Some (v :: vs, r'')
                | None => None
                end
              else if Ascii.eqb c "]" then Some ([v], r')
              else None
          end
      end
  end

(** The members of an object, from the opening quote of a key to the
    closing brace. *)
with parse_members (fuel : nat) (s : string)
  : option (list (string * json) * string) :=
  match fuel with
  | O => None
  | S f =>
      match strip_prefix (String chr_QUOTE "") s with
      | None => None
      | Some s' =>
          match scan_string s' with
          | None => None
          | Some (k, r) =>
              match strip_prefix ":" (skip_ws r) with
              | None => None
              | Some r1 =>
                  match parse_value f (skip_ws r1) with
                  | None => None
                  | Some (v, r2) =>
                      match skip_ws r2 with
                      | EmptyString => None
                      | String c r3 =>
                          if Ascii.eqb c "," then
                            match parse_members f (skip_ws r3) with
                            | Some (ms, r4) => Some ((k, v) :: ms, r4)
                            | None => None
                            end
                          else if Ascii.eqb c "}" then Some ([(k, v)], r3)
                          else None
                      end
                  end
              end
          end
      end
  end.

(** [json.loads(s)]: one value, with white space allowed around it.  Every
    call of the descent but the first follows a consumed character or a
    call that consumes one, so twice the length of the text is fuel
    enough. *)
Definition json_loads (s : string) : option json :=
  match parse_value (2 * String.length s + 2) (skip_ws s) with
  | Some (v, r) =>
      match skip_ws r with
      | EmptyString => Some v
      | _ => None
      end
  | None => None
  end.

(** ** Exceptions

    An exception is recorded by what raised it.  [Raised] and
    [TransportError] come from collaborators (a tool, the model, the
    network) and carry their own text; the others are raised by the
    interpreter or a library on the value shown. *)

Inductive exn : Type :=
| DecodeError (doc : string)            (* json.JSONDecodeError on [doc] *)
| NotAString (v : json)                 (* TypeError: text expected *)
| NoAttribute (v : json) (a : string)   (* AttributeError: [v.a] *)
| Unhashable (v : json)                 (* TypeError: [v] as a dict key *)
| NotAContainer (v : json)              (* TypeError: [x in v] *)
| BadSubscript (v : json)               (* TypeError: [v[k]] with a str key *)
| KeyError (k : string)                 (* KeyError: [d[k]] *)
| NoLen (v : json)                      (* TypeError: [len(v)] *)
| NotAMapping (v : json)                (* TypeError: [f( **v )] *)
| BadArguments (kwargs : json)          (* TypeError: [f] does not take them *)
| Base64Error (s : string)              (* binascii.Error, UnicodeDecodeError *)
| StatusError (status : Z)              (* httpx.HTTPStatusError *)
| TransportError (msg : string)         (* another httpx.HTTPError *)
| Raised (msg : string).                (* any other exception *)

(** [isinstance(e, httpx.HTTPError)] *)
Definition is_HTTPError (e : exn) : bool :=
  match e with
  | StatusError _ | TransportError _ => true
  | _ => false
  end.

Inductive result (A : Type) : Type :=
| Ok (a : A)
| Raise (e : exn).

Arguments Ok {A} a.
Arguments Raise {A} e.

(** What the code takes from the Python runtime without defining it: the
    text [str(e)] of an exception that the interpreter or a library
    raises, and [base64.b64decode(s).decode()] ([None] when it raises). *)
Record runtime : Type := {
  describe : exn -> string;
  b64decode : string -> option string
}.

Definition str_exn (rt : runtime) (e : exn) : string :=
  match e with
  | TransportError msg | Raised msg => msg
  | _ => describe rt e
  end.

Module ResultNotations.
  Declare Scope result_scope.
  Delimit Scope result_scope with result.
  Notation "x <- e ;; k" :=
    (match e with Ok x => k | Raise err => Raise err end)
      (at level 61, e at next level, right associativity) : result_scope.
End ResultNotations.

Import ResultNotations.

(** *** Operations on values that can raise *)

(** [v == s] for a [str] literal [s] *)
Definition is_str (v : json) (s : string) : bool :=
  match v with
  | JStr s' => String.eqb s' s
  | _ => false
  end.

(** [v.get(k, default)]: only a dict has [get]. *)
Definition py_get (v : json) (k : string) (default : json) : result json :=
  match v with
  | JDict d => Ok (Dict.get_default k default d)
  | _ => Raise (NoAttribute v "get")
  end.

(** [needle in s] for two [str] *)
Fixpoint substring_of (needle s : string) : bool :=
  startswith needle s ||
  match s with
  | EmptyString => false
  | String _ s' => substring_of needle s'
  end.

(** [k in v] for a [str] literal [k]: a key of a dict, an element of a
    list, a substring of a str. *)
Definition py_in (k : string) (v : json) : result bool :=
  match v with
  | JDict d => Ok (Dict.mem k d)
  | JList l => Ok (existsb (fun x => is_str x k) l)
  | JStr s => Ok (substring_of k s)
  | _ => Raise (NotAContainer v)
  end.

(** [v[k]] for a [str] literal [k] *)
Definition py_getitem (v : json) (k : string) : result json :=
  match v with
  | JDict d =>
      match Dict.get k d with
      | Some x => Ok x
      | None => Raise (KeyError k)
      end
  | _ => Raise (BadSubscript v)
  end.

(** [len(v)] *)
Definition py_len (v : json) : result nat :=
  match v with
  | JStr s => Ok (String.length s)
  | JList l => Ok (List.length l)
  | JDict d => Ok (List.length d)
  | _ => Raise (NoLen v)
  end.

(** [json.loads(v)] on a Python value *)
Definition py_json_loads (v : json) : result json :=
  match v with
  | JStr s =>
      match json_loads s with
      | Some x => Ok x
      | None => Raise (DecodeError s)
      end
  | _ => Raise (NotAString v)
  end.

(** ** The Lambda responder ([mcp_lambda.py]) *)

Module McpLambdaServer.

(** A registered callable, applied to keyword arguments. *)
Definition callable : Type := Dict.t json -> result json.

(** [self.tools] *)
Definition registry : Type := Dict.t callable.

(** [__init__] *)
Definition init : registry := [].

(** [@server.tool(name)] on a function [fn] whose [__name__] is
    [fn_name]: [name or fn.__name__]. *)
Definition tool (name : option string) (fn_name : string) (fn : callable)
    (tools : registry) : registry :=
  let tool_name :=
    match name with
    | Some n => if String.eqb n "" then fn_name else n
    | None => fn_name
    end in
  Dict.set tool_name fn tools.

Definition envelope (payload : json) : json :=
  JDict [("statusCode", JInt 200);
         ("headers", JDict [("Content-Type", JStr "application/json")]);
         ("body", JStr (json_dumps payload))].

Definition _response (req_id result : json) : json :=
  envelope (JDict [("jsonrpc", JStr "2.0"); ("result", result); ("id", req_id)]).

Definition _error (req_id : json) (message : string) : json :=
  envelope (JDict [("jsonrpc", JStr "2.0");
                   ("error", JDict [("message", JStr message)]);
                   ("id", req_id)]).

(** [name not in self.tools], negated: hashing [name] comes first. *)
Definition registered (tools : registry) (name : json) : result (option callable) :=
  match name with
  | JList _ | JDict _ => Raise (Unhashable name)
  | JStr n => Ok (Dict.get n tools)
  | _ => Ok None
  end.

(** [fn( **args )] *)
Definition apply_kwargs (fn : callable) (args : json) : result json :=
  match args with
  | JDict kwargs => fn kwargs
  | _ => Raise (NotAMapping args)
  end.

Section Handle.
Variable rt : runtime.
Variable tools : registry.

(** The first lines of [handle]: the body of the event, base64-decoded
    when the event says so, read as JSON. *)
Definition request_of (event : Dict.t json) : result json :=
  (let body := Dict.get_default "body" (JStr "") event in
   body <-
     (if truthy (Dict.get_default "isBase64Encoded" JNull event) then
        match body with
        | JStr s =>
            match b64decode rt s with
            | Some s' => Ok (JStr s')
            | None => Raise (Base64Error s)
            end
        | _ => Raise (NotAString body)
        end
      else Ok body) ;;
   py_json_loads body)%result.

(** The rest of [handle], from [method = request.get("method")] on. *)
Definition dispatch (request : json) : result json :=
  (method <- py_get request "method" JNull ;;
   req_id <- py_get request "id" JNull ;;
   if is_str method "tools/list" then
     Ok (_response req_id
           (JDict [("tools",
                    JList (map (fun k => JDict [("name", JStr k)])
                               (Dict.keys tools)))]))
   else if is_str method "tools/call" then
     params <- py_get request "params" (JDict []) ;;
     name <- py_get params "name" JNull ;;
     args <- py_get params "arguments" (JDict []) ;;
     found <- registered tools name ;;
     match found with
     | None => Ok (_error req_id ("Unknown tool: " ++ py_str name))
     | Some fn =>
         match apply_kwargs fn args with
         | Ok res => Ok (_response req_id res)
         | Raise e => Ok (_error req_id (str_exn rt e))
         end
     end
   else Ok (_error req_id ("Unknown method: " ++ py_str method)))%result.

(** [handle(self, event, context)]; [context] is not used. *)
Definition handle (event : Dict.t json) : result json :=
  (request <- request_of event ;;
   dispatch request)%result.

End Handle.

End McpLambdaServer.

(** ** State and exceptions together

    Python mutates objects in place and a raised exception does not undo
    the mutations made before it: a computation maps a state to a
    [result] and the state reached, also when it raises. *)

Definition M (S A : Type) : Type := S -> result A * S.

Definition ret {S A} (a : A) : M S A := fun s => (Ok a, s).

Definition bind {S A B} (m : M S A) (k : A -> M S B) : M S B :=
  fun s =>
    match m s with
    | (Ok a, s') => k a s'
    | (Raise e, s') => (Raise e, s')
    end.

Definition lift {S A} (r : result A) : M S A := fun s => (r, s).

Definition get {S} : M S S := fun s => (Ok s, s).

Definition modify {S} (f : S -> S) : M S unit := fun s => (Ok tt, f s).

(** [try: m except Exception as e: h e] *)
Definition try_except {S A} (m : M S A) (h : exn -> M S A) : M S A :=
  fun s =>
    match m s with
    | (Ok a, s') => (Ok a, s')
    | (Raise e, s') => h e s'
    end.

(** Runs a computation on a component of a larger state. *)
Definition zoom {S T A} (proj : T -> S) (upd : S -> T -> T) (m : M S A) : M T A :=
  fun t =>
    match m (proj t) with
    | (r, s') => (r, upd s' t)
    end.

Module MNotations.
  Declare Scope M_scope.
  Delimit Scope M_scope with M.
  Notation "x <- e ;; k" := (bind e (fun x => k))
    (at level 61, e at next level, right associativity) : M_scope.
  Notation "e ;; k" := (bind e (fun _ => k))
    (at level 61, right associativity) : M_scope.
End MNotations.

Import MNotations.

(** ** The network, as the client sees it *)

Record http_request : Type := {
  rq_url : string;
  rq_json : json;                     (* the [json=] body *)
  rq_session : option string          (* the [Mcp-Session-Id] header *)
}.

Record http_response : Type := {
  status_code : Z;
  hdr_session_id : option string;     (* [headers.get("Mcp-Session-Id")] *)
  hdr_content_type : option string;   (* [headers.get("content-type")] *)
  text : string
}.

(** The remote end: the outcome of the last request of a history of
    requests, a response or an exception raised by [post]. *)
Definition server : Type := list http_request -> result http_response.

(** [response.raise_for_status()]: anything but a 2xx status raises. *)
Definition raise_for_status (r : http_response) : result unit :=
  if (200 <=? status_code r) && (status_code r <=? 299) then Ok tt
  else Raise (StatusError (status_code r)).

(** [response.json()] *)
Definition response_json (r : http_response) : result json :=
  py_json_loads (JStr (text r)).

(** ** Strings of the SSE scan *)

(** [str.isspace] on one code point below 256 *)
Definition is_space (c : ascii) : bool :=
  let n := code c in
  ((9 <=? n) && (n <=? 13) || (28 <=? n) && (n <=? 32) || (n =? 133) || (n =? 160))%nat.

Fixpoint lstrip (s : string) : string :=
  match s with
  | EmptyString => s
  | String c s' => if is_space c then lstrip s' else s
  end.

(** [s.rstrip()] for [keep = negb is_space]: the string up to its last
    character that is kept. *)
Fixpoint rstrip_by (keep : ascii -> bool) (s : string) : string :=
  match s with
  | EmptyString => ""
  | String c s' =>
      match rstrip_by keep s' with
      | EmptyString => if keep c then String c "" else ""
      | r => String c r
      end
  end.

(** [s.strip()] *)
Definition strip (s : string) : string :=
  rstrip_by (fun c => negb (is_space c)) (lstrip s).

(** [s.split(sep)] for a one-character separator *)
Fixpoint split (sep : ascii) (s : string) : list string :=
  match s with
  | EmptyString => [""]
  | String c s' =>
      if Ascii.eqb c sep then "" :: split sep s'
      else
        match split sep s' with
        | l :: ls => String c l :: ls
        | [] => [String c ""]
        end
  end.

(** ** The session client ([bot.py], [MCPClient]) *)

Record MCPClient : Type := {
  base_url : string;
  session_id : option string;
  request_id : Z;
  initialized : bool
}.

(** What a client acts on: its own fields and the requests posted so far. *)
Record world : Type := {
  client : MCPClient;
  sent : list http_request
}.

Module Client.

(** [MCPClient.__init__(base_url)] *)
Definition init (url : string) : MCPClient :=
  {| base_url := rstrip_by (fun c => negb (Ascii.eqb c "/")) url;
     session_id := None;
     request_id := 0;
     initialized := false |}.

Definition set_session_id (sid : string) : M world unit :=
  modify (fun w =>
    {| client := {| base_url := base_url (client w);
                    session_id := Some sid;
                    request_id := request_id (client w);
                    initialized := initialized (client w) |};
       sent := sent w |}).

Definition set_initialized : M world unit :=
  modify (fun w =>
    {| client := {| base_url := base_url (client w);
                    session_id := session_id (client w);
                    request_id := request_id (client w);
                    initialized := true |};
       sent := sent w |}).

(** [self.request_id += 1] *)
Definition next_request_id : M world unit :=
  modify (fun w =>
    {| client := {| base_url := base_url (client w);
                    session_id := session_id (client w);
                    request_id := request_id (client w) + 1;
                    initialized := initialized (client w) |};
       sent := sent w |}).

(** The header that [if self.session_id: headers[...] = self.session_id]
    adds. *)
Definition session_header (c : MCPClient) : option string :=
  match session_id c with
  | Some sid => if String.eqb sid "" then None else Some sid
  | None => None
  end.

Definition init_request : json :=
  JDict [("jsonrpc", JStr "2.0");
         ("method", JStr "initialize");
         ("params",
          JDict [("protocolVersion", JStr "2025-03-26");
                 ("capabilities", JDict []);
                 ("clientInfo",
                  JDict [("name", JStr "aws-news-slack-bot");
                         ("version", JStr "1.0.0")])]);
         ("id", JInt 0)].

Definition initialized_notification : json :=
  JDict [("jsonrpc", JStr "2.0");
         ("method", JStr "notifications/initialized")].

Definition json_rpc_request (tool_name : string) (arguments : json) (id : Z) : json :=
  JDict [("jsonrpc", JStr "2.0");
         ("method", JStr "tools/call");
         ("params", JDict [("name", JStr tool_name); ("arguments", arguments)]);
         ("id", JInt id)].

Section WithServer.
Variable rt : runtime.
Variable srv : server.

(** [await self.client.post(url, json=body, headers=...)] *)
Definition post (body : json) (session : option string) : M world http_response :=
  fun w =>
    let rq := {| rq_url := base_url (client w) ++ "/mcp";
                 rq_json := body;
                 rq_session := session |} in
    (srv (sent w ++ [rq])%list,
     {| client := client w; sent := (sent w ++ [rq])%list |}).

(** [response.headers.get("content-type", "")] holds ["text/event-stream"]. *)
Definition is_event_stream (response : http_response) : bool :=
  substring_of "text/event-stream"
    match hdr_content_type response with Some ct => ct | None => "" end.

(** The JSON branch of [initialize]: [inl b] is [return b], [inr b] is
    [init_success = b]. *)
Definition init_json_verdict (res : json) : result (bool + bool)%type :=
  (has_result <- py_in "result" res ;;
   if has_result then Ok (inr true)
   else
     has_error <- py_in "error" res ;;
     if has_error then
       err <- py_getitem res "error" ;;
       _ <- py_get err "message" (JStr "Unknown error") ;;
       Ok (inl false)
     else Ok (inl false))%result.

(** The body of [initialize]'s [try]. *)
Definition initialize_body : M world bool :=
  (w <- get ;;
   if initialized (client w) then ret true
   else
     response <- post init_request None ;;
     lift (raise_for_status response) ;;
     match hdr_session_id response with
     | Some sid => if String.eqb sid "" then ret tt else set_session_id sid
     | None => ret tt
     end ;;
     verdict <-
       (if is_event_stream response then ret (inr true)
        else
          res <- lift (response_json response) ;;
          lift (init_json_verdict res)) ;;
     match verdict with
     | inl b => ret b
     | inr init_success =>
         if init_success then
           w' <- get ;;
           post initialized_notification (session_header (client w')) ;;
           set_initialized ;;
           ret true
         else ret false
     end)%M.

(** [MCPClient.initialize] *)
Definition initialize : M world bool :=
  try_except initialize_body (fun _ => ret false).

(** What the SSE branch of [call_tool] does with one parsed data line:
    [Some text] is [return text], [None] goes on to the next line. *)
Definition sse_event (event_data : json) : result (option json) :=
  (match event_data with
   | JDict ev =>
       match Dict.get "result" ev with
       | Some (JDict tool_result) =>
           match Dict.get "content" tool_result with
           | Some (JList (first :: _)) =>
               has_text <- py_in "text" first ;;
               if has_text then
                 text <- py_getitem first "text" ;;
                 _ <- py_len text ;;
                 Ok (Some text)
               else Ok None
           | _ => Ok None
           end
       | _ => Ok None
       end
   | _ => Ok None
   end)%result.

(** [for line in lines: ...] over the lines that are left; [None] when the
    loop ends without a [return].  A line that [json.loads] rejects is
    skipped ([except json.JSONDecodeError: continue]); any other
    exception leaves the loop. *)
Fixpoint sse_scan (lines : list string) : result (option json) :=
  match lines with
  | [] => Ok None
  | line :: rest =>
      match strip_prefix "data: " line with
      | Some data_json =>
          match json_loads data_json with
          | None => sse_scan rest
          | Some event_data =>
              match sse_event event_data with
              | Ok (Some text) => Ok (Some text)
              | Ok None => sse_scan rest
              | Raise e => Raise e
              end
          end
      | None => sse_scan rest
      end
  end.

(** The SSE branch of [call_tool]. *)
Definition call_tool_sse (response_text : string) : result json :=
  match sse_scan (split chr_LF (strip response_text)) with
  | Ok (Some text) => Ok text
  | Ok None => Ok (JStr "Error: Could not parse SSE stream response")
  | Raise e => Raise e
  end.

(** The [content] extraction of the JSON branch: [None] when control
    falls through to the [isinstance(tool_result, str)] test. *)
Definition json_content_text (tool_result : json) : result (option json) :=
  (match tool_result with
   | JDict tr =>
       match Dict.get "content" tr with
       | Some (JList (first :: _)) =>
           has_text <- py_in "text" first ;;
           if has_text then
             text <- py_getitem first "text" ;;
             _ <- py_len text ;;
             Ok (Some text)
           else Ok None
       | _ => Ok None
       end
   | _ => Ok None
   end)%result.

(** The JSON branch of [call_tool], on [result = response.json()]. *)
Definition call_tool_json (res : json) : result json :=
  (match res with
   | JDict r =>
       match Dict.get "error" r with
       | Some err =>
           error_msg <- py_get err "message" (JStr (py_str err)) ;;
           Ok (JStr ("Error from MCP server: " ++ py_str error_msg))
       | None =>
           match Dict.get "result" r with
           | Some tool_result =>
               found <- json_content_text tool_result ;;
               match found with
               | Some text => Ok text
               | None =>
                   match tool_result with
                   | JStr _ => Ok tool_result
                   | _ => Ok (JStr (json_dumps_indent 2 tool_result))
                   end
               end
           | None => Ok (JStr (json_dumps_indent 2 res))
           end
       end
   | _ => Ok (JStr (json_dumps_indent 2 res))
   end)%result.

(** The first half of [call_tool]'s [try]: the handshake if it is still
    due, the next request id, and the post of the [tools/call] request. *)
Definition call_tool_request (tool_name : string) (arguments : json)
  : M world http_response :=
  (w <- get ;;
   (if initialized (client w) then ret false else initialize) ;;
   next_request_id ;;
   w' <- get ;;
   post (json_rpc_request tool_name arguments (request_id (client w')))
        (session_header (client w')))%M.

(** The second half: from [response.raise_for_status()] to the
    [return] of one of the two branches. *)
Definition call_tool_response (response : http_response) : result json :=
  (_ <- raise_for_status response ;;
   if is_event_stream response then call_tool_sse (text response)
   else
     res <- response_json response ;;
     call_tool_json res)%result.

(** The body of [call_tool]'s [try]. *)
Definition call_tool_body (tool_name : string) (arguments : json) : M world json :=
  (response <- call_tool_request tool_name arguments ;;
   lift (call_tool_response response))%M.

(** [MCPClient.call_tool] *)
Definition call_tool (tool_name : string) (arguments : json) : M world json :=
  try_except (call_tool_body tool_name arguments)
    (fun e =>
       if is_HTTPError e
       then ret (JStr ("Error calling tool: " ++ str_exn rt e))
       else ret (JStr ("Error: " ++ str_exn rt e))).

End WithServer.

End Client.

(** ** The tool-dispatch loop ([bot.py], [chat_with_llm]) *)

Record tool_call : Type := {
  tc_id : string;
  tc_name : string;                   (* [tool_call.function.name] *)
  tc_arguments : string               (* [tool_call.function.arguments] *)
}.

(** [response.choices[0].message]; [tool_calls] is empty for [None] too. *)
Record assistant_message : Type := {
  content : json;
  tool_calls : list tool_call
}.

(** The language model: the outcome of the last call of a history of
    calls, each call being the message sequence it was given.  The static
    tool list [MCP_TOOLS] is the same at every call and is left out. *)
Definition model : Type := list (list json) -> result assistant_message.

(** The state of one run of [chat_with_llm]: its local variables
    [messages] and [iteration], the calls made to the model, and the
    module-level [mcp_client] with its network. *)
Record chat : Type := {
  messages : list json;
  iteration : nat;
  asked : list (list json);
  mcp : world
}.

Module Chat.

Definition system_prompt : string :=
  "You are AWS News Bot, a helpful assistant that provides information about AWS services, announcements, and news.

You have access to tools that can fetch:
1. AWS news and blog posts for specific services
2. Latest AWS announcements from the official RSS feed

When users ask about AWS news, announcements, or updates:
- Use the appropriate tool to fetch current information
- Provide concise, helpful summaries
- Include relevant details like dates and service names
- If asked about " ++ String chr_QUOTE "this week" ++ String chr_QUOTE " or recent news, use the since_date parameter

Be conversational and helpful. If the question is not about AWS news, provide general assistance.".

Definition system_message : json :=
  JDict [("role", JStr "system"); ("content", JStr system_prompt)].

Definition user_record (user_message : json) : json :=
  JDict [("role", JStr "user"); ("content", user_message)].

Definition tool_call_record (tc : tool_call) : json :=
  JDict [("id", JStr (tc_id tc));
         ("type", JStr "function");
         ("function",
          JDict [("name", JStr (tc_name tc));
                 ("arguments", JStr (tc_arguments tc))])].

Definition assistant_record (m : assistant_message) : json :=
  JDict [("role", JStr "assistant");
         ("content", content m);
         ("tool_calls", JList (map tool_call_record (tool_calls m)))].

Definition tool_record (tc : tool_call) (tool_response : json) : json :=
  JDict [("role", JStr "tool");
         ("tool_call_id", JStr (tc_id tc));
         ("content", tool_response)].

Definition max_iterations : nat := 5.

Definition apology : string :=
  "I apologize, but I reached the maximum number of tool calls. Please try simplifying your question.".

(** [messages.append(m)] *)
Definition append_message (m : json) : M chat unit :=
  modify (fun c =>
    {| messages := (messages c ++ [m])%list;
       iteration := iteration c;
       asked := asked c;
       mcp := mcp c |}).

(** [iteration += 1] *)
Definition next_iteration : M chat unit :=
  modify (fun c =>
    {| messages := messages c;
       iteration := S (iteration c);
       asked := asked c;
       mcp := mcp c |}).

Section WithCollaborators.
Variable rt : runtime.
Variable srv : server.
Variable llm : model.

(** [azure_client.chat.completions.create(..., messages=messages, ...)]
    followed by [response.choices[0].message] *)
Definition ask_model : M chat assistant_message :=
  fun c =>
    (llm (asked c ++ [messages c])%list,
     {| messages := messages c;
        iteration := iteration c;
        asked := (asked c ++ [messages c])%list;
        mcp := mcp c |}).

(** [await mcp_client.call_tool(name, args)] *)
Definition mcp_call_tool (name : string) (args : json) : M chat json :=
  zoom mcp
    (fun w c => {| messages := messages c;
                   iteration := iteration c;
                   asked := asked c;
                   mcp := w |})
    (Client.call_tool rt srv name args).

(** [for tool_call in assistant_message.tool_calls: ...] *)
Fixpoint execute_tool_calls (calls : list tool_call) : M chat unit :=
  match calls with
  | [] => ret tt
  | tc :: rest =>
      (function_args <- lift (py_json_loads (JStr (tc_arguments tc))) ;;
       tool_response <- mcp_call_tool (tc_name tc) function_args ;;
       append_message (tool_record tc tool_response) ;;
       execute_tool_calls rest)%M
  end.

(** The body of the [try] of one iteration: [Some text] is
    [return text], [None] goes on to the next test of the [while]. *)
Definition iteration_body : M chat (option json) :=
  (reply <- ask_model ;;
   match tool_calls reply with
   | [] => ret (Some (content reply))
   | _ :: _ =>
       append_message (assistant_record reply) ;;
       execute_tool_calls (tool_calls reply) ;;
       ret None
   end)%M.

(** One pass through the body of the [while]. *)
Definition iteration_step : M chat (option json) :=
  (next_iteration ;;
   try_except iteration_body
     (fun e => ret (Some (JStr ("I encountered an error: " ++ str_exn rt e)))))%M.

(** The [while iteration < max_iterations] loop and the [return] after
    it, unfolded at most [fuel] times; [None] when [fuel] runs out
    with the loop still going. *)
Fixpoint dispatch_loop (fuel : nat) : M chat (option json) :=
  match fuel with
  | O => ret None
  | S fuel' =>
      (c <- get ;;
       if (iteration c <? max_iterations)%nat then
         r <- iteration_step ;;
         match r with
         | Some text => ret (Some text)
         | None => dispatch_loop fuel'
         end
       else ret (Some (JStr apology)))%M
  end.

(** The state in which the loop starts. *)
Definition start (user_message : json) (conversation_history : list json)
    (asked0 : list (list json)) (w : world) : chat :=
  {| messages := (system_message :: conversation_history ++ [user_record user_message])%list;
     iteration := 0;
     asked := asked0;
     mcp := w |}.

(** [chat_with_llm(user_message, conversation_history)], run with the
    given fuel from a state of the model and of the client. *)
Definition chat_with_llm (fuel : nat) (user_message : json)
    (conversation_history : list json)
    (asked0 : list (list json)) (w : world) : result (option json) * chat :=
  dispatch_loop fuel (start user_message conversation_history asked0 w).

End WithCollaborators.

End Chat.

(** ** Definitions of the statements *)

(** JSON texts in the statements below are written with ['] for the double
    quote. *)
Fixpoint dq (s : string) : string :=
  match s with
  | EmptyString => ""
  | String c s' => String (if Ascii.eqb c chr_APOS then chr_QUOTE else c) (dq s')
  end.

(** Keys of every dict inside a value are pairwise distinct, as they are in
    any Python dict. *)
Fixpoint distinct (l : list string) : bool :=
  match l with
  | [] => true
  | k :: l' => negb (existsb (String.eqb k) l') && distinct l'
  end.

Fixpoint unique_keys (v : json) : bool :=
  match v with
  | JList l => forallb unique_keys l
  | JDict d => distinct (map fst d) && forallb (fun kv => unique_keys (snd kv)) d
  | _ => true
  end.

(** Number of calls of the descent that reading a value back takes. *)
Fixpoint json_size (v : json) : nat :=
  match v with
  | JList l => S (list_sum (map (fun x => S (json_size x)) l))
  | JDict d => S (list_sum (map (fun kv => S (json_size (snd kv))) d))
  | _ => 1
  end.

(** What may follow a value inside a document. *)
Definition closes (rest : string) : Prop :=
  match rest with
  | EmptyString => True
  | String c _ => c = ","%char \/ c = "]"%char \/ c = "}"%char
  end.

(** The items of a [json.dumps] list and the members of a dict, between
    the brackets. *)
Fixpoint dumps_items (l : list json) : string :=
  match l with
  | [] => ""
  | [x] => json_dumps x
  | x :: l' => json_dumps x ++ ", " ++ dumps_items l'
  end.

Fixpoint dumps_members (d : list (string * json)) : string :=
  match d with
  | [] => ""
  | [(k, x)] => dumps_str k ++ ": " ++ json_dumps x
  | (k, x) :: d' => dumps_str k ++ ": " ++ json_dumps x ++ ", " ++ dumps_members d'
  end.

(** A runtime for the concrete cases: nothing base64-decodes and the texts
    of interpreter errors are empty.  No concrete case below depends on
    either. *)
Definition bare_runtime : runtime :=
  {| describe := fun _ => ""; b64decode := fun _ => None |}.

(** [out] is a transport envelope of status 200 whose body, read as JSON,
    is [payload]. *)
Definition envelope_200 (out : result json) (payload : json) : Prop :=
  exists body,
    out = Ok (JDict [("statusCode", JInt 200);
                     ("headers", JDict [("Content-Type", JStr "application/json")]);
                     ("body", JStr body)]) /\
    json_loads body = Some payload.

(** The JSON-RPC success and error envelopes. *)
Definition success_envelope (req_id res : json) : json :=
  JDict [("jsonrpc", JStr "2.0"); ("result", res); ("id", req_id)].

Definition error_envelope (req_id : json) (message : string) : json :=
  JDict [("jsonrpc", JStr "2.0");
         ("error", JDict [("message", JStr message)]);
         ("id", req_id)].

(** [r["content"][0]["text"]], when [r] has that shape: an object whose
    [content] is a list that starts with an object that has a [text]. *)
Definition first_text (r : json) : option json :=
  match r with
  | JDict tr =>
      match Dict.get "content" tr with
      | Some (JList (JDict first :: _)) => Dict.get "text" first
      | _ => None
      end
  | _ => None
  end.

(** [v["result"]["content"][0]["text"]], when [v] has that shape. *)
Definition content0_text (v : json) : option json :=
  match v with
  | JDict e =>
      match Dict.get "result" e with
      | Some r => first_text r
      | None => None
      end
  | _ => None
  end.

(** The echo tool [def echo(x): return x] and a registry that holds it. *)
Definition echo : McpLambdaServer.callable :=
  fun kwargs =>
    match kwargs with
    | [(k, v)] => if String.eqb k "x" then Ok v else Raise (BadArguments (JDict kwargs))
    | _ => Raise (BadArguments (JDict kwargs))
    end.

Definition echo_tools : McpLambdaServer.registry :=
  McpLambdaServer.tool None "echo" echo McpLambdaServer.init.

Definition echo_event : Dict.t json :=
  [("body",
    JStr (dq "{'jsonrpc':'2.0','method':'tools/call','params':{'name':'echo','arguments':{'x':'hi'}},'id':7}"))].




Definition parsed (text : string) : Dict.t json :=
  match json_loads (dq text) with
  | Some (JDict d) => d
  | _ => []
  end.

(** The id of a posted request when it is a [tools/call] request. *)
Definition tools_call_id (rq : http_request) : option Z :=
  match rq_json rq with
  | JDict d =>
      match Dict.get "method" d, Dict.get "id" d with
      | Some (JStr m), Some (JInt id) =>
          if String.eqb m "tools/call" then Some id else None
      | _, _ => None
      end
  | _ => None
  end.

(** The ids of the [tools/call] requests of a log, in the order posted. *)
Fixpoint tools_call_ids (log : list http_request) : list Z :=
  match log with
  | [] => []
  | rq :: log' =>
      match tools_call_id rq with
      | Some id => id :: tools_call_ids log'
      | None => tools_call_ids log'
      end
  end.

(** A request of the handshake: the [initialize] request or the
    [notifications/initialized] notification. *)
Definition is_handshake (rq : http_request) : Prop :=
  rq_json rq = Client.init_request \/ rq_json rq = Client.initialized_notification.

(** The two requests of one handshake, as a client with the given base
    URL posts them. *)
Definition handshake_posts (url : string) (session : option string) : list http_request :=
  [ {| rq_url := url ++ "/mcp"; rq_json := Client.init_request; rq_session := None |};
    {| rq_url := url ++ "/mcp"; rq_json := Client.initialized_notification;
       rq_session := session |} ].

(** A server that accepts everything: status 200 and the JSON body
    [{"result": {}}] for every request. *)
Definition accepting_server : server :=
  fun _ =>
    Ok {| status_code := 200;
          hdr_session_id := None;
          hdr_content_type := Some "application/json";
          text := dq "{'result': {}}" |}.

(** A world with a client just constructed and nothing posted yet. *)
Definition fresh (url : string) : world :=
  {| client := Client.init url; sent := [] |}.

(** The [tools/call] request that [call_tool] posts from the world [w1]
    reached after the handshake attempt, and the world after the post. *)
Definition tools_call_post (tool_name : string) (arguments : json) (w1 : world)
  : http_request :=
  {| rq_url := base_url (client w1) ++ "/mcp";
     rq_json := Client.json_rpc_request tool_name arguments (request_id (client w1) + 1);
     rq_session := Client.session_header (client w1) |}.

Definition posted (rq : http_request) (w1 : world) : world :=
  {| client := {| base_url := base_url (client w1);
                  session_id := session_id (client w1);
                  request_id := request_id (client w1) + 1;
                  initialized := initialized (client w1) |};
     sent := (sent w1 ++ [rq])%list |}.

(** The string that [call_tool] returns for an exception caught by its
    two [except] clauses. *)
Definition caught_text (rt : runtime) (e : exn) : json :=
  JStr ((if is_HTTPError e then "Error calling tool: " else "Error: ") ++ str_exn rt e).

(** The use of a session: calls of its two public methods, in order. *)
Inductive operation : Type :=
| Initialize
| CallTool (tool_name : string) (arguments : json).

Definition run_operation (rt : runtime) (srv : server) (w : world) (op : operation)
  : world :=
  match op with
  | Initialize => snd (Client.initialize srv w)
  | CallTool tool_name arguments => snd (Client.call_tool rt srv tool_name arguments w)
  end.

Definition run (rt : runtime) (srv : server) (ops : list operation) (w : world) : world :=
  fold_left (run_operation rt srv) ops w.

Fixpoint ids_from (start : Z) (n : nat) : list Z :=
  match n with
  | O => []
  | S n' => start :: ids_from (start + 1) n'
  end.

Definition is_call (op : operation) : bool :=
  match op with
  | CallTool _ _ => true
  | Initialize => false
  end.

(** The [initialize] request as a client with the given base URL posts it. *)
Definition initialize_post (url : string) : http_request :=
  {| rq_url := url ++ "/mcp"; rq_json := Client.init_request; rq_session := None |}.

(** A server that refuses the handshake while issuing a session id: every
    answer has status 200, the header [Mcp-Session-Id: abc] and a JSON-RPC
    error as its body. *)
Definition refusing_server : server :=
  fun _ =>
    Ok {| status_code := 200;
          hdr_session_id := Some "abc";
          hdr_content_type := Some "application/json";
          text := dq "{'error': {'message': 'not now'}}" |}.

(** [hash(v)] does not raise. *)
Definition hashable (v : json) : bool :=
  match v with
  | JList _ | JDict _ => false
  | _ => true
  end.

(** A request object on which the dispatch of [handle] does not raise:
    when its method is [tools/call], its [params] (an empty object when
    absent) is an object and the [name] in it is hashable. *)
Definition dispatchable (request : Dict.t json) : Prop :=
  Dict.get_default "method" JNull request = JStr "tools/call" ->
  exists params,
    Dict.get_default "params" (JDict []) request = JDict params /\
    hashable (Dict.get_default "name" JNull params) = true.

(** A server whose every [post] raises a transport error. *)
Definition unreachable_server : server :=
  fun _ => Raise (TransportError "All connection attempts failed").


(** [len(v)] does not raise. *)
Definition has_len (v : json) : bool :=
  match v with
  | JStr _ | JList _ | JDict _ => true
  | _ => false
  end.

(** The typing of a tool result that the client relies on: when
    [content] is a non-empty list, its first element is an object, and a
    [text] in it is a string (or another value with a length). *)
Definition content_typed (tool_result : json) : bool :=
  match tool_result with
  | JDict tr =>
      match Dict.get "content" tr with
      | Some (JList (first :: _)) =>
          match first with
          | JDict f =>
              match Dict.get "text" f with
              | Some t => has_len t
              | None => true
              end
          | _ => false
          end
      | _ => true
      end
  | _ => true
  end.

(** The typing of a parsed JSON response: an [error] is an object, and a
    [result] is typed as above. *)
Definition response_typed (res : json) : bool :=
  match res with
  | JDict r =>
      match Dict.get "error" r with
      | Some (JDict _) => true
      | Some _ => false
      | None =>
          match Dict.get "result" r with
          | Some tool_result => content_typed tool_result
          | None => true
          end
      end
  | _ => true
  end.

(** What C2 says [call_tool] returns for a parsed JSON body, case by
    case. *)
Definition json_text_spec (res : json) : json :=
  match res with
  | JDict r =>
      match Dict.get "error" r with
      | Some err =>
          JStr ("Error from MCP server: " ++
                py_str match err with
                       | JDict e => Dict.get_default "message" (JStr (py_str err)) e
                       | _ => err
                       end)
      | None =>
          match Dict.get "result" r with
          | Some tool_result =>
              match first_text tool_result with
              | Some text => text
              | None =>
                  match tool_result with
                  | JStr _ => tool_result
                  | _ => JStr (json_dumps_indent 2 tool_result)
                  end
              end
          | None => JStr (json_dumps_indent 2 res)
          end
      end
  | _ => JStr (json_dumps_indent 2 res)
  end.






(** A server that answers every request with status 200 and the given
    content type and body. *)
Definition answering (content_type body : string) : server :=
  fun _ =>
    Ok {| status_code := 200;
          hdr_session_id := None;
          hdr_content_type := Some content_type;
          text := body |}.

(** The argument string of a requested call reads as JSON. *)
Definition arguments_parse (tc : tool_call) : Prop :=
  json_loads (tc_arguments tc) <> None.

(** The tool-result entries for calls and the texts returned for them. *)
Definition tool_records (calls : list tool_call) (responses : list json) : list json :=
  map (fun p => Chat.tool_record (fst p) (snd p)) (combine calls responses).

(** A model that requests the same single tool call on every reply, with
    the given argument string. *)
Definition stubborn_model (arguments : string) : model :=
  fun _ =>
    Ok {| content := JNull;
          tool_calls := [ {| tc_id := "call_1";
                             tc_name := "get_aws_feed_news";
                             tc_arguments := arguments |} ] |}.

(** A model whose reply requests two tool calls. *)
Definition two_calls_model : model :=
  fun _ =>
    Ok {| content := JNull;
          tool_calls := [ {| tc_id := "call_1";
                             tc_name := "get_aws_news";
                             tc_arguments := dq "{'topic': 's3'}" |};
                          {| tc_id := "call_2";
                             tc_name := "get_aws_feed_news";
                             tc_arguments := "{}" |} ] |}.

(** A model that answers at once. *)
Definition answering_model (answer : string) : model :=
  fun _ => Ok {| content := JStr answer; tool_calls := [] |}.

(** Induction on values, with the elements of a list and the members of a
    dict as induction hypotheses. *)
Section JsonInduction.
Variable P : json -> Prop.
Hypothesis Hnull : P JNull.
Hypothesis Hbool : forall b, P (JBool b).
Hypothesis Hint : forall z, P (JInt z).
Hypothesis Hstr : forall s, P (JStr s).
Hypothesis Hlist : forall l, Forall P l -> P (JList l).
Hypothesis Hdict : forall d, Forall (fun kv => P (snd kv)) d -> P (JDict d).

Fixpoint json_ind (v : json) : P v :=
  match v with
  | JNull => Hnull
  | JBool b => Hbool b
  | JInt z => Hint z
  | JStr s => Hstr s
  | JList l =>
      Hlist l
        ((fix all (l : list json) : Forall P l :=
            match l with
            | [] => Forall_nil P
            | x :: l' => Forall_cons x (json_ind x) (all l')
            end) l)
  | JDict d =>
      Hdict d
        ((fix all (d : list (string * json)) : Forall (fun kv => P (snd kv)) d :=
            match d with
            | [] => Forall_nil _
            | kv :: d' => Forall_cons kv (json_ind (snd kv)) (all d')
            end) d)
  end.
End JsonInduction.

(** What may follow the digits of a number. *)
Definition not_digit_next (rest : string) : Prop :=
  match rest with
  | EmptyString => True
  | String c _ => is_digit c = false
  end.

(** A character on which a value can begin. *)
Definition begins_value (c : ascii) : Prop :=
  is_ws c = false /\ c <> "]"%char /\ c <> "}"%char.

(** What the round trip says of one value. *)
Definition reads_back (v : json) : Prop :=
  unique_keys v = true ->
  forall fuel rest,
    (json_size v <= fuel)%nat -> closes rest ->
    parse_value fuel (json_dumps v ++ rest) = Some (v, rest).

(** ** The rest of the responder: registration and the feed tool *)

(** The name under which [@server.tool(name)] registers a function whose
    [__name__] is [fn_name]. *)
Definition tool_key (name : option string) (fn_name : string) : string :=
  match name with
  | Some n => if String.eqb n "" then fn_name else n
  | None => fn_name
  end.

(** One use of the decorator: its argument, and the function decorated. *)
Record registration : Type := {
  reg_name : option string;
  reg_fn_name : string;
  reg_fn : McpLambdaServer.callable
}.

(** The registry after the decorators of a module have run, in order. *)
Definition register_all (regs : list registration) : McpLambdaServer.registry :=
  fold_left
    (fun tools r => McpLambdaServer.tool (reg_name r) (reg_fn_name r) (reg_fn r) tools)
    regs McpLambdaServer.init.

(** The [result] of a [tools/list] response for a list of names. *)
Definition tools_listing (names : list string) : json :=
  JDict [("tools", JList (map (fun k => JDict [("name", JStr k)]) names))].

(** *** [main.py] *)

Module Main.

Definition AWS_FEED : string :=
  "https://aws.amazon.com/about-aws/whats-new/recent/feed/".

(** An entry of [feed.entries]: a mapping with text values. *)
Definition entry : Type := Dict.t string.

(** [str.lower] on one code point below 256: the upper-case letters are
    65..90, 192..214 and 216..222. *)
Definition lower_char (c : ascii) : ascii :=
  let n := code c in
  if ((65 <=? n) && (n <=? 90) || (192 <=? n) && (n <=? 214)
      || (216 <=? n) && (n <=? 222))%nat
  then ascii_of_nat (n + 32)
  else c.

Fixpoint lower (s : string) : string :=
  match s with
  | EmptyString => ""
  | String c s' => String (lower_char c) (lower s')
  end.

(** [l[:n]] for an integer [n]: a negative [n] counts from the end. *)
Definition slice_to {A : Type} (n : Z) (l : list A) : list A :=
  if 0 <=? n then firstn (Z.to_nat n) l
  else firstn (List.length l - Z.to_nat (- n)) l.

(** [sep.join(l)] *)
Fixpoint join (sep : string) (l : list string) : string :=
  match l with
  | [] => ""
  | [x] => x
  | x :: l' => x ++ sep ++ join sep l'
  end.

Definition title (e : entry) : string := Dict.get_default "title" "" e.
Definition link (e : entry) : string := Dict.get_default "link" "" e.

(** [f"- {title}\n  {link}"] *)
Definition item (e : entry) : string :=
  "- " ++ title e ++ String chr_LF ("  " ++ link e).

(** The negation of the test before [continue]:
    [search_keywords and search_keywords.lower() not in title.lower()]. *)
Definition keeps (search_keywords : json) (e : entry) : result bool :=
  if truthy search_keywords then
    match search_keywords with
    | JStr k => Ok (substring_of (lower k) (lower (title e)))
    | _ => Raise (NoAttribute search_keywords "lower")
    end
  else Ok true.

(** The [for] loop over the entries that are left: [results]. *)
Fixpoint collect (search_keywords : json) (entries : list entry) : result (list string) :=
  match entries with
  | [] => Ok []
  | e :: rest =>
      (keep <- keeps search_keywords e ;;
       results <- collect search_keywords rest ;;
       Ok (if keep then item e :: results else results))%result
  end.

(** [feed.entries[:max_articles]]: [None] and booleans are slice indices
    too; for anything else the slice raises [TypeError], which is
    recorded as [BadArguments]. *)
Definition sliced (max_articles : json) (entries : list entry) : result (list entry) :=
  match max_articles with
  | JInt n => Ok (slice_to n entries)
  | JBool b => Ok (slice_to (if b then 1 else 0) entries)
  | JNull => Ok entries
  | _ => Raise (BadArguments (JDict [("max_articles", max_articles)]))
  end.

(** [get_aws_feed_news(max_articles, search_keywords)], with [entries]
    what [feedparser.parse(AWS_FEED).entries] holds at the call. *)
Definition get_aws_feed_news (entries : list entry) (max_articles search_keywords : json)
  : result json :=
  (shown <- sliced max_articles entries ;;
   results <- collect search_keywords shown ;;
   let text := join (String chr_LF (String chr_LF "")) results in
   Ok (JStr (if String.eqb text "" then "No results" else text)))%result.

(** The function as the registry holds it: keyword arguments bound to
    its two parameters and their defaults; another keyword is a
    [TypeError]. *)
Definition get_aws_feed_news_tool (entries : list entry) : McpLambdaServer.callable :=
  fun kwargs =>
    if forallb (fun kv => String.eqb (fst kv) "max_articles"
                          || String.eqb (fst kv) "search_keywords") kwargs
    then get_aws_feed_news entries
           (Dict.get_default "max_articles" (JInt 10) kwargs)
           (Dict.get_default "search_keywords" JNull kwargs)
    else Raise (BadArguments (JDict kwargs)).

(** [server], after [@server.tool()] on [get_aws_feed_news]. *)
Definition server (entries : list entry) : McpLambdaServer.registry :=
  McpLambdaServer.tool None "get_aws_feed_news" (get_aws_feed_news_tool entries)
    McpLambdaServer.init.


End Main.

(** The entries that [get_aws_feed_news] lists for an integer
    [max_articles] and a keyword: the first ones, then those of them
    whose title has the keyword, whatever the case of the letters. *)
Definition title_matches (keyword : string) (e : Main.entry) : bool :=
  String.eqb keyword "" || substring_of (Main.lower keyword) (Main.lower (Main.title e)).

Definition listed (entries : list Main.entry) (max_articles : Z) (keyword : string)
  : list Main.entry :=
  filter (title_matches keyword) (Main.slice_to max_articles entries).

(** Concrete registrations and events for the cases below. *)
Definition tools_list_event : Dict.t json :=
  [("body", JStr (dq "{'jsonrpc':'2.0','method':'tools/list','id':9}"))].

Definition constant_tool (v : json) : McpLambdaServer.callable := fun _ => Ok v.

Definition sample_registrations : list registration :=
  [ {| reg_name := None; reg_fn_name := "echo"; reg_fn := echo |};
    {| reg_name := Some "ping"; reg_fn_name := "f"; reg_fn := constant_tool (JStr "pong") |};
    {| reg_name := Some "echo"; reg_fn_name := "g"; reg_fn := constant_tool JNull |} ].

(** A runtime that decodes the one base64 text of the case below, which
    stands for [{"method":"tools/list","id":1}]. *)
Definition sample_b64_runtime : runtime :=
  {| describe := fun _ => "";
     b64decode := fun s =>
       if String.eqb s "eyJtZXRob2QiOiJ0b29scy9saXN0IiwiaWQiOjF9"
       then Some (dq "{'method':'tools/list','id':1}")
       else None |}.

Definition base64_event : Dict.t json :=
  [("body", JStr "eyJtZXRob2QiOiJ0b29scy9saXN0IiwiaWQiOjF9");
   ("isBase64Encoded", JBool true)].

(** The keyword that a [search_keywords] of [None] or of a text stands
    for; the empty keyword filters nothing. *)
Definition keyword_text (search_keywords : json) : string :=
  match search_keywords with
  | JStr k => k
  | _ => ""
  end.

(** The text returned for the entries that are listed. *)
Definition rendered (l : list Main.entry) : string :=
  match l with
  | [] => "No results"
  | _ => Main.join (String chr_LF (String chr_LF "")) (map Main.item l)
  end.

Definition sample_feed : list Main.entry :=
  [ [("title", "Amazon S3 adds a feature"); ("link", "https://aws.example/s3")];
    [("title", "AWS Lambda update"); ("link", "https://aws.example/lambda")];
    [("title", "More about s3 storage"); ("link", "https://aws.example/s3-2")] ].

(** ** Statements about the session client *)

(** [n] times the character [c]. *)
Fixpoint repeat_char (c : ascii) (n : nat) : string :=
  match n with
  | O => ""
  | S n' => String c (repeat_char c n')
  end.

(** [s.endswith(c)] for one character *)
Fixpoint ends_with (c : ascii) (s : string) : bool :=
  match s with
  | EmptyString => false
  | String a EmptyString => Ascii.eqb a c
  | String _ s' => ends_with c s'
  end.



(** The [params] of a posted request when it is a [tools/call] request. *)
Definition tools_call_params (rq : http_request) : option json :=
  match rq_json rq with
  | JDict d =>
      match Dict.get "method" d, Dict.get "params" d with
      | Some (JStr m), Some params =>
          if String.eqb m "tools/call" then Some params else None
      | _, _ => None
      end
  | _ => None
  end.

(** A server that accepts the handshake with an SSE response that issues
    the session id [abc], and answers every later request alike. *)
Definition streaming_server (body : string) : server :=
  fun _ =>
    Ok {| status_code := 200;
          hdr_session_id := Some "abc";
          hdr_content_type := Some "text/event-stream";
          text := body |}.

(** A server that answers every request with the given status, a session
    header and a JSON body that would accept the handshake. *)
Definition status_server (status : Z) : server :=
  fun _ =>
    Ok {| status_code := status;
          hdr_session_id := Some "abc";
          hdr_content_type := Some "application/json";
          text := dq "{'result': {}}" |}.


(** The [params] that a [tools/call] request for a tool and its
    arguments carries. *)
Definition call_params (tool_name : string) (arguments : json) : json :=
  JDict [("name", JStr tool_name); ("arguments", arguments)].

(** The [params] of the [tools/call] requests of a log, in the order
    posted. *)
Fixpoint calls_posted (log : list http_request) : list json :=
  match log with
  | [] => []
  | rq :: rest =>
      match tools_call_params rq with
      | Some params => params :: calls_posted rest
      | None => calls_posted rest
      end
  end.

(** The calls that the [for] loop over requested tool calls reaches: the
    requested calls up to the first whose argument string does not read
    as JSON, each with its name and its parsed arguments. *)
Fixpoint parsed_calls (calls : list tool_call) : list json :=
  match calls with
  | [] => []
  | tc :: rest =>
      match json_loads (tc_arguments tc) with
      | Some function_args => call_params (tc_name tc) function_args :: parsed_calls rest
      | None => []
      end
  end.

(** The calls that one reply of the model leads to. *)
Definition requested (reply : result assistant_message) : list json :=
  match reply with
  | Ok m => parsed_calls (tool_calls m)
  | Raise _ => []
  end.

(** What [chat_with_llm] returns for a reply of the model that ends the
    loop: the content of a reply without tool calls, or the text of the
    [except] clause. *)
Definition final_text (rt : runtime) (reply : result assistant_message) : json :=
  match reply with
  | Ok m => content m
  | Raise e => JStr ("I encountered an error: " ++ str_exn rt e)
  end.

(** A model that asks for one call of [get_aws_feed_news] until it sees a
    tool result in the conversation, and then answers. *)
Definition one_call_model : model :=
  fun history =>
    match last history [] with
    | [_; _] =>
        Ok {| content := JNull;
              tool_calls := [ {| tc_id := "call_1";
                                 tc_name := "get_aws_feed_news";
                                 tc_arguments := dq "{'max_articles': 3}" |} ] |}
    | _ => Ok {| content := JStr "Here is the news."; tool_calls := [] |}
    end.

(** ** The start-up check of the MCP server ([bot.py]) *)

(** [v.startswith(prefix)] *)
Definition py_startswith (v : json) (prefix : string) : result bool :=
  match v with
  | JStr s => Ok (startswith prefix s)
  | _ => Raise (NoAttribute v "startswith")
  end.

Module Validate.

Section WithServer.
Variable rt : runtime.
Variable srv : server.

(** The arguments of the probe call. *)
Definition probe_arguments : json := JDict [("max_articles", JInt 1)].

(** [validate_mcp_server()].  The GET of the health endpoint comes first
    in the source; whatever its outcome (a bare [except] around it), it
    only writes to the log, so it is left out and [srv] is the server as
    it answers the requests posted after it. *)
Definition validate_mcp_server : M world bool :=
  try_except
    (init_success <- Client.initialize srv ;;
     if negb init_success then ret false
     else
       res <- Client.call_tool rt srv "get_aws_feed_news" probe_arguments ;;
       is_error <- lift (py_startswith res "Error") ;;
       if is_error then ret false else ret true)%M
    (fun _ => ret false).

End WithServer.

End Validate.

(** A server that answers every request with status 200 and a JSON
    result whose [content] is empty. *)
Definition empty_content_server : server :=
  answering "application/json" (dq "{'result': {'content': []}}").

(** A server that answers every request with status 200 and a JSON-RPC
    error. *)
Definition json_rpc_error_server : server :=
  answering "application/json"
    (dq "{'result': {}, 'error': {'code': -32601, 'message': 'Unknown tool'}}").

(** ** The Slack handlers ([bot.py]) *)

(** [re.search(r'<@[A-Z0-9]+>', text)] *)

(** A character of the class [[A-Z0-9]]. *)
Definition is_id_char (c : ascii) : bool :=
  let n := code c in
  ((65 <=? n) && (n <=? 90) || (48 <=? n) && (n <=? 57))%nat.

(** The longest run of class characters at the start of a string, and
    what follows it. *)
Fixpoint id_run (s : string) : string * string :=
  match s with
  | EmptyString => ("", "")
  | String c s' =>
      if is_id_char c then
        let (run, rest) := id_run s' in (String c run, rest)
      else ("", s)
  end.

(** The match of the pattern at the start of a string.  No character of
    the class is [>], so the run that [+] takes is the longest one. *)
Definition mention_at (s : string) : option string :=
  match strip_prefix "<@" s with
  | Some after =>
      match id_run after with
      | (String c run, String ">" _) => Some ("<@" ++ String c run ++ ">")
      | _ => None
      end
  | None => None
  end.

(** The leftmost match: [bot_mention.group()], [None] for no match. *)
Fixpoint search_mention (s : string) : option string :=
  match mention_at s with
  | Some m => Some m
  | None =>
      match s with
      | EmptyString => None
      | String _ s' => search_mention s'
      end
  end.

(** [s.replace(old, '')] for a non-empty [old]: the occurrences of [old]
    are taken out from left to right, [skip] being what is left to drop
    of the occurrence found last. *)
Fixpoint remove_from (old : string) (skip : nat) (s : string) : string :=
  match s with
  | EmptyString => ""
  | String c s' =>
      match skip with
      | S k => remove_from old k s'
      | O =>
          if startswith old s then remove_from old (String.length old - 1) s'
          else String c (remove_from old 0 s')
      end
  end.

Definition remove_all (old s : string) : string := remove_from old 0 s.

(** Lines 503-505 of [handle_mention]: the text without the occurrences
    of its first mention, stripped; the text as it is when it has no
    mention.  [re.search] raises [TypeError] on what is not a string. *)
Definition without_mention (text : json) : result string :=
  match text with
  | JStr s =>
      match search_mention s with
      | Some m => Ok (strip (remove_all m s))
      | None => Ok s
      end
  | _ => Raise (NotAString text)
  end.

(** [v.strip()] *)
Definition py_strip (v : json) : result string :=
  match v with
  | JStr s => Ok (strip s)
  | _ => Raise (NoAttribute v "strip")
  end.

(** [event.get('thread_ts', event['ts'])]: the attribute is looked up
    first, and the default is evaluated whether it is needed or not. *)
Definition thread_of (event : json) : result json :=
  match event with
  | JDict d =>
      match Dict.get "ts" d with
      | Some ts => Ok (Dict.get_default "thread_ts" ts d)
      | None => Raise (KeyError "ts")
      end
  | _ => Raise (NoAttribute event "get")
  end.

(** A call of [say]: its [text], and its [thread_ts] when it gives
    one. *)
Record say_call : Type := {
  say_text : json;
  say_thread_ts : option json
}.

(** Slack, as the handlers see it: the outcome of the last call of a
    history of calls of [say]. *)
Definition slack : Type := list say_call -> result unit.

(** What the handlers work on: the calls made to the model, the
    module-level [mcp_client] with its network, and the calls of [say]. *)
Record bot : Type := {
  llm_asked : list (list json);
  bot_mcp : world;
  said : list say_call
}.

Module Handlers.

Definition greeting (user_id : json) : string :=
  "Hi <@" ++ py_str user_id
  ++ ">! Ask me anything about AWS news and announcements. For example: 'What's new with EC2 this week?'".

Definition thinking (user_id : json) : string :=
  "<@" ++ py_str user_id ++ "> bot is thinking... :mag:".

Definition reply (user_id response : json) : string :=
  "<@" ++ py_str user_id ++ "> " ++ py_str response.

Definition sorry (rt : runtime) (e : exn) : string :=
  "Sorry, I encountered an error: " ++ str_exn rt e.

Section WithCollaborators.
Variable rt : runtime.
Variable srv : server.
Variable llm : model.
Variable api : slack.

(** [await say(text=text)], [await say(text=text, thread_ts=thread_ts)] *)
Definition say (text : json) (thread_ts : option json) : M bot unit :=
  fun b =>
    let calls := (said b ++ [ {| say_text := text; say_thread_ts := thread_ts |} ])%list in
    (api calls, {| llm_asked := llm_asked b; bot_mcp := bot_mcp b; said := calls |}).

(** [await chat_with_llm(text)]: the loop of [chat_with_llm] with fuel
    for one test of the [while] more than it can pass, so that it ends
    by itself. *)
Definition ask (text : json) : M bot json :=
  fun b =>
    match Chat.chat_with_llm rt srv llm (S Chat.max_iterations) text []
            (llm_asked b) (bot_mcp b) with
    | (r, c) =>
        (match r with
         | Ok (Some answer) => Ok answer
         | Ok None => Raise (Raised "the loop has not ended")
         | Raise e => Raise e
         end,
         {| llm_asked := asked c; bot_mcp := mcp c; said := said b |})
    end.

(** [handle_mention(event, say, logger)] *)
Definition handle_mention (event : json) : M bot unit :=
  try_except
    (user_id <- lift (py_getitem event "user") ;;
     text <- lift (py_getitem event "text") ;;
     thread_ts <- lift (thread_of event) ;;
     text <- lift (without_mention text) ;;
     if String.eqb text "" then say (JStr (greeting user_id)) (Some thread_ts)
     else
       say (JStr (thinking user_id)) (Some thread_ts) ;;
       response <- ask (JStr text) ;;
       say (JStr (reply user_id response)) (Some thread_ts))%M
    (fun e =>
       (thread_ts <- lift (thread_of event) ;;
        say (JStr (sorry rt e)) (Some thread_ts))%M).

(** [handle_direct_message(event, say, logger)] *)
Definition handle_direct_message (event : json) : M bot unit :=
  (bot_id <- lift (py_get event "bot_id" JNull) ;;
   if truthy bot_id then ret tt
   else
     thread_ts <- lift (py_get event "thread_ts" JNull) ;;
     if truthy thread_ts then ret tt
     else
       channel_type <- lift (py_get event "channel_type" JNull) ;;
       if negb (is_str channel_type "im") then ret tt
       else
         try_except
           (user_id <- lift (py_getitem event "user") ;;
            text <- lift (py_get event "text" (JStr "")) ;;
            text <- lift (py_strip text) ;;
            if String.eqb text "" then ret tt
            else
              response <- ask (JStr text) ;;
              say response None)
           (fun e => say (JStr (sorry rt e)) None))%M.

End WithCollaborators.

End Handlers.



(** The first conversation that [chat_with_llm] shows to the model for a
    message and no history. *)
Definition opening (user_message : json) : list json :=
  [Chat.system_message; Chat.user_record user_message].

(** Slack accepting every call of [say]. *)
Definition accepting_slack : slack := fun _ => Ok tt.

(** Slack rejecting every call of [say]. *)
Definition rejecting_slack : slack := fun _ => Raise (Raised "channel_not_found").

(** An [app_mention] event in a thread. *)
Definition sample_mention : Dict.t json :=
  [("user", JStr "U2");
   ("text", JStr "<@U1> what is new? cc <@U9> <@U1> ");
   ("ts", JStr "1730.2");
   ("thread_ts", JStr "1730.1")].

(** A direct message. *)
Definition sample_direct_message : Dict.t json :=
  [("user", JStr "U2");
   ("text", JStr "  what is new?  ");
   ("ts", JStr "1730.2");
   ("channel_type", JStr "im")].

(** A bot that has not run yet. *)
Definition idle_bot : bot :=
  {| llm_asked := []; bot_mcp := fresh "http://mcp"; said := [] |}.

(** * Verification *)

(** ** Reading back what [json.dumps] writes *)

Lemma append_assoc (a b c : string) : (a ++ b) ++ c = a ++ (b ++ c).
Proof. induction a as [|x a IH]; simpl; [reflexivity | now rewrite IH]. Qed.

Lemma scan_string_escape_char (c : ascii) (tail : string) :
  scan_string (escape_char c ++ tail) =
  match scan_string tail with
  | Some (str, r) => Some (String c str, r)
  | None => None
  end.
Proof.
  destruct c as [[] [] [] [] [] [] [] []]; reflexivity.
Qed.

Lemma scan_string_escape (s rest : string) :
  scan_string (escape_chars s ++ String chr_QUOTE rest) = Some (s, rest).
Proof.
  induction s as [|c s IH]; [reflexivity|].
  cbn [escape_chars]. rewrite append_assoc, scan_string_escape_char, IH.
  reflexivity.
Qed.

Lemma dumps_str_app (s rest : string) :
  dumps_str s ++ rest = String chr_QUOTE (escape_chars s ++ String chr_QUOTE rest).
Proof.
  unfold dumps_str. cbn [append]. now rewrite append_assoc.
Qed.

(** *** Integers *)

Lemma take_digits_uint (d : Decimal.uint) (rest : string) :
  not_digit_next rest ->
  take_digits (NilEmpty.string_of_uint d ++ rest) = (NilEmpty.string_of_uint d, rest).
Proof.
  intros Hrest.
  induction d as [|d IH|d IH|d IH|d IH|d IH|d IH|d IH|d IH|d IH|d IH];
    try (cbn [NilEmpty.string_of_uint append take_digits];
         change (is_digit _) with true; cbn iota; now rewrite IH).
  cbn [NilEmpty.string_of_uint append].
  destruct rest as [|c r]; [reflexivity|].
  cbn [take_digits]. cbn in Hrest. now rewrite Hrest.
Qed.

Lemma nzhead_not_D0 (u u' : Decimal.uint) : Decimal.nzhead u <> Decimal.D0 u'.
Proof.
  induction u; cbn; try discriminate. exact IHu.
Qed.

Lemma to_uint_unorm (p : positive) : Decimal.unorm (Pos.to_uint p) = Pos.to_uint p.
Proof.
  rewrite <- DecimalPos.Unsigned.to_of, DecimalPos.Unsigned.of_to. reflexivity.
Qed.

(** The decimal digits of a positive number: no leading zero. *)
Lemma to_uint_head (p : positive) :
  exists c s, NilEmpty.string_of_uint (Pos.to_uint p) = String c s /\
              is_digit c = true /\ c <> "0"%char.
Proof.
  pose proof (to_uint_unorm p) as Hn.
  pose proof (DecimalPos.Unsigned.to_uint_nonzero p) as Hz.
  pose proof (DecimalPos.Unsigned.to_uint_nonnil p) as Hnil.
  destruct (Pos.to_uint p) as [|u|u|u|u|u|u|u|u|u|u] eqn:E;
    try (eexists; eexists; split; [reflexivity | split; [reflexivity | discriminate]]).
  - congruence.
  - exfalso. rewrite DecimalFacts.unorm_D0 in Hn. unfold Decimal.unorm in Hn.
    destruct (Decimal.nzhead u) as [|u'|u'|u'|u'|u'|u'|u'|u'|u'|u'] eqn:En;
      first [ apply Hz; congruence | apply (nzhead_not_D0 u u'); congruence | congruence ].
Qed.

Lemma Z_of_digits_to_uint (p : positive) :
  Z_of_digits (NilEmpty.string_of_uint (Pos.to_uint p)) = Z.pos p.
Proof.
  unfold Z_of_digits. rewrite NilEmpty.usu. unfold Z.of_uint.
  now rewrite DecimalPos.Unsigned.of_to.
Qed.

Lemma string_of_uint_nonnil (d : Decimal.uint) :
  d <> Decimal.Nil -> NilZero.string_of_uint d = NilEmpty.string_of_uint d.
Proof. destruct d; intros H; [congruence | reflexivity ..]. Qed.

Lemma scan_digits_pos (p : positive) (rest : string) :
  not_digit_next rest ->
  scan_digits (NilEmpty.string_of_uint (Pos.to_uint p) ++ rest) =
  Some (NilEmpty.string_of_uint (Pos.to_uint p), rest).
Proof.
  intros Hrest.
  pose proof (take_digits_uint (Pos.to_uint p) rest Hrest) as Ht.
  destruct (to_uint_head p) as (c & s & E & Hd & Hc).
  rewrite E in *. cbn [append] in *. unfold scan_digits.
  destruct (Ascii.eqb c "0") eqn:E0; [apply Ascii.eqb_eq in E0; contradiction|].
  rewrite Hd. cbn [take_digits] in Ht. rewrite Hd in Ht.
  destruct (take_digits (s ++ rest)) as [ds r]. inversion Ht; subst. reflexivity.
Qed.

Lemma closes_not_digit (rest : string) : closes rest -> not_digit_next rest.
Proof.
  destruct rest as [|c r]; [trivial|]. cbn. intros [-> | [-> | ->]]; reflexivity.
Qed.

Lemma closes_not_float (rest : string) : closes rest -> float_follows rest = false.
Proof.
  destruct rest as [|c [|d r]]; [reflexivity | reflexivity |].
  cbn. intros [-> | [-> | ->]]; reflexivity.
Qed.

Lemma scan_number_str_of_Z (z : Z) (rest : string) :
  closes rest -> scan_number (str_of_Z z ++ rest) = Some (z, rest).
Proof.
  intros Hc. pose proof (closes_not_digit _ Hc) as Hd.
  pose proof (closes_not_float _ Hc) as Hf.
  unfold str_of_Z. destruct z as [|p|p]; cbn [Z.to_int NilZero.string_of_int].
  - cbn. now rewrite Hf.
  - rewrite string_of_uint_nonnil by apply DecimalPos.Unsigned.to_uint_nonnil.
    unfold scan_number.
    destruct (to_uint_head p) as (c & s & E & Hdc & Hc0).
    assert (Hminus : Ascii.eqb c "-" = false).
    { destruct (Ascii.eqb c "-") eqn:Em; [|reflexivity].
      apply Ascii.eqb_eq in Em. subst c. discriminate. }
    pose proof (scan_digits_pos p rest Hd) as Hs.
    rewrite E in *. cbn [append] in *. rewrite Hminus, Hs, Hf.
    rewrite <- E, Z_of_digits_to_uint. reflexivity.
  - rewrite string_of_uint_nonnil by apply DecimalPos.Unsigned.to_uint_nonnil.
    unfold scan_number. cbn [append]. change (Ascii.eqb "-" "-") with true. cbn iota.
    rewrite (scan_digits_pos p rest Hd), Hf, Z_of_digits_to_uint. reflexivity.
Qed.

(** *** Values *)

Lemma json_dumps_list (l : list json) :
  json_dumps (JList l) = "[" ++ dumps_items l ++ "]".
Proof. reflexivity. Qed.

Lemma json_dumps_dict (d : list (string * json)) :
  json_dumps (JDict d) = "{" ++ dumps_members d ++ "}".
Proof. reflexivity. Qed.

Lemma str_of_Z_head (z : Z) :
  exists c s, str_of_Z z = String c s /\ (is_digit c = true \/ c = "-"%char).
Proof.
  unfold str_of_Z. destruct z as [|p|p]; cbn [Z.to_int NilZero.string_of_int].
  - exists "0"%char, "". split; [reflexivity | left; reflexivity].
  - rewrite string_of_uint_nonnil by apply DecimalPos.Unsigned.to_uint_nonnil.
    destruct (to_uint_head p) as (c & s & E & Hd & _). exists c, s. auto.
  - eexists; eexists. split; [reflexivity | right; reflexivity].
Qed.

Lemma digit_or_minus_cases (c : ascii) :
  is_digit c = true \/ c = "-"%char ->
  begins_value c /\
  Ascii.eqb c chr_QUOTE = false /\ Ascii.eqb c "{" = false /\
  Ascii.eqb c "[" = false /\ Ascii.eqb c "n" = false /\
  Ascii.eqb c "t" = false /\ Ascii.eqb c "f" = false.
Proof.
  intros [H | ->].
  - destruct c as [[] [] [] [] [] [] [] []]; try discriminate H;
      (repeat split; try reflexivity; discriminate).
  - repeat split; try reflexivity; discriminate.
Qed.

Lemma json_dumps_head (v : json) :
  exists c s, json_dumps v = String c s /\ begins_value c.
Proof.
  destruct v as [|[]|z|s|l|d];
    try (eexists; eexists; split; [reflexivity | repeat split; try reflexivity; discriminate]).
  destruct (str_of_Z_head z) as (c & s & E & H).
  exists c, s. split; [exact E | apply (digit_or_minus_cases c H)].
Qed.

Lemma skip_ws_begins (c : ascii) (s : string) :
  is_ws c = false -> skip_ws (String c s) = String c s.
Proof. intros H. cbn [skip_ws]. now rewrite H. Qed.

Lemma skip_ws_dumps (v : json) (rest : string) :
  skip_ws (json_dumps v ++ rest) = json_dumps v ++ rest.
Proof.
  destruct (json_dumps_head v) as (c & s & E & Hw & _).
  rewrite E. cbn [append]. now apply skip_ws_begins.
Qed.

Lemma strip_prefix_char_neq (a c : ascii) (s : string) :
  c <> a -> strip_prefix (String a "") (String c s) = None.
Proof.
  intros H. cbn [strip_prefix].
  destruct (Ascii.eqb a c) eqn:E; [|reflexivity].
  apply Ascii.eqb_eq in E. congruence.
Qed.

Lemma parse_value_JInt (f : nat) (z : Z) (rest : string) :
  closes rest -> parse_value (S f) (str_of_Z z ++ rest) = Some (JInt z, rest).
Proof.
  intros Hc. pose proof (scan_number_str_of_Z z rest Hc) as Hs.
  destruct (str_of_Z_head z) as (c & s & E & H).
  rewrite E in *. cbn [append] in *.
  destruct (digit_or_minus_cases c H) as (_ & H1 & H2 & H3 & H4 & H5 & H6).
  cbn [parse_value]. now rewrite H1, H2, H3, H4, H5, H6, Hs.
Qed.

Lemma parse_value_JStr (f : nat) (s rest : string) :
  parse_value (S f) (dumps_str s ++ rest) = Some (JStr s, rest).
Proof.
  rewrite dumps_str_app. cbn [parse_value].
  change (Ascii.eqb chr_QUOTE chr_QUOTE) with true. cbn iota.
  now rewrite scan_string_escape.
Qed.

Lemma set_fresh {V : Type} (k : string) (v : V) (acc : Dict.t V) :
  existsb (String.eqb k) (map fst acc) = false ->
  Dict.set k v acc = (acc ++ [(k, v)])%list.
Proof.
  induction acc as [|[k' v'] acc IH]; cbn; [reflexivity|].
  intros H. apply orb_false_iff in H as [H1 H2].
  rewrite H1. now rewrite IH.
Qed.

Lemma distinct_app_fresh (k : string) (pre post : list string) :
  distinct (pre ++ k :: post) = true -> existsb (String.eqb k) pre = false.
Proof.
  induction pre as [|a pre IH]; cbn; [reflexivity|].
  intros H. apply andb_true_iff in H as [H1 H2].
  rewrite (IH H2), orb_false_r.
  apply negb_true_iff in H1. rewrite existsb_app in H1.
  apply orb_false_iff in H1 as [_ H1]. cbn in H1.
  apply orb_false_iff in H1 as [H1 _].
  now rewrite String.eqb_sym.
Qed.

Lemma fold_set_distinct {V : Type} (ps acc : list (string * V)) :
  distinct (map fst (acc ++ ps)) = true ->
  fold_left (fun d kv => Dict.set (fst kv) (snd kv) d) ps acc = (acc ++ ps)%list.
Proof.
  revert acc. induction ps as [|[k v] ps IH]; intros acc H; cbn [fold_left].
  - now rewrite app_nil_r.
  - cbn [fst snd]. rewrite set_fresh.
    + rewrite IH; rewrite <- app_assoc; [reflexivity | exact H].
    + rewrite map_app in H. cbn [map fst] in H.
      now apply distinct_app_fresh in H.
Qed.

Lemma of_pairs_distinct {V : Type} (d : list (string * V)) :
  distinct (map fst d) = true -> Dict.of_pairs d = d.
Proof. intros H. unfold Dict.of_pairs. now rewrite fold_set_distinct. Qed.

Lemma parse_elements_dumps (l : list json) :
  Forall reads_back l -> forallb unique_keys l = true -> l <> [] ->
  forall fuel rest,
    (list_sum (map (fun x => S (json_size x)) l) <= fuel)%nat ->
    parse_elements fuel (dumps_items l ++ String "]" rest) = Some (l, rest).
Proof.
  induction l as [|x l IH]; intros Hall Hk Hne fuel rest Hfuel; [congruence|].
  inversion Hall as [|? ? Hx Hl]; subst.
  cbn [forallb] in Hk. apply andb_true_iff in Hk as [Hkx Hkl].
  unfold list_sum in Hfuel. cbn [map fold_right] in Hfuel.
  destruct fuel as [|f]; [lia|].
  destruct l as [|y l'].
  - cbn [dumps_items parse_elements].
    rewrite (Hx Hkx f (String "]" rest)); [| lia | cbn; auto].
    reflexivity.
  - change (dumps_items (x :: y :: l'))
      with (json_dumps x ++ ", " ++ dumps_items (y :: l')).
    rewrite !append_assoc. cbn [parse_elements].
    rewrite (Hx Hkx f); [| lia | cbn; auto].
    cbn [append skip_ws]. change (is_ws ",") with false. cbn iota.
    change (Ascii.eqb "," ",") with true. cbn iota.
    change (is_ws " ") with true. cbn iota.
    destruct (json_dumps_head y) as (c & s & E & Hw & _).
    assert (Hskip : skip_ws (dumps_items (y :: l') ++ String "]" rest)
                    = dumps_items (y :: l') ++ String "]" rest).
    { destruct l'; cbn [dumps_items]; rewrite ?append_assoc;
        rewrite E; cbn [append]; now apply skip_ws_begins. }
    change (skip_ws (String " " ?s)) with (skip_ws s).
    rewrite Hskip, (IH Hl Hkl); [reflexivity | discriminate |].
    unfold list_sum in *. cbn [map fold_right] in *. lia.
Qed.

Lemma parse_member_prefix (f : nat) (k : string) (x : json) (tail : string) :
  reads_back x -> unique_keys x = true -> (json_size x <= f)%nat -> closes tail ->
  parse_members (S f) (dumps_str k ++ ": " ++ json_dumps x ++ tail) =
  match skip_ws tail with
  | EmptyString => None
  | String c r3 =>
      if Ascii.eqb c "," then
        match parse_members f (skip_ws r3) with
        | Some (ms, r4) => Some ((k, x) :: ms, r4)
        | None => None
        end
      else if Ascii.eqb c "}" then Some ([(k, x)], r3)
      else None
  end.
Proof.
  intros Hx Hk Hf Hc.
  rewrite dumps_str_app. cbn [parse_members strip_prefix].
  change (Ascii.eqb chr_QUOTE chr_QUOTE) with true. cbn iota.
  rewrite scan_string_escape.
  cbn [append skip_ws]. change (is_ws ":") with false. cbn iota.
  cbn [strip_prefix]. change (Ascii.eqb ":" ":") with true. cbn iota.
  change (skip_ws (String " " ?s)) with (skip_ws s).
  rewrite skip_ws_dumps, (Hx Hk f tail Hf Hc). reflexivity.
Qed.

Lemma parse_members_dumps (d : list (string * json)) :
  Forall (fun kv => reads_back (snd kv)) d ->
  forallb (fun kv => unique_keys (snd kv)) d = true -> d <> [] ->
  forall fuel rest,
    (list_sum (map (fun kv => S (json_size (snd kv))) d) <= fuel)%nat ->
    parse_members fuel (dumps_members d ++ String "}" rest) = Some (d, rest).
Proof.
  induction d as [|[k x] d IH]; intros Hall Hk Hne fuel rest Hfuel; [congruence|].
  inversion Hall as [|? ? Hx Hd]; subst. cbn [snd] in Hx.
  cbn [forallb snd] in Hk. apply andb_true_iff in Hk as [Hkx Hkd].
  unfold list_sum in Hfuel. cbn [map fold_right snd] in Hfuel.
  destruct fuel as [|f]; [lia|].
  destruct d as [|[k' y] d'].
  - cbn [dumps_members]. rewrite !append_assoc.
    rewrite parse_member_prefix; [reflexivity | assumption | assumption | lia | cbn; auto].
  - change (dumps_members ((k, x) :: (k', y) :: d'))
      with (dumps_str k ++ ": " ++ json_dumps x ++ ", " ++ dumps_members ((k', y) :: d')).
    rewrite !append_assoc.
    rewrite parse_member_prefix; [| assumption | assumption | lia | cbn; auto].
    cbn [append skip_ws]. change (is_ws ",") with false. cbn iota.
    change (Ascii.eqb "," ",") with true. cbn iota.
    change (skip_ws (String " " ?s)) with (skip_ws s).
    assert (Hskip : skip_ws (dumps_members ((k', y) :: d') ++ String "}" rest)
                    = dumps_members ((k', y) :: d') ++ String "}" rest).
    { destruct d' as [|[]]; cbn [dumps_members]; rewrite ?append_assoc;
        rewrite dumps_str_app; reflexivity. }
    rewrite Hskip, (IH Hd Hkd); [reflexivity | discriminate |].
    unfold list_sum in *. cbn [map fold_right snd] in *. lia.
Qed.

Lemma parse_value_dumps (v : json) : reads_back v.
Proof.
  induction v as [|b|z|s|l IH|d IH] using json_ind; intros Hk fuel rest Hfuel Hc;
    (destruct fuel as [|f]; [cbn in Hfuel; lia|]).
  - reflexivity.
  - destruct b; reflexivity.
  - now apply parse_value_JInt.
  - now apply parse_value_JStr.
  - rewrite json_dumps_list. cbn [unique_keys] in Hk. cbn [json_size] in Hfuel.
    destruct l as [|x l'].
    + reflexivity.
    + rewrite !append_assoc. cbn [append parse_value].
      change (Ascii.eqb "[" chr_QUOTE) with false.
      change (Ascii.eqb "[" "{") with false.
      change (Ascii.eqb "[" "[") with true. cbn iota.
      assert (Hskip : skip_ws (dumps_items (x :: l') ++ String "]" rest)
                      = dumps_items (x :: l') ++ String "]" rest).
      { destruct (json_dumps_head x) as (c & s & E & Hw & _).
        destruct l'; cbn [dumps_items]; rewrite ?append_assoc;
          rewrite E; cbn [append]; now apply skip_ws_begins. }
      assert (Hopen : strip_prefix "]" (dumps_items (x :: l') ++ String "]" rest) = None).
      { destruct (json_dumps_head x) as (c & s & E & _ & Hb & _).
        destruct l'; cbn [dumps_items]; rewrite ?append_assoc;
          rewrite E; cbn [append]; now apply strip_prefix_char_neq. }
      rewrite Hskip, Hopen, (parse_elements_dumps _ IH Hk); [reflexivity | discriminate | lia].
  - rewrite json_dumps_dict. cbn [unique_keys] in Hk. cbn [json_size] in Hfuel.
    apply andb_true_iff in Hk as [Hdist Hk].
    destruct d as [|[k x] d'].
    + reflexivity.
    + rewrite !append_assoc. cbn [append parse_value].
      change (Ascii.eqb "{" chr_QUOTE) with false.
      change (Ascii.eqb "{" "{") with true. cbn iota.
      assert (Hhead : exists s, dumps_members ((k, x) :: d') ++ String "}" rest
                                = String chr_QUOTE s).
      { destruct d' as [|[]]; cbn [dumps_members]; rewrite ?append_assoc;
          rewrite dumps_str_app; eexists; reflexivity. }
      destruct Hhead as (s & Hs).
      assert (Hskip : skip_ws (dumps_members ((k, x) :: d') ++ String "}" rest)
                      = dumps_members ((k, x) :: d') ++ String "}" rest)
        by (rewrite Hs; reflexivity).
      assert (Hopen : strip_prefix "}" (dumps_members ((k, x) :: d') ++ String "}" rest) = None)
        by (rewrite Hs; reflexivity).
      rewrite Hskip, Hopen, (parse_members_dumps _ IH Hk); [| discriminate | lia].
      now rewrite of_pairs_distinct.
Qed.

Lemma length_append (a b : string) :
  String.length (a ++ b) = (String.length a + String.length b)%nat.
Proof. induction a as [|c a IH]; cbn; [reflexivity | now rewrite IH]. Qed.

Lemma json_size_bound (v : json) :
  (json_size v <= 2 * String.length (json_dumps v))%nat.
Proof.
  induction v as [|b|z|s|l IH|d IH] using json_ind;
    try (match goal with
         | |- context [json_dumps ?v] =>
             destruct (json_dumps_head v) as (c & t & E & _);
             cbn [json_size]; rewrite E; cbn [String.length]; lia
         end).
  - rewrite json_dumps_list, !length_append. cbn [json_size String.length].
    enough (list_sum (map (fun x => S (json_size x)) l)
            <= 2 * String.length (dumps_items l) + 1)%nat by lia.
    induction IH as [|x l Hx Hl IHl]; [cbn; lia|].
    unfold list_sum in *. cbn [map fold_right].
    destruct l as [|y l'].
    + cbn [map fold_right dumps_items]. lia.
    + change (dumps_items (x :: y :: l'))
        with (json_dumps x ++ ", " ++ dumps_items (y :: l')).
      rewrite !length_append. cbn [String.length]. lia.
  - rewrite json_dumps_dict, !length_append. cbn [json_size String.length].
    enough (list_sum (map (fun kv => S (json_size (snd kv))) d)
            <= 2 * String.length (dumps_members d) + 1)%nat by lia.
    induction IH as [|[k x] d Hx Hd IHd]; [cbn; lia|].
    unfold list_sum in *. cbn [map fold_right snd] in *.
    destruct d as [|[k' y] d'].
    + cbn [map fold_right dumps_members]. rewrite !length_append. lia.
    + change (dumps_members ((k, x) :: (k', y) :: d'))
        with (dumps_str k ++ ": " ++ json_dumps x ++ ", " ++ dumps_members ((k', y) :: d')).
      rewrite !length_append. cbn [String.length]. lia.
Qed.

Lemma append_empty (s : string) : s ++ "" = s.
Proof. induction s as [|c s IH]; cbn; [reflexivity | now rewrite IH]. Qed.

(** [json.loads(json.dumps(v)) == v] *)
Lemma json_loads_dumps (v : json) :
  unique_keys v = true -> json_loads (json_dumps v) = Some v.
Proof.
  intros Hk. unfold json_loads.
  pose proof (skip_ws_dumps v "") as Hskip. rewrite append_empty in Hskip.
  pose proof (parse_value_dumps v Hk (2 * String.length (json_dumps v) + 2)%nat "") as Hp.
  rewrite append_empty in Hp.
  rewrite Hskip, Hp; [reflexivity | | exact I].
  pose proof (json_size_bound v). lia.
Qed.

(** *** What [json.loads] returns has no repeated key *)

Lemma set_keys {V : Type} (k : string) (v : V) (d : Dict.t V) :
  map fst (Dict.set k v d) =
  if existsb (String.eqb k) (map fst d) then map fst d else (map fst d ++ [k])%list.
Proof.
  induction d as [|[k' v'] d IH]; cbn; [reflexivity|].
  destruct (String.eqb k k') eqn:E; cbn.
  - apply String.eqb_eq in E. now subst.
  - rewrite IH. now destruct (existsb (String.eqb k) (map fst d)).
Qed.

Lemma distinct_snoc (l : list string) (k : string) :
  distinct l = true -> existsb (String.eqb k) l = false ->
  distinct (l ++ [k]) = true.
Proof.
  induction l as [|a l IH]; cbn; [reflexivity|].
  intros H1 H2. apply andb_true_iff in H1 as [Ha Hl].
  apply orb_false_iff in H2 as [Hka Hkl].
  rewrite (IH Hl Hkl), andb_true_r.
  rewrite existsb_app. cbn. apply negb_true_iff in Ha.
  rewrite Ha, String.eqb_sym, Hka. reflexivity.
Qed.

Lemma set_distinct {V : Type} (k : string) (v : V) (d : Dict.t V) :
  distinct (map fst d) = true -> distinct (map fst (Dict.set k v d)) = true.
Proof.
  intros H. rewrite set_keys.
  destruct (existsb (String.eqb k) (map fst d)) eqn:E; [exact H|].
  now apply distinct_snoc.
Qed.

Lemma set_forallb {V : Type} (P : V -> bool) (k : string) (v : V) (d : Dict.t V) :
  forallb (fun kv => P (snd kv)) d = true -> P v = true ->
  forallb (fun kv => P (snd kv)) (Dict.set k v d) = true.
Proof.
  intros Hd Hv. induction d as [|[k' v'] d IH]; cbn in *; [now rewrite Hv|].
  apply andb_true_iff in Hd as [H1 H2].
  destruct (String.eqb k k'); cbn; [now rewrite Hv, H2 | now rewrite H1, IH].
Qed.

Lemma of_pairs_unique (ms : list (string * json)) :
  forallb (fun kv => unique_keys (snd kv)) ms = true ->
  unique_keys (JDict (Dict.of_pairs ms)) = true.
Proof.
  intros H. unfold Dict.of_pairs.
  assert (G : forall acc,
             unique_keys (JDict acc) = true ->
             unique_keys (JDict (fold_left (fun d kv => Dict.set (fst kv) (snd kv) d)
                                            ms acc)) = true).
  { induction ms as [|[k x] ms IH]; intros acc Hacc; [exact Hacc|].
    cbn [forallb snd] in H. apply andb_true_iff in H as [Hx Hms].
    cbn [fold_left fst snd]. apply (IH Hms).
    cbn [unique_keys] in *. apply andb_true_iff in Hacc as [H1 H2].
    now rewrite set_distinct, set_forallb. }
  now apply G.
Qed.

Ltac parse_step :=
  match goal with
  | H : Some _ = Some _ |- _ => inversion H; subst; clear H
  | H : None = Some _ |- _ => discriminate H
  | H : context [match ?x with _ => _ end] |- _ => destruct x eqn:?
  | H : context [if ?b then _ else _] |- _ => destruct b eqn:?
  end.

Lemma parse_unique (fuel : nat) :
  (forall s v r, parse_value fuel s = Some (v, r) -> unique_keys v = true) /\
  (forall s vs r, parse_elements fuel s = Some (vs, r) ->
                  forallb unique_keys vs = true) /\
  (forall s ms r, parse_members fuel s = Some (ms, r) ->
                  forallb (fun kv => unique_keys (snd kv)) ms = true).
Proof.
  induction fuel as [|f (IHv & IHe & IHm)];
    [repeat split; intros; discriminate|].
  repeat split.
  - intros s v r H. cbn [parse_value] in H.
    repeat parse_step; try reflexivity.
    + apply of_pairs_unique. eauto.
    + cbn [unique_keys]. eauto.
  - intros s vs r H. cbn [parse_elements] in H.
    repeat parse_step; cbn [forallb].
    + erewrite IHv, IHe by eauto. reflexivity.
    + erewrite IHv by eauto. reflexivity.
  - intros s ms r H. cbn [parse_members] in H.
    repeat parse_step; cbn [forallb snd].
    + erewrite IHv, IHm by eauto. reflexivity.
    + erewrite IHv by eauto. reflexivity.
Qed.

Lemma json_loads_unique (s : string) (v : json) :
  json_loads s = Some v -> unique_keys v = true.
Proof.
  unfold json_loads. intros H.
  destruct (parse_value _ _) as [[v' r]|] eqn:E; [|discriminate].
  destruct (skip_ws r); [|discriminate]. inversion H; subst.
  eapply (proj1 (parse_unique _)); eauto.
Qed.

(** ** The Lambda responder *)

Lemma get_default_unique (k : string) (d : Dict.t json) :
  unique_keys (JDict d) = true ->
  unique_keys (Dict.get_default k JNull d) = true.
Proof.
  cbn [unique_keys]. intros H. apply andb_true_iff in H as [_ H].
  unfold Dict.get_default.
  induction d as [|[k' v] d IH]; cbn in *; [reflexivity|].
  apply andb_true_iff in H as [Hv Hd].
  destruct (String.eqb k k'); auto.
Qed.

Lemma request_of_unique (rt : runtime) (event : Dict.t json) (request : json) :
  McpLambdaServer.request_of rt event = Ok request -> unique_keys request = true.
Proof.
  unfold McpLambdaServer.request_of, py_json_loads. intros H.
  repeat parse_step; try discriminate;
    match goal with
    | H : Ok _ = Ok _ |- _ => inversion H; subst; clear H
    end; eauto using json_loads_unique.
Qed.

Lemma envelope_reads_back (payload : json) :
  unique_keys payload = true ->
  envelope_200 (Ok (McpLambdaServer.envelope payload)) payload.
Proof.
  intros H. exists (json_dumps payload). split; [reflexivity|].
  now apply json_loads_dumps.
Qed.

Lemma success_envelope_unique (req_id res : json) :
  unique_keys req_id = true -> unique_keys res = true ->
  unique_keys (success_envelope req_id res) = true.
Proof. intros H1 H2. cbn. now rewrite H1, H2. Qed.

Lemma error_envelope_unique (req_id : json) (message : string) :
  unique_keys req_id = true ->
  unique_keys (error_envelope req_id message) = true.
Proof. intros H. cbn. now rewrite H. Qed.



(** C1, as stated, fails: the body that [handle] returns for the echo
    call reads back as a success envelope whose [result] is the string
    ["hi"] itself, so there is no [result.content[0].text] in it. *)
Lemma echo_result_is_not_content_wrapped :
  exists payload,
    (forall rt, envelope_200 (McpLambdaServer.handle rt echo_tools echo_event) payload) /\
    Dict.get "result" (match payload with JDict d => d | _ => [] end) = Some (JStr "hi") /\
    content0_text payload = None.
Proof.
  exists (success_envelope (JInt 7) (JStr "hi")).
  split; [|split; reflexivity].
  intros rt. eexists. split; reflexivity.
Qed.

(** C1, amended. For every tool registered as [echo] that returns its
    argument unchanged, [handle] with method [tools/call] and params
    [{"name":"echo","arguments":{"x":"hi"}}] returns a status-200 envelope
    whose body, read as JSON, is the JSON-RPC success envelope with the
    request's id whose [result] is the string ["hi"] itself. *)
Theorem echo_roundtrip
    (rt : runtime) (tools : McpLambdaServer.registry) (fn : McpLambdaServer.callable)
    (event request params : Dict.t json) :
  Dict.get "echo" tools = Some fn ->
  (forall v, fn [("x", v)] = Ok v) ->
  McpLambdaServer.request_of rt event = Ok (JDict request) ->
  Dict.get "method" request = Some (JStr "tools/call") ->
  Dict.get "params" request = Some (JDict params) ->
  Dict.get "name" params = Some (JStr "echo") ->
  Dict.get "arguments" params = Some (JDict [("x", JStr "hi")]) ->
  envelope_200 (McpLambdaServer.handle rt tools event)
    (success_envelope (Dict.get_default "id" JNull request) (JStr "hi")).
Proof.
  intros Hfn Hecho Hreq Hm Hp Hn Ha.
  assert (Hid : unique_keys (Dict.get_default "id" JNull request) = true).
  { apply get_default_unique. now apply (request_of_unique rt event). }
  unfold McpLambdaServer.handle. rewrite Hreq.
  unfold McpLambdaServer.dispatch. cbn [py_get]. unfold Dict.get_default.
  rewrite Hm, Hp. cbn [is_str String.eqb Ascii.eqb Bool.eqb py_get].
  unfold Dict.get_default. rewrite Hn, Ha.
  cbn [McpLambdaServer.registered McpLambdaServer.apply_kwargs]. rewrite Hfn, Hecho.
  apply envelope_reads_back. now apply success_envelope_unique.
Qed.

Lemma echo_roundtrip_witness :
  envelope_200 (McpLambdaServer.handle bare_runtime echo_tools echo_event)
    (success_envelope (JInt 7) (JStr "hi")).
Proof.
  apply (echo_roundtrip bare_runtime echo_tools echo echo_event
           (parsed "{'jsonrpc':'2.0','method':'tools/call','params':{'name':'echo','arguments':{'x':'hi'}},'id':7}")
           [("name", JStr "echo"); ("arguments", JDict [("x", JStr "hi")])]);
    reflexivity.
Defined.

(** ** The session client *)

(** Case analysis on the innermost scrutinee of the goal. *)
Ltac break :=
  match goal with
  | |- context [match ?x with _ => _ end] =>
      lazymatch x with
      | context [match _ with _ => _ end] => fail
      | _ => destruct x eqn:?
      end
  end.

Ltac unfold_client :=
  unfold Client.initialize, Client.initialize_body, Client.post,
    Client.set_session_id, Client.set_initialized, Client.next_request_id,
    try_except, bind, lift, ret, get, modify.

Ltac handshake_log :=
  solve [ exists []; split; [now rewrite app_nil_r | constructor]
        | eexists [_]; split;
          [ reflexivity
          | repeat constructor; solve [left; reflexivity | right; reflexivity] ]
        | eexists [_; _]; split;
          [ cbn; rewrite <- app_assoc; reflexivity
          | repeat constructor; solve [left; reflexivity | right; reflexivity] ] ].

Lemma init_json_verdict_inl (res : json) (b : bool) :
  Client.init_json_verdict res = Ok (inl b) -> b = false.
Proof.
  unfold Client.init_json_verdict. intros H.
  repeat parse_step; try discriminate; now inversion H.
Qed.

(** What one call of [initialize] does to the client and to the log. *)
Lemma initialize_effect (srv : server) (w : world) :
  exists b w',
    Client.initialize srv w = (Ok b, w') /\
    request_id (client w') = request_id (client w) /\
    base_url (client w') = base_url (client w) /\
    initialized (client w') = (initialized (client w) || b)%bool /\
    (initialized (client w) = true -> b = true /\ w' = w) /\
    exists extra, sent w' = (sent w ++ extra)%list /\ Forall is_handshake extra.
Proof.
  unfold_client.
  destruct (initialized (client w)) eqn:Hi.
  - exists true, w. rewrite Hi. repeat split; auto. handshake_log.
  - repeat break.
    all: eexists; eexists; (split; [reflexivity|]); cbn; rewrite ?Hi.
    all: repeat split; try congruence; try handshake_log.
    all: symmetry; eapply init_json_verdict_inl; eassumption.
Qed.

Lemma initialize_success_log (srv : server) (w w1 : world) :
  initialized (client w) = false ->
  Client.initialize srv w = (Ok true, w1) ->
  sent w1 = (sent w ++ handshake_posts (base_url (client w))
                         (Client.session_header (client w1)))%list.
Proof.
  intros Hi. unfold_client. rewrite Hi. unfold handshake_posts.
  repeat break; intros H; inversion H; subst; clear H; cbn;
    rewrite <- ?app_assoc; try reflexivity.
  all: match goal with
       | H : Client.init_json_verdict _ = Ok (inl true) |- _ =>
           apply init_json_verdict_inl in H; discriminate H
       end.
Qed.

Lemma initialize_when_set (srv : server) (w : world) :
  initialized (client w) = true -> Client.initialize srv w = (Ok true, w).
Proof. intros Hi. unfold_client. now rewrite Hi. Qed.

(** C7. [initialize] on a session whose [initialized] flag is set returns
    [True] and leaves the client and the log of posted requests as they
    are; so when a call of [initialize] has succeeded, the call after it
    posts nothing, and the two calls together have posted the two
    requests of the handshake once. *)
Theorem initialize_idempotent (srv : server) :
  (forall w, initialized (client w) = true ->
             Client.initialize srv w = (Ok true, w)) /\
  (forall w0 w1,
      Client.initialize srv w0 = (Ok true, w1) ->
      initialized (client w1) = true /\
      Client.initialize srv w1 = (Ok true, w1) /\
      (initialized (client w0) = false ->
       sent (snd (Client.initialize srv w1)) =
       (sent w0 ++ handshake_posts (base_url (client w0))
                     (Client.session_header (client w1)))%list)).
Proof.
  pose proof (initialize_when_set srv) as Hset.
  split; [exact Hset|].
  intros w0 w1 H.
  assert (Hi1 : initialized (client w1) = true).
  { destruct (initialize_effect srv w0) as (b & w' & E & _ & _ & Hflag & _).
    rewrite E in H. inversion H; subst. rewrite Hflag. apply orb_true_r. }
  split; [exact Hi1|]. split; [now apply Hset|].
  intros Hi0. rewrite (Hset w1 Hi1). cbn [snd].
  now apply (initialize_success_log srv).
Qed.

Lemma initialize_idempotent_witness :
  exists w1,
    Client.initialize accepting_server (fresh "http://mcp") = (Ok true, w1) /\
    Client.initialize accepting_server w1 = (Ok true, w1) /\
    sent (snd (Client.initialize accepting_server w1)) = handshake_posts "http://mcp" None.
Proof.
  eexists. split; [reflexivity|].
  pose proof (proj2 (initialize_idempotent accepting_server)
                (fresh "http://mcp") _ eq_refl) as (_ & H2 & H3).
  split; [exact H2 | exact (H3 eq_refl)].
Defined.

Lemma initialize_total (srv : server) (w : world) :
  exists b, Client.initialize srv w = (Ok b, snd (Client.initialize srv w)).
Proof.
  destruct (initialize_effect srv w) as (b & w' & E & _).
  exists b. now rewrite E.
Qed.

(** [call_tool] up to its post: the handshake attempt, whatever its
    result, then the next id and the [tools/call] request. *)
Lemma call_tool_request_eq (srv : server) (name : string) (args : json) (w : world) :
  let w1 := snd (Client.initialize srv w) in
  let rq := tools_call_post name args w1 in
  Client.call_tool_request srv name args w =
  (srv (sent w1 ++ [rq])%list, posted rq w1).
Proof.
  intros w1 rq. subst w1 rq.
  unfold Client.call_tool_request.
  unfold bind at 1. unfold get at 1.
  destruct (initialized (client w)) eqn:Hi.
  - rewrite (initialize_when_set srv w Hi). reflexivity.
  - destruct (initialize_total srv w) as (b & E).
    unfold bind at 1. rewrite E. reflexivity.
Qed.

(** [call_tool] never raises: it returns what the second half of its
    [try] returns, or the text of the exception that its [except] clauses
    catch. *)
Lemma call_tool_eq (rt : runtime) (srv : server) (name : string) (args : json)
    (w : world) :
  let w1 := snd (Client.initialize srv w) in
  let rq := tools_call_post name args w1 in
  Client.call_tool rt srv name args w =
  (Ok match srv (sent w1 ++ [rq])%list with
      | Ok response =>
          match Client.call_tool_response response with
          | Ok v => v
          | Raise e => caught_text rt e
          end
      | Raise e => caught_text rt e
      end,
   posted rq w1).
Proof.
  intros w1 rq. unfold Client.call_tool, try_except, Client.call_tool_body.
  unfold bind at 1. rewrite call_tool_request_eq. fold w1 rq.
  unfold caught_text, lift, ret.
  destruct (srv _) as [response|e].
  - destruct (Client.call_tool_response response) as [v|e]; [reflexivity|].
    now destruct (is_HTTPError e).
  - now destruct (is_HTTPError e).
Qed.

(** *** Request ids *)

Lemma tools_call_ids_app (l1 l2 : list http_request) :
  tools_call_ids (l1 ++ l2) = (tools_call_ids l1 ++ tools_call_ids l2)%list.
Proof.
  induction l1 as [|rq l1 IH]; cbn; [reflexivity|].
  destruct (tools_call_id rq); cbn; now rewrite IH.
Qed.

Lemma tools_call_ids_handshake (extra : list http_request) :
  Forall is_handshake extra -> tools_call_ids extra = [].
Proof.
  induction 1 as [|rq extra [H | H] _ IH]; cbn; [reflexivity | |];
    unfold tools_call_id; rewrite H; cbn; exact IH.
Qed.

Lemma ids_from_snoc (start : Z) (n : nat) :
  ids_from start (S n) = (ids_from start n ++ [start + Z.of_nat n])%list.
Proof.
  revert start. induction n as [|n IH]; intros start.
  - cbn. now rewrite Z.add_0_r.
  - change (ids_from start (S (S n))) with (start :: ids_from (start + 1) (S n)).
    rewrite IH. cbn [ids_from app].
    replace (start + Z.of_nat (S n)) with (start + 1 + Z.of_nat n) by lia.
    reflexivity.
Qed.

Lemma ids_from_lower (start : Z) (n : nat) :
  Forall (fun id => start <= id) (ids_from start n).
Proof.
  revert start. induction n as [|n IH]; intros start; cbn; constructor; [lia|].
  eapply Forall_impl; [|apply IH]. cbn. intros; lia.
Qed.

Lemma ids_from_sorted (start : Z) (n : nat) :
  StronglySorted Z.lt (ids_from start n).
Proof.
  revert start. induction n as [|n IH]; intros start; cbn; constructor; [apply IH|].
  eapply Forall_impl; [|apply ids_from_lower]. cbn. intros; lia.
Qed.

Lemma sorted_lt_NoDup (l : list Z) : StronglySorted Z.lt l -> NoDup l.
Proof.
  induction 1 as [|x l _ IH Hx]; constructor; [|exact IH].
  intros Hin. rewrite Forall_forall in Hx. specialize (Hx x Hin). lia.
Qed.

Lemma run_operation_ids (rt : runtime) (srv : server) (w : world) (op : operation) :
  let w' := run_operation rt srv w op in
  request_id (client w') = request_id (client w) + (if is_call op then 1 else 0) /\
  tools_call_ids (sent w') =
  (tools_call_ids (sent w) ++
   (if is_call op then [request_id (client w) + 1] else []))%list.
Proof.
  destruct (initialize_effect srv w) as (b & w1 & E & Hid & _ & _ & _ & extra & Hlog & Hh).
  destruct op as [|name args]; cbn [run_operation is_call]; cbv zeta.
  - rewrite E. cbn [snd]. rewrite Hid, Hlog, tools_call_ids_app,
      (tools_call_ids_handshake _ Hh). split; [lia | reflexivity].
  - rewrite call_tool_eq, E. cbn [snd posted client sent request_id].
    rewrite Hid. split; [reflexivity|].
    rewrite Hlog, !tools_call_ids_app, (tools_call_ids_handshake _ Hh).
    cbn. now rewrite Hid, app_nil_r.
Qed.

Lemma run_ids (rt : runtime) (srv : server) (ops : list operation) (w : world) (k : nat) :
  request_id (client w) = Z.of_nat k ->
  tools_call_ids (sent w) = ids_from 1 k ->
  let n := (k + List.length (filter is_call ops))%nat in
  request_id (client (run rt srv ops w)) = Z.of_nat n /\
  tools_call_ids (sent (run rt srv ops w)) = ids_from 1 n.
Proof.
  revert w k. induction ops as [|op ops IH]; intros w k Hid Hlog; cbn [run fold_left].
  - cbn. now rewrite Nat.add_0_r.
  - destruct (run_operation_ids rt srv w op) as [Hid' Hlog'].
    fold (run rt srv ops (run_operation rt srv w op)).
    destruct (is_call op) eqn:Hop; cbn [filter]; rewrite Hop.
    + specialize (IH (run_operation rt srv w op) (S k)).
      cbn [List.length]. replace (k + S (List.length (filter is_call ops)))%nat
        with (S k + List.length (filter is_call ops))%nat by lia.
      apply IH; [rewrite Hid'; lia|].
      rewrite Hlog', Hlog, ids_from_snoc, Hid.
      replace (1 + Z.of_nat k) with (Z.of_nat k + 1) by lia. reflexivity.
    + apply IH; [rewrite Hid'; lia|].
      now rewrite Hlog', Hlog, app_nil_r.
Qed.

(** C6. Whatever the server answers, after any sequence of calls of
    [call_tool] (and of [initialize]) on a session, the ids of the
    [tools/call] requests posted are 1, 2, ..., one per call, in the order
    of the calls: they are strictly increasing, none is used twice, and
    each is greater than the id 0 of the handshake. *)
Theorem request_ids_strictly_increase
    (rt : runtime) (srv : server) (url : string) (ops : list operation) :
  let ids := tools_call_ids (sent (run rt srv ops (fresh url))) in
  ids = ids_from 1 (List.length (filter is_call ops)) /\
  StronglySorted Z.lt ids /\
  NoDup ids /\
  Forall (fun id => 0 < id) ids.
Proof.
  intros ids.
  destruct (run_ids rt srv ops (fresh url) 0 eq_refl eq_refl) as [_ H].
  cbn [Nat.add] in H. subst ids. rewrite H.
  split; [reflexivity|]. split; [apply ids_from_sorted|].
  split; [apply sorted_lt_NoDup, ids_from_sorted|].
  eapply Forall_impl; [|apply ids_from_lower]. cbn. intros; lia.
Qed.

(** *** A handshake that fails *)

Lemma initialize_first_post (srv : server) (w : world) :
  initialized (client w) = false ->
  exists rest,
    sent (snd (Client.initialize srv w)) =
    (sent w ++ initialize_post (base_url (client w)) :: rest)%list.
Proof.
  intros Hi. unfold_client. rewrite Hi. unfold initialize_post.
  repeat break; cbn; rewrite <- ?app_assoc; eexists; reflexivity.
Qed.

(** C10, as stated, fails in its parenthesis: a handshake that fails can
    have stored a session id, and the [tools/call] request then carries
    it. *)
Lemma failed_handshake_session_is_sent :
  fst (Client.initialize refusing_server (fresh "http://mcp")) = Ok false /\
  exists log,
    (forall rt,
        sent (snd (Client.call_tool rt refusing_server "get_aws_feed_news" (JDict [])
                     (fresh "http://mcp"))) = log) /\
    map rq_session log = [None; Some "abc"] /\
    map tools_call_id log = [None; Some 1].
Proof.
  split; [reflexivity|].
  exists (sent (snd (Client.call_tool bare_runtime refusing_server "get_aws_feed_news"
                       (JDict []) (fresh "http://mcp")))).
  split; [intros rt; reflexivity|]. split; reflexivity.
Qed.

(** C10, amended. On a session whose [initialized] flag is false,
    [call_tool] calls [initialize] and ignores its result: when
    [initialize] returns [False], [call_tool] still takes the next
    request id and posts the [tools/call] request, which carries the
    session header exactly when a session id is stored by then (a failed
    handshake may have stored one); it returns a text instead of raising,
    the flag stays false, and the next [call_tool] begins with the
    [initialize] request again. *)
Theorem call_tool_ignores_failed_handshake
    (rt : runtime) (srv : server) (name : string) (args : json) (w w1 : world) :
  initialized (client w) = false ->
  Client.initialize srv w = (Ok false, w1) ->
  let out := Client.call_tool rt srv name args w in
  let rq := {| rq_url := base_url (client w) ++ "/mcp";
               rq_json := Client.json_rpc_request name args (request_id (client w) + 1);
               rq_session := Client.session_header (client w1) |} in
  (exists text, fst out = Ok text) /\
  sent (snd out) = (sent w1 ++ [rq])%list /\
  request_id (client (snd out)) = request_id (client w) + 1 /\
  initialized (client (snd out)) = false /\
  forall name' args',
  exists rest,
    sent (snd (Client.call_tool rt srv name' args' (snd out))) =
    (sent (snd out) ++ initialize_post (base_url (client w)) :: rest)%list.
Proof.
  intros Hi Hinit out rq.
  destruct (initialize_effect srv w) as (b & w' & E & Hid & Hurl & Hflag & _).
  rewrite Hinit in E. inversion E; subst b w'. clear E.
  rewrite Hi in Hflag. cbn in Hflag.
  subst out rq. rewrite call_tool_eq, Hinit. cbn [fst snd].
  unfold tools_call_post, posted. cbn [client sent request_id initialized].
  rewrite Hid, Hurl.
  split; [eexists; reflexivity|]. repeat split; try assumption.
  intros name' args'. rewrite call_tool_eq. cbn [snd posted sent].
  match goal with
  | |- context [Client.initialize srv ?w2] =>
      destruct (initialize_first_post srv w2) as (rest & Hrest);
      [exact Hflag | rewrite Hrest]
  end.
  cbn [client sent base_url]. rewrite <- (app_assoc _ (_ :: rest)). cbn [app].
  eexists. reflexivity.
Qed.

Lemma call_tool_ignores_failed_handshake_witness :
  let out := Client.call_tool bare_runtime refusing_server "get_aws_feed_news" (JDict [])
               (fresh "http://mcp") in
  fst out = Ok (JStr "Error from MCP server: not now") /\
  map tools_call_id (sent (snd out)) = [None; Some 1] /\
  initialized (client (snd out)) = false.
Proof.
  pose proof (call_tool_ignores_failed_handshake bare_runtime refusing_server
                "get_aws_feed_news" (JDict []) (fresh "http://mcp") _ eq_refl eq_refl)
    as (_ & Hlog & _ & Hflag & _).
  cbv zeta. split; [reflexivity|]. split; [|exact Hflag].
  rewrite Hlog. reflexivity.
Defined.

(** ** No exception past the public methods *)


Lemma dispatch_returns_envelope (rt : runtime) (tools : McpLambdaServer.registry)
    (request : Dict.t json) :
  dispatchable request ->
  exists payload,
    McpLambdaServer.dispatch rt tools (JDict request) = Ok (McpLambdaServer.envelope payload).
Proof.
  intros Hd. unfold McpLambdaServer.dispatch. cbn [py_get].
  destruct (is_str (Dict.get_default "method" JNull request) "tools/list");
    [eexists; reflexivity|].
  destruct (is_str (Dict.get_default "method" JNull request) "tools/call") eqn:Hm;
    [|eexists; reflexivity].
  destruct (Dict.get_default "method" JNull request) as [| | |m| |] eqn:E;
    try discriminate Hm.
  cbn [is_str] in Hm. apply String.eqb_eq in Hm. subst m.
  destruct (Hd E) as (params & Hp & Hh).
  rewrite Hp. cbn [py_get].
  destruct (Dict.get_default "name" JNull params) as [| | |n| |] eqn:En;
    try discriminate Hh; cbn [McpLambdaServer.registered];
    try (eexists; reflexivity).
  destruct (Dict.get n tools) as [fn|]; [|eexists; reflexivity].
  destruct (McpLambdaServer.apply_kwargs fn _); eexists; reflexivity.
Qed.



(** ** What [call_tool] returns *)

Lemma json_content_text_typed (tool_result : json) :
  content_typed tool_result = true ->
  Client.json_content_text tool_result = Ok (first_text tool_result).
Proof.
  unfold content_typed, Client.json_content_text, first_text.
  destruct tool_result as [| | | | |tr]; try reflexivity.
  destruct (Dict.get "content" tr) as [[| | | |[|first l]|]|]; try reflexivity.
  destruct first as [| | | | |f]; try discriminate.
  cbn [py_in py_getitem]. unfold Dict.mem.
  destruct (Dict.get "text" f) as [t|]; [|reflexivity].
  destruct t; try discriminate; reflexivity.
Qed.

Lemma call_tool_json_typed (res : json) :
  response_typed res = true ->
  Client.call_tool_json res = Ok (json_text_spec res).
Proof.
  unfold response_typed, Client.call_tool_json, json_text_spec.
  destruct res as [| | | | |r]; try reflexivity.
  destruct (Dict.get "error" r) as [err|].
  - destruct err; try discriminate. reflexivity.
  - destruct (Dict.get "result" r) as [tool_result|]; [|reflexivity].
    intros Ht. rewrite (json_content_text_typed _ Ht).
    destruct (first_text tool_result); [reflexivity|].
    now destruct tool_result.
Qed.

(** C2, as stated, fails: when the [text] of the first content item is a
    number, [len(text)] raises inside [call_tool], which then returns the
    text of that exception and not the number. *)
Lemma call_tool_text_without_length :
  exists res,
    json_loads (dq "{'result': {'content': [{'text': 5}]}}") = Some res /\
    json_text_spec res = JInt 5 /\
    forall rt,
      fst (Client.call_tool rt
             (answering "application/json" (dq "{'result': {'content': [{'text': 5}]}}"))
             "get_aws_feed_news" (JDict []) (fresh "http://mcp"))
      = Ok (JStr ("Error: " ++ describe rt (NoLen (JInt 5)))).
Proof.
  eexists. split; [reflexivity|]. split; [reflexivity|].
  intros rt. reflexivity.
Qed.

(** C2, amended. For every JSON (non-SSE) response to a [tools/call]
    request whose parsed body is typed (an [error] is an object; the first
    item of a non-empty [result.content] list is an object, and a [text]
    in it is a string or another value with a length), [call_tool]
    returns what [json_text_spec] lists: with an [error] key the string
    ["Error from MCP server: "] followed by the server's message; with a
    [result] whose [content[0]] has a [text], exactly that text; else a
    string [result] itself; else the JSON text of [result]; and for any
    other body the JSON text of the whole response. *)
Theorem call_tool_json_response
    (rt : runtime) (srv : server) (name : string) (args : json) (w : world)
    (response : http_response) (res : json) :
  let w1 := snd (Client.initialize srv w) in
  srv (sent w1 ++ [tools_call_post name args w1])%list = Ok response ->
  raise_for_status response = Ok tt ->
  Client.is_event_stream response = false ->
  json_loads (text response) = Some res ->
  response_typed res = true ->
  fst (Client.call_tool rt srv name args w) = Ok (json_text_spec res).
Proof.
  intros w1 Hpost Hs Hsse Hj Ht. subst w1.
  rewrite call_tool_eq, Hpost. cbn [fst].
  unfold Client.call_tool_response, response_json, py_json_loads.
  now rewrite Hs, Hsse, Hj, (call_tool_json_typed _ Ht).
Qed.

Lemma call_tool_json_response_witness :
  fst (Client.call_tool bare_runtime
         (answering "application/json" (dq "{'result':{'content':[{'text':'X'}]}}"))
         "get_aws_feed_news" (JDict []) (fresh "http://mcp"))
  = Ok (JStr "X") /\
  fst (Client.call_tool bare_runtime
         (answering "application/json" (dq "{'error':{'message':'boom'}}"))
         "get_aws_feed_news" (JDict []) (fresh "http://mcp"))
  = Ok (JStr "Error from MCP server: boom").
Proof.
  split.
  - apply (call_tool_json_response bare_runtime
             (answering "application/json" (dq "{'result':{'content':[{'text':'X'}]}}"))
             "get_aws_feed_news" (JDict []) (fresh "http://mcp") _
             (JDict (parsed "{'result':{'content':[{'text':'X'}]}}")) eq_refl);
      reflexivity.
  - apply (call_tool_json_response bare_runtime
             (answering "application/json" (dq "{'error':{'message':'boom'}}"))
             "get_aws_feed_news" (JDict []) (fresh "http://mcp") _
             (JDict (parsed "{'error':{'message':'boom'}}")) eq_refl);
      reflexivity.
Defined.

(** *** Server-sent events *)






(** ** The tool-dispatch loop *)

Lemma mcp_call_tool_eq (rt : runtime) (srv : server) (name : string) (args : json)
    (c : chat) :
  exists v w',
    Chat.mcp_call_tool rt srv name args c =
    (Ok v, {| messages := messages c; iteration := iteration c;
              asked := asked c; mcp := w' |}).
Proof.
  unfold Chat.mcp_call_tool, zoom. rewrite call_tool_eq.
  eexists. eexists. reflexivity.
Qed.

(** The [for] loop over the requested calls: it appends one tool-result
    entry per call that it completes and touches nothing else of the
    loop's state. *)
Lemma execute_tool_calls_effect (rt : runtime) (srv : server) (calls : list tool_call)
    (c : chat) :
  exists r responses w',
    Chat.execute_tool_calls rt srv calls c =
    (r, {| messages := (messages c ++ tool_records calls responses)%list;
           iteration := iteration c; asked := asked c; mcp := w' |}) /\
    (List.length responses <= List.length calls)%nat /\
    (Forall arguments_parse calls ->
     r = Ok tt /\ List.length responses = List.length calls).
Proof.
  revert c. induction calls as [|tc calls IH]; intros c.
  - exists (Ok tt), [], (mcp c). cbn. rewrite app_nil_r.
    destruct c; repeat split; auto.
  - cbn [Chat.execute_tool_calls]. unfold bind at 1, lift, py_json_loads.
    destruct (json_loads (tc_arguments tc)) as [function_args|] eqn:Hargs.
    + unfold bind at 1.
      destruct (mcp_call_tool_eq rt srv (tc_name tc) function_args c) as (v & w1 & ->).
      unfold bind at 1, Chat.append_message, modify. cbn [messages iteration asked mcp].
      match goal with
      | |- context [Chat.execute_tool_calls rt srv calls ?c1] =>
          destruct (IH c1) as (r & responses & w' & -> & Hlen & Hok)
      end.
      exists r, (v :: responses), w'. cbn [messages iteration asked mcp].
      unfold tool_records in *. cbn [combine map List.length fst snd].
      rewrite <- app_assoc. cbn [app].
      split; [reflexivity|]. split; [lia|].
      intros Hall. inversion Hall; subst.
      destruct (Hok ltac:(assumption)) as [-> Hl]. split; [reflexivity | lia].
    + exists (Raise (DecodeError (tc_arguments tc))), [], (mcp c).
      unfold tool_records. cbn. rewrite app_nil_r.
      destruct c. split; [reflexivity|]. split; [lia|].
      intros Hall. inversion Hall; subst. contradiction.
Qed.

(** One pass through the body of the [while]: it never raises, counts one
    iteration and asks the model once. *)
Lemma iteration_step_effect (rt : runtime) (srv : server) (llm : model) (c : chat) :
  exists r c',
    Chat.iteration_step rt srv llm c = (Ok r, c') /\
    iteration c' = S (iteration c) /\
    asked c' = (asked c ++ [messages c])%list /\
    forall reply,
      llm (asked c ++ [messages c])%list = Ok reply ->
      (tool_calls reply = [] -> r = Some (content reply) /\ messages c' = messages c) /\
      (tool_calls reply <> [] -> Forall arguments_parse (tool_calls reply) ->
       r = None /\
       exists responses,
         List.length responses = List.length (tool_calls reply) /\
         messages c' =
         (messages c ++ Chat.assistant_record reply
                        :: tool_records (tool_calls reply) responses)%list).
Proof.
  unfold Chat.iteration_step, Chat.next_iteration, modify, try_except.
  unfold bind at 1. unfold Chat.iteration_body, Chat.ask_model.
  unfold bind at 1. cbn [messages iteration asked mcp].
  destruct (llm (asked c ++ [messages c])%list) as [reply|e] eqn:Hllm.
  - destruct (tool_calls reply) as [|tc calls] eqn:Hcalls.
    + unfold ret. eexists. eexists. split; [reflexivity|].
      cbn [messages iteration asked].
      split; [reflexivity|]. split; [reflexivity|].
      intros reply' [= <-]. rewrite Hcalls. split; [|congruence].
      intros _. split; reflexivity.
    + unfold bind at 1, Chat.append_message, modify.
      cbn [messages iteration asked mcp]. unfold bind at 1.
      match goal with
      | |- context [Chat.execute_tool_calls rt srv ?cs ?c1] =>
          destruct (execute_tool_calls_effect rt srv cs c1)
            as (r & responses & w' & -> & Hlen & Hok)
      end.
      cbn [messages iteration asked mcp]. rewrite <- app_assoc. cbn [app].
      destruct r as [[]|e]; unfold ret; (eexists; eexists; split; [reflexivity|]);
        cbn [messages iteration asked];
        (split; [reflexivity|]); (split; [reflexivity|]);
        intros reply' [= <-]; rewrite Hcalls; (split; [congruence|]).
      * intros _ Hall. split; [reflexivity|].
        exists responses. split; [now apply Hok | reflexivity].
      * intros _ Hall. destruct (Hok Hall) as [Habs _]. discriminate Habs.
  - unfold ret. eexists. eexists. split; [reflexivity|].
    cbn [messages iteration asked].
    split; [reflexivity|]. split; [reflexivity|].
    intros reply [=].
Qed.

(** C8, as stated, fails: an iteration whose reply requests two tool
    calls appends three entries, the assistant record and two tool
    results. *)
Lemma two_tool_calls_append_three_entries :
  exists c',
    (forall rt,
        Chat.iteration_step rt unreachable_server two_calls_model
          (Chat.start (JStr "What is new in S3?") [] [] (fresh "http://mcp"))
        = (Ok None, c')) /\
    List.length (messages (Chat.start (JStr "What is new in S3?") [] [] (fresh "http://mcp")))
    = 2%nat /\
    List.length (messages c') = 5%nat.
Proof.
  exists (snd (Chat.iteration_step bare_runtime unreachable_server two_calls_model
                 (Chat.start (JStr "What is new in S3?") [] [] (fresh "http://mcp")))).
  split; [intros rt; reflexivity|]. split; reflexivity.
Qed.

(** C8, amended. In every iteration of the loop in which the model's
    reply requests tool calls whose argument strings read as JSON, the
    message sequence grows by one assistant tool-call record followed by
    one tool-result entry per requested call, in the order of the calls:
    by one plus the number of calls, which is two entries exactly when
    one call is requested. *)
Theorem tool_iteration_appends
    (rt : runtime) (srv : server) (llm : model) (c : chat) (reply : assistant_message) :
  llm (asked c ++ [messages c])%list = Ok reply ->
  tool_calls reply <> [] ->
  Forall arguments_parse (tool_calls reply) ->
  exists responses c',
    Chat.iteration_step rt srv llm c = (Ok None, c') /\
    List.length responses = List.length (tool_calls reply) /\
    messages c' =
    (messages c ++ Chat.assistant_record reply
                   :: tool_records (tool_calls reply) responses)%list /\
    List.length (messages c') =
    (List.length (messages c) + 1 + List.length (tool_calls reply))%nat /\
    (List.length (tool_calls reply) = 1%nat ->
     List.length (messages c') = (List.length (messages c) + 2)%nat).
Proof.
  intros Hllm Hne Hall.
  destruct (iteration_step_effect rt srv llm c) as (r & c' & E & _ & _ & Hreply).
  destruct (Hreply reply Hllm) as [_ Htools].
  destruct (Htools Hne Hall) as (-> & responses & Hlen & Hmsgs).
  exists responses, c'. split; [exact E|]. split; [exact Hlen|]. split; [exact Hmsgs|].
  assert (Hgrow : List.length (messages c') =
                  (List.length (messages c) + 1 + List.length (tool_calls reply))%nat).
  { rewrite Hmsgs, List.length_app. cbn [List.length]. unfold tool_records.
    rewrite List.length_map, List.length_combine, Hlen, Nat.min_id. lia. }
  split; [exact Hgrow|]. intros H1. rewrite Hgrow, H1. lia.
Qed.

Lemma tool_iteration_appends_witness :
  exists (responses : list json) c',
    Chat.iteration_step bare_runtime unreachable_server (stubborn_model "{}")
      (Chat.start (JStr "What is new?") [] [] (fresh "http://mcp")) = (Ok None, c') /\
    List.length responses = 1%nat /\
    List.length (messages c') = 4%nat.
Proof.
  destruct (tool_iteration_appends bare_runtime unreachable_server (stubborn_model "{}")
              (Chat.start (JStr "What is new?") [] [] (fresh "http://mcp"))
              _ eq_refl)
    as (responses & c' & E & Hlen & _ & _ & Htwo).
  - discriminate.
  - repeat constructor. discriminate.
  - exists responses, c'. split; [exact E|]. split; [exact Hlen|].
    exact (Htwo eq_refl).
Defined.

Lemma dispatch_loop_unfold (rt : runtime) (srv : server) (llm : model) (fuel : nat)
    (c : chat) :
  Chat.dispatch_loop rt srv llm (S fuel) c =
  if (iteration c <? Chat.max_iterations)%nat then
    match Chat.iteration_step rt srv llm c with
    | (Ok (Some text), c') => (Ok (Some text), c')
    | (Ok None, c') => Chat.dispatch_loop rt srv llm fuel c'
    | (Raise e, c') => (Raise e, c')
    end
  else (Ok (Some (JStr Chat.apology)), c).
Proof.
  cbn [Chat.dispatch_loop]. unfold bind at 1, get.
  destruct (iteration c <? Chat.max_iterations)%nat; [|reflexivity].
  unfold bind. destruct (Chat.iteration_step rt srv llm c) as [[[text|]|e] c']; reflexivity.
Qed.

(** The loop returns a text, whatever the model and the server do. *)
Lemma dispatch_loop_returns (rt : runtime) (srv : server) (llm : model) (fuel : nat) :
  forall c,
    (Chat.max_iterations - iteration c < fuel)%nat ->
    exists text c',
      Chat.dispatch_loop rt srv llm fuel c = (Ok (Some text), c') /\
      (iteration c' <= Nat.max Chat.max_iterations (iteration c))%nat.
Proof.
  induction fuel as [|fuel IH]; intros c Hfuel; [lia|].
  rewrite dispatch_loop_unfold.
  destruct (iteration c <? Chat.max_iterations)%nat eqn:Hlt.
  - apply Nat.ltb_lt in Hlt.
    destruct (iteration_step_effect rt srv llm c) as (r & c1 & -> & Hit & _).
    destruct r as [text|].
    + exists text, c1. split; [reflexivity | lia].
    + destruct (IH c1) as (text & c' & E & Hle); [lia|].
      exists text, c'. split; [exact E | lia].
  - exists (JStr Chat.apology), c. split; [reflexivity | lia].
Qed.

(** With a model that requests tool calls on every reply, with argument
    strings that read as JSON, the loop runs until the cap. *)
Lemma dispatch_loop_exhausts (rt : runtime) (srv : server) (llm : model) :
  (forall h, exists reply,
      llm h = Ok reply /\ tool_calls reply <> [] /\
      Forall arguments_parse (tool_calls reply)) ->
  forall fuel c,
    (iteration c <= Chat.max_iterations)%nat ->
    (Chat.max_iterations - iteration c < fuel)%nat ->
    exists c',
      Chat.dispatch_loop rt srv llm fuel c = (Ok (Some (JStr Chat.apology)), c') /\
      iteration c' = Chat.max_iterations /\
      List.length (asked c') =
      (List.length (asked c) + (Chat.max_iterations - iteration c))%nat.
Proof.
  intros Hllm. induction fuel as [|fuel IH]; intros c Hle Hfuel; [lia|].
  rewrite dispatch_loop_unfold.
  destruct (iteration c <? Chat.max_iterations)%nat eqn:Hlt.
  - apply Nat.ltb_lt in Hlt.
    destruct (iteration_step_effect rt srv llm c) as (r & c1 & -> & Hit & Hasked & Hreply).
    destruct (Hllm (asked c ++ [messages c])%list) as (reply & E & Hne & Hall).
    destruct (Hreply reply E) as [_ Htools].
    destruct (Htools Hne Hall) as (-> & _).
    destruct (IH c1) as (c' & E' & Hit' & Hlen'); [lia | lia |].
    exists c'. split; [exact E'|]. split; [exact Hit'|].
    rewrite Hlen', Hasked, List.length_app. cbn [List.length]. lia.
  - apply Nat.ltb_ge in Hlt. exists c. split; [reflexivity|]. split; lia.
Qed.

(** C3, as stated, fails: a model that requests a tool call on every
    reply, with an argument string that is not JSON, ends the loop in its
    first iteration with the text of the decode error, not the apology. *)
Lemma malformed_arguments_end_the_loop :
  json_loads "oops" = None /\
  exists c,
    (forall rt srv,
        Chat.chat_with_llm rt srv (stubborn_model "oops") 6 (JStr "What is new?") [] []
          (fresh "http://mcp")
        = (Ok (Some (JStr ("I encountered an error: " ++ describe rt (DecodeError "oops")))),
           c)) /\
    iteration c = 1%nat.
Proof.
  split; [reflexivity|].
  exists (snd (Chat.chat_with_llm bare_runtime unreachable_server (stubborn_model "oops") 6
                 (JStr "What is new?") [] [] (fresh "http://mcp"))).
  split; [intros rt srv; reflexivity | reflexivity].
Qed.

(** C3, amended. For every model and every server, [chat_with_llm]
    terminates and returns a text without raising, after at most 5
    iterations; an iteration whose model reply contains no tool calls
    ends it with the content of that reply; and for a model that requests
    tool calls on every reply, with argument strings that read as JSON, it
    performs exactly 5 iterations (5 calls of the model) and returns the
    fixed apology. *)
Theorem chat_with_llm_terminates
    (rt : runtime) (srv : server) (llm : model) (fuel : nat)
    (user_message : json) (history : list json) (asked0 : list (list json)) (w : world) :
  (Chat.max_iterations < fuel)%nat ->
  let out := Chat.chat_with_llm rt srv llm fuel user_message history asked0 w in
  (exists text, fst out = Ok (Some text)) /\
  (iteration (snd out) <= 5)%nat /\
  (forall c fuel' reply,
      (iteration c < Chat.max_iterations)%nat ->
      llm (asked c ++ [messages c])%list = Ok reply ->
      tool_calls reply = [] ->
      fst (Chat.dispatch_loop rt srv llm (S fuel') c) = Ok (Some (content reply)) /\
      iteration (snd (Chat.dispatch_loop rt srv llm (S fuel') c)) = S (iteration c)) /\
  ((forall h, exists reply,
       llm h = Ok reply /\ tool_calls reply <> [] /\
       Forall arguments_parse (tool_calls reply)) ->
   fst out = Ok (Some (JStr Chat.apology)) /\
   iteration (snd out) = 5%nat /\
   List.length (asked (snd out)) = (List.length asked0 + 5)%nat).
Proof.
  intros Hfuel out. subst out. unfold Chat.chat_with_llm.
  set (c0 := Chat.start user_message history asked0 w).
  assert (H0 : iteration c0 = 0%nat) by reflexivity.
  assert (Ha0 : asked c0 = asked0) by reflexivity.
  clearbody c0. unfold Chat.max_iterations in *.
  destruct (dispatch_loop_returns rt srv llm fuel c0) as (text & c' & E & Hle);
    [unfold Chat.max_iterations; lia|].
  unfold Chat.max_iterations in Hle.
  split; [exists text; now rewrite E|].
  split; [rewrite E; cbn [snd]; lia|].
  split.
  - intros c fuel' reply Hlt Hllm Hcalls.
    rewrite dispatch_loop_unfold. unfold Chat.max_iterations.
    apply Nat.ltb_lt in Hlt. rewrite Hlt.
    destruct (iteration_step_effect rt srv llm c) as (r & c1 & -> & Hit & _ & Hreply).
    destruct (Hreply reply Hllm) as [Hnone _].
    destruct (Hnone Hcalls) as [-> _]. split; [reflexivity | exact Hit].
  - intros Hllm.
    destruct (dispatch_loop_exhausts rt srv llm Hllm fuel c0) as (c1 & E1 & Hit & Hlen);
      [unfold Chat.max_iterations; lia | unfold Chat.max_iterations; lia |].
    unfold Chat.max_iterations in *.
    rewrite E1. cbn [fst snd]. split; [reflexivity|]. split; [exact Hit|].
    rewrite Hlen, H0, Ha0. reflexivity.
Qed.

Lemma chat_with_llm_terminates_witness :
  let out := Chat.chat_with_llm bare_runtime unreachable_server (stubborn_model "{}") 6
               (JStr "What is new?") [] [] (fresh "http://mcp") in
  fst out = Ok (Some (JStr Chat.apology)) /\
  iteration (snd out) = 5%nat /\
  List.length (asked (snd out)) = 5%nat /\
  fst (Chat.chat_with_llm bare_runtime unreachable_server (answering_model "Nothing new.") 6
         (JStr "What is new?") [] [] (fresh "http://mcp"))
  = Ok (Some (JStr "Nothing new.")).
Proof.
  cbv zeta.
  assert (Hfuel : (Chat.max_iterations < 6)%nat) by (unfold Chat.max_iterations; lia).
  destruct (chat_with_llm_terminates bare_runtime unreachable_server (stubborn_model "{}") 6
              (JStr "What is new?") [] [] (fresh "http://mcp") Hfuel)
    as (_ & _ & _ & Hcap).
  destruct Hcap as (H1 & H2 & H3).
  { intros h. eexists. split; [reflexivity|]. split; [discriminate|].
    repeat constructor. discriminate. }
  destruct (chat_with_llm_terminates bare_runtime unreachable_server
              (answering_model "Nothing new.") 6
              (JStr "What is new?") [] [] (fresh "http://mcp") Hfuel)
    as (_ & _ & Hend & _).
  split; [exact H1|]. split; [exact H2|]. split; [exact H3|].
  exact (proj1 (Hend (Chat.start (JStr "What is new?") [] [] (fresh "http://mcp")) 5%nat
                  _ ltac:(unfold Chat.max_iterations; cbn; lia) eq_refl eq_refl)).
Defined.

(** * More of the code *)

(** ** Registration and [tools/list] *)

Lemma get_set_same {V : Type} (k : string) (v : V) (d : Dict.t V) :
  Dict.get k (Dict.set k v d) = Some v.
Proof.
  induction d as [|[k' v'] d IH]; cbn.
  - now rewrite String.eqb_refl.
  - destruct (String.eqb k k') eqn:E; cbn.
    + now rewrite String.eqb_refl.
    + now rewrite E.
Qed.

Lemma get_set_other {V : Type} (k k' : string) (v : V) (d : Dict.t V) :
  k' <> k -> Dict.get k' (Dict.set k v d) = Dict.get k' d.
Proof.
  intros Hne. induction d as [|[k0 v0] d IH]; cbn.
  - destruct (String.eqb k' k) eqn:E; [|reflexivity].
    apply String.eqb_eq in E. contradiction.
  - destruct (String.eqb k k0) eqn:E; cbn.
    + apply String.eqb_eq in E. subst k0.
      destruct (String.eqb k' k) eqn:E'; [|reflexivity].
      apply String.eqb_eq in E'. contradiction.
    + now rewrite IH.
Qed.

Lemma existsb_eqb_mem {V : Type} (k : string) (d : Dict.t V) :
  existsb (String.eqb k) (map fst d) = Dict.mem k d.
Proof.
  unfold Dict.mem. induction d as [|[k' v'] d IH]; cbn; [reflexivity|].
  destruct (String.eqb k k'); [reflexivity | exact IH].
Qed.

(** X1. Registering a function under a name makes the registry hold that
    function for the name, replacing what was there (the last
    registration wins); every other name keeps its function, and the
    order of the names is kept: a name that is new goes last, a name
    that is replaced stays where it was. *)
Theorem tool_registers
    (name : option string) (fn_name : string) (fn : McpLambdaServer.callable)
    (tools : McpLambdaServer.registry) :
  let k := tool_key name fn_name in
  let tools' := McpLambdaServer.tool name fn_name fn tools in
  Dict.get k tools' = Some fn /\
  (forall k', k' <> k -> Dict.get k' tools' = Dict.get k' tools) /\
  Dict.keys tools' =
  if Dict.mem k tools then Dict.keys tools else (Dict.keys tools ++ [k])%list.
Proof.
  intros k tools'. subst k tools'. unfold McpLambdaServer.tool.
  fold (tool_key name fn_name).
  split; [apply get_set_same|]. split; [intros k' H; now apply get_set_other|].
  unfold Dict.keys. now rewrite set_keys, existsb_eqb_mem.
Qed.

Lemma distinct_NoDup (l : list string) : distinct l = true -> NoDup l.
Proof.
  induction l as [|k l IH]; cbn; [constructor|].
  intros H. apply andb_true_iff in H as [Hk Hl]. constructor; [|auto].
  intros Hin. apply negb_true_iff in Hk.
  assert (existsb (String.eqb k) l = true).
  { apply existsb_exists. exists k. split; [exact Hin | apply String.eqb_refl]. }
  congruence.
Qed.

Lemma register_all_snoc (regs : list registration) (r : registration) :
  register_all (regs ++ [r]) =
  McpLambdaServer.tool (reg_name r) (reg_fn_name r) (reg_fn r) (register_all regs).
Proof. unfold register_all. now rewrite fold_left_app. Qed.

Lemma register_all_distinct (regs : list registration) :
  distinct (Dict.keys (register_all regs)) = true.
Proof.
  induction regs as [|r regs IH] using rev_ind; [reflexivity|].
  rewrite register_all_snoc. unfold McpLambdaServer.tool, Dict.keys in *.
  now apply set_distinct.
Qed.

Lemma register_all_keys (regs : list registration) (k : string) :
  In k (Dict.keys (register_all regs)) <->
  exists r, In r regs /\ tool_key (reg_name r) (reg_fn_name r) = k.
Proof.
  induction regs as [|r regs IH] using rev_ind.
  - cbn. split; [contradiction | intros (r & [] & _)].
  - rewrite register_all_snoc.
    pose proof (tool_registers (reg_name r) (reg_fn_name r) (reg_fn r) (register_all regs))
      as (_ & _ & Hkeys).
    cbv zeta in Hkeys. rewrite Hkeys.
    set (kr := tool_key (reg_name r) (reg_fn_name r)) in *.
    assert (Hmem : Dict.mem kr (register_all regs) = true ->
                   In kr (Dict.keys (register_all regs))).
    { rewrite <- existsb_eqb_mem. intros H. apply existsb_exists in H as (x & Hx & E).
      apply String.eqb_eq in E. now subst x. }
    split.
    + intros Hin.
      destruct (Dict.mem kr (register_all regs)) eqn:Em.
      * apply IH in Hin as (r0 & Hr0 & E). exists r0. split; [|exact E].
        apply in_or_app. now left.
      * apply in_app_or in Hin as [Hin | [<- | []]].
        -- apply IH in Hin as (r0 & Hr0 & E). exists r0. split; [|exact E].
           apply in_or_app. now left.
        -- exists r. split; [apply in_or_app; right; now left | reflexivity].
    + intros (r0 & Hr0 & E). apply in_app_or in Hr0 as [Hr0 | [<- | []]].
      * assert (Hin : In k (Dict.keys (register_all regs))) by (apply IH; eauto).
        destruct (Dict.mem kr (register_all regs)); [exact Hin|].
        apply in_or_app. now left.
      * fold kr in E. subst k.
        destruct (Dict.mem kr (register_all regs)) eqn:Em; [now apply Hmem|].
        apply in_or_app. right. now left.
Qed.

Lemma tools_listing_unique (names : list string) :
  unique_keys (tools_listing names) = true.
Proof.
  unfold tools_listing. cbn. rewrite andb_true_r.
  induction names as [|k names IH]; [reflexivity|]. cbn. exact IH.
Qed.

(** X2. For a registry built by any sequence of registrations, [handle]
    with method [tools/list] returns a status-200 envelope whose body
    reads as the success envelope, with the request's id, listing the
    registered names: each name once, however often it was registered,
    and a name is listed exactly when some registration used it. *)
Theorem tools_list_names
    (rt : runtime) (regs : list registration) (event request : Dict.t json) :
  McpLambdaServer.request_of rt event = Ok (JDict request) ->
  Dict.get_default "method" JNull request = JStr "tools/list" ->
  let names := Dict.keys (register_all regs) in
  envelope_200 (McpLambdaServer.handle rt (register_all regs) event)
    (success_envelope (Dict.get_default "id" JNull request) (tools_listing names)) /\
  NoDup names /\
  (forall k, In k names <->
             exists r, In r regs /\ tool_key (reg_name r) (reg_fn_name r) = k).
Proof.
  intros Hreq Hm names.
  split; [|split; [apply distinct_NoDup, register_all_distinct
                  | apply register_all_keys]].
  unfold McpLambdaServer.handle. rewrite Hreq.
  unfold McpLambdaServer.dispatch. cbn [py_get]. rewrite Hm.
  cbn [is_str String.eqb Ascii.eqb Bool.eqb].
  apply envelope_reads_back. apply success_envelope_unique.
  - apply get_default_unique. now apply (request_of_unique rt event).
  - apply tools_listing_unique.
Qed.

Lemma tools_list_names_witness :
  envelope_200 (McpLambdaServer.handle bare_runtime (register_all sample_registrations)
                  tools_list_event)
    (success_envelope (JInt 9) (tools_listing ["echo"; "ping"])) /\
  NoDup (Dict.keys (register_all sample_registrations)).
Proof.
  destruct (tools_list_names bare_runtime sample_registrations tools_list_event
              (parsed "{'jsonrpc':'2.0','method':'tools/list','id':9}")
              eq_refl eq_refl) as (H1 & H2 & _).
  split; [exact H1 | exact H2].
Defined.

(** ** What [handle] returns and when it raises *)

(** X3. For every event whose body reads as a JSON object with method
    [tools/call], object [params], a registered [name] and an object
    [arguments] (an empty one when absent): when the registered function
    returns a value on those keyword arguments, [handle] returns a
    status-200 envelope whose body reads as the JSON-RPC success envelope
    with that value as [result] and the request's id ([null] when the
    request has none). *)
Theorem handle_returns_tool_result
    (rt : runtime) (tools : McpLambdaServer.registry) (fn : McpLambdaServer.callable)
    (event request params kwargs : Dict.t json) (name : string) (res : json) :
  McpLambdaServer.request_of rt event = Ok (JDict request) ->
  Dict.get_default "method" JNull request = JStr "tools/call" ->
  Dict.get_default "params" (JDict []) request = JDict params ->
  Dict.get_default "name" JNull params = JStr name ->
  Dict.get_default "arguments" (JDict []) params = JDict kwargs ->
  Dict.get name tools = Some fn ->
  fn kwargs = Ok res ->
  unique_keys res = true ->
  envelope_200 (McpLambdaServer.handle rt tools event)
    (success_envelope (Dict.get_default "id" JNull request) res).
Proof.
  intros Hreq Hm Hp Hn Ha Hfn Hres Hu.
  unfold McpLambdaServer.handle. rewrite Hreq.
  unfold McpLambdaServer.dispatch. cbn [py_get]. rewrite Hm, Hp.
  cbn [is_str String.eqb Ascii.eqb Bool.eqb py_get]. rewrite Hn, Ha.
  cbn [McpLambdaServer.registered McpLambdaServer.apply_kwargs]. rewrite Hfn, Hres.
  apply envelope_reads_back. apply success_envelope_unique; [|exact Hu].
  apply get_default_unique. now apply (request_of_unique rt event).
Qed.

Lemma handle_returns_tool_result_witness :
  envelope_200
    (McpLambdaServer.handle bare_runtime (register_all sample_registrations)
       [("body", JStr (dq "{'method':'tools/call','params':{'name':'ping'}}"))])
    (success_envelope JNull (JStr "pong")).
Proof.
  apply (handle_returns_tool_result bare_runtime (register_all sample_registrations)
           (constant_tool (JStr "pong"))
           [("body", JStr (dq "{'method':'tools/call','params':{'name':'ping'}}"))]
           (parsed "{'method':'tools/call','params':{'name':'ping'}}")
           [("name", JStr "ping")] [] "ping");
    reflexivity.
Defined.

(** X4. An event flagged [isBase64Encoded] is handled as the event whose
    body is the decoded text: when the decoding raises, so does
    [handle], and a flagged body that is no text raises a [TypeError]. *)
Theorem handle_base64_body
    (rt : runtime) (tools : McpLambdaServer.registry) (event : Dict.t json) :
  truthy (Dict.get_default "isBase64Encoded" JNull event) = true ->
  (forall s s',
      Dict.get_default "body" (JStr "") event = JStr s ->
      b64decode rt s = Some s' ->
      McpLambdaServer.handle rt tools event
      = McpLambdaServer.handle rt tools [("body", JStr s')]) /\
  (forall s,
      Dict.get_default "body" (JStr "") event = JStr s ->
      b64decode rt s = None ->
      McpLambdaServer.handle rt tools event = Raise (Base64Error s)) /\
  (forall v,
      Dict.get_default "body" (JStr "") event = v ->
      (forall s, v <> JStr s) ->
      McpLambdaServer.handle rt tools event = Raise (NotAString v)).
Proof.
  intros Hflag. unfold McpLambdaServer.handle, McpLambdaServer.request_of.
  rewrite Hflag. repeat split.
  - intros s s' -> ->. reflexivity.
  - intros s -> ->. reflexivity.
  - intros v Hb Hv. rewrite Hb.
    destruct v as [| | |t| |]; try reflexivity.
    exfalso. now apply (Hv t).
Qed.

Lemma handle_base64_body_witness :
  envelope_200 (McpLambdaServer.handle sample_b64_runtime echo_tools base64_event)
    (success_envelope (JInt 1) (tools_listing ["echo"])) /\
  McpLambdaServer.handle bare_runtime echo_tools base64_event
  = Raise (Base64Error "eyJtZXRob2QiOiJ0b29scy9saXN0IiwiaWQiOjF9") /\
  McpLambdaServer.handle bare_runtime echo_tools [("isBase64Encoded", JInt 1); ("body", JNull)]
  = Raise (NotAString JNull).
Proof.
  split; [|split].
  - rewrite (proj1 (handle_base64_body sample_b64_runtime echo_tools base64_event eq_refl)
               _ _ eq_refl eq_refl).
    eexists. split; reflexivity.
  - exact (proj1 (proj2 (handle_base64_body bare_runtime echo_tools base64_event eq_refl))
             _ eq_refl eq_refl).
  - apply (proj2 (proj2 (handle_base64_body bare_runtime echo_tools
                           [("isBase64Encoded", JInt 1); ("body", JNull)] eq_refl))
             JNull eq_refl).
    intros s H. discriminate H.
Defined.

(** X5. Once the body has been read as JSON, [handle] returns an envelope
    exactly when the value read is an object on which its dispatch is
    defined.  Otherwise it raises to its caller: [AttributeError] when
    the value read, or the [params] of a [tools/call] request, is not an
    object (a [null] included), and [TypeError] when the [name] of a
    [tools/call] request is a list or an object. *)
Theorem handle_envelope_iff
    (rt : runtime) (tools : McpLambdaServer.registry) (event : Dict.t json)
    (request : json) :
  McpLambdaServer.request_of rt event = Ok request ->
  let out := McpLambdaServer.handle rt tools event in
  ((exists payload, out = Ok (McpLambdaServer.envelope payload)) <->
   (exists d, request = JDict d /\ dispatchable d)) /\
  ((forall d, request <> JDict d) -> out = Raise (NoAttribute request "get")) /\
  (forall d params,
      request = JDict d ->
      Dict.get_default "method" JNull d = JStr "tools/call" ->
      Dict.get_default "params" (JDict []) d = params ->
      (forall p, params <> JDict p) ->
      out = Raise (NoAttribute params "get")) /\
  (forall d p name,
      request = JDict d ->
      Dict.get_default "method" JNull d = JStr "tools/call" ->
      Dict.get_default "params" (JDict []) d = JDict p ->
      Dict.get_default "name" JNull p = name ->
      hashable name = false ->
      out = Raise (Unhashable name)).
Proof.
  intros Hreq out. subst out. unfold McpLambdaServer.handle. rewrite Hreq.
  assert (Hnot : (forall d, request <> JDict d) ->
                 McpLambdaServer.dispatch rt tools request
                 = Raise (NoAttribute request "get")).
  { intros H. destruct request; try reflexivity. exfalso. now apply (H d). }
  assert (Hparams : forall d params,
             request = JDict d ->
             Dict.get_default "method" JNull d = JStr "tools/call" ->
             Dict.get_default "params" (JDict []) d = params ->
             (forall p, params <> JDict p) ->
             McpLambdaServer.dispatch rt tools request
             = Raise (NoAttribute params "get")).
  { intros d params -> Hm Hp Hn. unfold McpLambdaServer.dispatch. cbn [py_get].
    rewrite Hm, Hp. cbn [is_str String.eqb Ascii.eqb Bool.eqb].
    destruct params; try reflexivity. exfalso. now apply (Hn d0). }
  assert (Hname : forall d p name,
             request = JDict d ->
             Dict.get_default "method" JNull d = JStr "tools/call" ->
             Dict.get_default "params" (JDict []) d = JDict p ->
             Dict.get_default "name" JNull p = name ->
             hashable name = false ->
             McpLambdaServer.dispatch rt tools request = Raise (Unhashable name)).
  { intros d p name -> Hm Hp Hn Hh. unfold McpLambdaServer.dispatch. cbn [py_get].
    rewrite Hm, Hp. cbn [is_str String.eqb Ascii.eqb Bool.eqb py_get]. rewrite Hn.
    destruct name; try discriminate Hh; reflexivity. }
  split; [|split; [exact Hnot | split; [exact Hparams | exact Hname]]].
  split.
  - intros (payload & Hout).
    destruct request as [| | | | |d];
      try (rewrite Hnot in Hout; [discriminate Hout | intros d; discriminate]).
    exists d. split; [reflexivity|]. intros Hm.
    destruct (Dict.get_default "params" (JDict []) d) as [| | | | |p] eqn:Hp;
      try (rewrite (Hparams d _ eq_refl Hm Hp) in Hout;
           [discriminate Hout | intros p; discriminate]).
    exists p. split; [reflexivity|].
    destruct (hashable (Dict.get_default "name" JNull p)) eqn:Hh; [reflexivity|].
    rewrite (Hname d p _ eq_refl Hm Hp eq_refl Hh) in Hout. discriminate Hout.
  - intros (d & -> & Hd). now apply dispatch_returns_envelope.
Qed.

Lemma handle_envelope_iff_witness :
  McpLambdaServer.handle bare_runtime echo_tools [("body", JStr "[1, 2]")]
  = Raise (NoAttribute (JList [JInt 1; JInt 2]) "get") /\
  McpLambdaServer.handle bare_runtime echo_tools
    [("body", JStr (dq "{'method':'tools/call','params':null}"))]
  = Raise (NoAttribute JNull "get") /\
  McpLambdaServer.handle bare_runtime echo_tools
    [("body", JStr (dq "{'method':'tools/call','params':{'name':['echo']}}"))]
  = Raise (Unhashable (JList [JStr "echo"])).
Proof.
  split; [|split].
  - apply (proj1 (proj2 (handle_envelope_iff bare_runtime echo_tools
                           [("body", JStr "[1, 2]")] _ eq_refl))).
    intros d H. discriminate H.
  - apply (proj1 (proj2 (proj2 (handle_envelope_iff bare_runtime echo_tools
                           [("body", JStr (dq "{'method':'tools/call','params':null}"))]
                           _ eq_refl)))
             _ JNull eq_refl eq_refl eq_refl).
    intros p H. discriminate H.
  - exact (proj2 (proj2 (proj2 (handle_envelope_iff bare_runtime echo_tools
                           [("body", JStr (dq "{'method':'tools/call','params':{'name':['echo']}}"))]
                           _ eq_refl)))
             _ _ _ eq_refl eq_refl eq_refl eq_refl eq_refl).
Defined.

(** X6. The body that [_response] and [_error] write reads back, with
    [json.loads], as the JSON-RPC envelope they were given: the request
    id and the result, or the message whatever its characters, come back
    unchanged, under status 200. *)
Theorem response_body_reads_back (req_id res : json) (message : string) :
  unique_keys req_id = true ->
  unique_keys res = true ->
  envelope_200 (Ok (McpLambdaServer._response req_id res)) (success_envelope req_id res) /\
  envelope_200 (Ok (McpLambdaServer._error req_id message)) (error_envelope req_id message).
Proof.
  intros Hid Hres. split.
  - apply envelope_reads_back. now apply success_envelope_unique.
  - apply envelope_reads_back. now apply error_envelope_unique.
Qed.

Lemma response_body_reads_back_witness :
  envelope_200
    (Ok (McpLambdaServer._response (JStr "a-7")
           (JDict [("n", JInt (-40)); ("items", JList [JNull; JBool true; JStr (dq "it's 'x'")])])))
    (success_envelope (JStr "a-7")
       (JDict [("n", JInt (-40)); ("items", JList [JNull; JBool true; JStr (dq "it's 'x'")])])) /\
  envelope_200 (Ok (McpLambdaServer._error (JStr "a-7") (String chr_LF (dq "no 'such' tool\"))))
    (error_envelope (JStr "a-7") (String chr_LF (dq "no 'such' tool\"))).
Proof.
  apply (response_body_reads_back (JStr "a-7")
           (JDict [("n", JInt (-40)); ("items", JList [JNull; JBool true; JStr (dq "it's 'x'")])])
           (String chr_LF (dq "no 'such' tool\")));
    reflexivity.
Defined.

(** ** The feed tool ([main.py]) *)

Lemma collect_filter (search_keywords : json) (entries : list Main.entry) :
  search_keywords = JNull \/ (exists k, search_keywords = JStr k) ->
  Main.collect search_keywords entries =
  Ok (map Main.item (filter (title_matches (keyword_text search_keywords)) entries)).
Proof.
  intros Hk. induction entries as [|e entries IH]; [reflexivity|].
  cbn [Main.collect filter]. rewrite IH.
  destruct Hk as [-> | (k & ->)]; [reflexivity|].
  unfold Main.keeps, title_matches. cbn [truthy keyword_text].
  destruct (String.eqb k ""); cbn [negb orb]; [reflexivity|].
  now destruct (substring_of (Main.lower k) (Main.lower (Main.title e))).
Qed.

Lemma join_items_head (e : Main.entry) (l : list Main.entry) :
  exists s, Main.join (String chr_LF (String chr_LF "")) (map Main.item (e :: l))
            = String "-" s.
Proof.
  destruct l; cbn [map Main.join]; unfold Main.item; cbn [append];
    eexists; reflexivity.
Qed.

Lemma feed_news_text (entries : list Main.entry) (n : Z) (search_keywords : json) :
  search_keywords = JNull \/ (exists k, search_keywords = JStr k) ->
  Main.get_aws_feed_news entries (JInt n) search_keywords =
  Ok (JStr (rendered (listed entries n (keyword_text search_keywords)))).
Proof.
  intros Hk. unfold Main.get_aws_feed_news, Main.sliced, listed.
  rewrite (collect_filter _ _ Hk). unfold rendered.
  destruct (filter _ _) as [|e l]; [reflexivity|].
  destruct (join_items_head e l) as (s & ->). reflexivity.
Qed.

Lemma slice_to_length {A : Type} (n : Z) (l : list A) :
  0 <= n -> (List.length (Main.slice_to n l) <= Z.to_nat n)%nat.
Proof.
  intros Hn. unfold Main.slice_to.
  destruct (0 <=? n) eqn:E; [|apply Z.leb_gt in E; lia].
  rewrite List.length_firstn. lia.
Qed.

Lemma filter_length_le {A : Type} (f : A -> bool) (l : list A) :
  (List.length (filter f l) <= List.length l)%nat.
Proof.
  induction l as [|x l IH]; cbn; [lia|]. destruct (f x); cbn; lia.
Qed.

Lemma in_firstn {A : Type} (n : nat) (l : list A) (x : A) :
  In x (firstn n l) -> In x l.
Proof.
  intros H. rewrite <- (firstn_skipn n l). apply in_or_app. now left.
Qed.

(** X7. With an integer [max_articles] and a keyword that is a text or
    [None], [get_aws_feed_news] returns one item ["- title\n  link"] for
    each entry, among the first [max_articles] of the feed, whose title
    contains the keyword when both are put in lower case; the items come
    in feed order, separated by an empty line, and for a
    [max_articles] that is not negative there are at most that many. *)
Theorem feed_news_lists_matching_entries
    (entries : list Main.entry) (n : Z) (search_keywords : json) :
  search_keywords = JNull \/ (exists k, search_keywords = JStr k) ->
  let shown := listed entries n (keyword_text search_keywords) in
  Main.get_aws_feed_news entries (JInt n) search_keywords = Ok (JStr (rendered shown)) /\
  (0 <= n -> (List.length shown <= Z.to_nat n)%nat) /\
  (forall e, In e shown ->
     In e entries /\
     (keyword_text search_keywords = "" \/
      substring_of (Main.lower (keyword_text search_keywords))
                   (Main.lower (Main.title e)) = true)).
Proof.
  intros Hk shown. split; [now apply feed_news_text|]. split.
  - intros Hn. subst shown. unfold listed.
    pose proof (filter_length_le (title_matches (keyword_text search_keywords))
                  (Main.slice_to n entries)).
    pose proof (slice_to_length n entries Hn). lia.
  - intros e He. subst shown. unfold listed in He.
    apply filter_In in He as [Hin Hm]. split.
    + unfold Main.slice_to in Hin.
      destruct (0 <=? n); eapply in_firstn; exact Hin.
    + unfold title_matches in Hm. apply orb_true_iff in Hm as [Hm | Hm].
      * left. now apply String.eqb_eq.
      * now right.
Qed.

Lemma feed_news_lists_matching_entries_witness :
  Main.get_aws_feed_news sample_feed (JInt 2) (JStr "S3")
  = Ok (JStr ("- Amazon S3 adds a feature" ++ String chr_LF "  https://aws.example/s3")) /\
  Main.get_aws_feed_news sample_feed (JInt 3) JNull
  = Ok (JStr (rendered sample_feed)).
Proof.
  split.
  - exact (proj1 (feed_news_lists_matching_entries sample_feed 2 (JStr "S3")
                    (or_intror (ex_intro _ "S3" eq_refl)))).
  - exact (proj1 (feed_news_lists_matching_entries sample_feed 3 JNull (or_introl eq_refl))).
Defined.

Lemma rendered_no_results (l : list Main.entry) :
  rendered l = "No results" <-> l = [].
Proof.
  split; [|intros ->; reflexivity].
  destruct l as [|e l]; [reflexivity|]. unfold rendered.
  destruct (join_items_head e l) as (s & ->). discriminate.
Qed.

(** X8. With an integer [max_articles] and a keyword that is a text or
    [None], [get_aws_feed_news] answers ["No results"] exactly when no
    entry among the first [max_articles] has the keyword in its title (an
    empty feed or a [max_articles] of 0 included); it never answers the
    empty text. *)
Theorem feed_news_no_results
    (entries : list Main.entry) (n : Z) (search_keywords : json) :
  search_keywords = JNull \/ (exists k, search_keywords = JStr k) ->
  (Main.get_aws_feed_news entries (JInt n) search_keywords = Ok (JStr "No results") <->
   listed entries n (keyword_text search_keywords) = []) /\
  Main.get_aws_feed_news entries (JInt n) search_keywords <> Ok (JStr "").
Proof.
  intros Hk. rewrite (feed_news_text _ _ _ Hk). split.
  - rewrite <- rendered_no_results. split; [intros [= ->]; reflexivity | intros ->; reflexivity].
  - intros [= H]. unfold rendered in H.
    destruct (listed entries n (keyword_text search_keywords)) as [|e l];
      [discriminate H|].
    destruct (join_items_head e l) as (s & E). rewrite E in H. discriminate H.
Qed.

Lemma feed_news_no_results_witness :
  Main.get_aws_feed_news sample_feed (JInt 2) (JStr "EC2") = Ok (JStr "No results") /\
  Main.get_aws_feed_news [] (JInt 10) JNull = Ok (JStr "No results").
Proof.
  split.
  - apply (proj1 (feed_news_no_results sample_feed 2 (JStr "EC2")
                    (or_intror (ex_intro _ "EC2" eq_refl)))).
    reflexivity.
  - apply (proj1 (feed_news_no_results [] 10 JNull (or_introl eq_refl))).
    reflexivity.
Defined.

(** X9. The feed is cut to its first [max_articles] entries before the
    keyword is looked for: entries after them change nothing, so a later
    entry that has the keyword is not found.  A negative [max_articles]
    does not raise; it leaves out that many entries at the end of the
    feed. *)
Theorem feed_news_truncates_first
    (entries more : list Main.entry) (n : Z) (search_keywords : json) :
  (0 <= n -> (Z.to_nat n <= List.length entries)%nat ->
   Main.get_aws_feed_news (entries ++ more) (JInt n) search_keywords
   = Main.get_aws_feed_news entries (JInt n) search_keywords) /\
  (n < 0 ->
   Main.get_aws_feed_news entries (JInt n) search_keywords
   = Main.get_aws_feed_news
       (firstn (List.length entries - Z.to_nat (- n)) entries) JNull search_keywords).
Proof.
  unfold Main.get_aws_feed_news, Main.sliced, Main.slice_to. split.
  - intros Hn Hlen. apply Z.leb_le in Hn. rewrite Hn.
    rewrite firstn_app.
    replace (Z.to_nat n - List.length entries)%nat with 0%nat by lia.
    cbn [firstn]. now rewrite app_nil_r.
  - intros Hn. apply Z.leb_gt in Hn. now rewrite Hn.
Qed.

Lemma feed_news_truncates_first_witness :
  Main.get_aws_feed_news sample_feed (JInt 1) (JStr "lambda") = Ok (JStr "No results") /\
  Main.get_aws_feed_news sample_feed (JInt (-2)) JNull
  = Ok (JStr ("- Amazon S3 adds a feature" ++ String chr_LF "  https://aws.example/s3")).
Proof.
  split.
  - exact (eq_trans
             (proj1 (feed_news_truncates_first (firstn 1 sample_feed) (skipn 1 sample_feed)
                       1 (JStr "lambda"))
                ltac:(lia) ltac:(cbn; lia))
             eq_refl).
  - rewrite (proj2 (feed_news_truncates_first sample_feed [] (-2) JNull)); [reflexivity | lia].
Defined.

(** X10. The arguments are not checked before they are used.  A
    [search_keywords] that is true in a condition but no text raises
    [AttributeError] as soon as one entry is looked at, and raises
    nothing when the cut feed is empty; a [max_articles] that is a text,
    a list or an object raises [TypeError] at the slice, whatever the
    feed. *)
Theorem feed_news_argument_errors
    (entries : list Main.entry) (max_articles search_keywords : json) :
  (forall shown,
      Main.sliced max_articles entries = Ok shown ->
      truthy search_keywords = true ->
      (forall k, search_keywords <> JStr k) ->
      Main.get_aws_feed_news entries max_articles search_keywords =
      match shown with
      | [] => Ok (JStr "No results")
      | _ :: _ => Raise (NoAttribute search_keywords "lower")
      end) /\
  (match max_articles with JStr _ | JList _ | JDict _ => True | _ => False end ->
   exists e, Main.get_aws_feed_news entries max_articles search_keywords = Raise e).
Proof.
  split.
  - intros shown Hs Ht Hk. unfold Main.get_aws_feed_news. rewrite Hs.
    destruct shown as [|e shown]; [reflexivity|].
    cbn [Main.collect]. unfold Main.keeps. rewrite Ht.
    destruct search_keywords; try reflexivity. exfalso. now apply (Hk s).
  - unfold Main.get_aws_feed_news, Main.sliced.
    destruct max_articles; intros H; try contradiction; eexists; reflexivity.
Qed.

Lemma feed_news_argument_errors_witness :
  Main.get_aws_feed_news sample_feed (JInt 5) (JInt 3) = Raise (NoAttribute (JInt 3) "lower") /\
  Main.get_aws_feed_news sample_feed (JInt 0) (JInt 3) = Ok (JStr "No results") /\
  exists e, Main.get_aws_feed_news [] (JStr "5") JNull = Raise e.
Proof.
  destruct (feed_news_argument_errors sample_feed (JInt 5) (JInt 3)) as [H1 _].
  destruct (feed_news_argument_errors sample_feed (JInt 0) (JInt 3)) as [H2 _].
  destruct (feed_news_argument_errors [] (JStr "5") JNull) as [_ H3].
  split; [|split].
  - apply (H1 sample_feed eq_refl eq_refl). intros k H. discriminate H.
  - apply (H2 [] eq_refl eq_refl). intros k H. discriminate H.
  - exact (H3 I).
Defined.




(** ** More about the session client *)

Lemma rstrip_by_split (keep : ascii -> bool) (s : string) :
  exists t,
    s = rstrip_by keep s ++ t /\
    (forall c, contains_char c t = true -> keep c = false) /\
    (forall c, ends_with c (rstrip_by keep s) = true -> keep c = true).
Proof.
  induction s as [|a s (t & Hs & Ht & He)].
  - exists "". repeat split; intros c H; discriminate H.
  - cbn [rstrip_by]. destruct (rstrip_by keep s) as [|b r] eqn:Er.
    + cbn [append] in Hs. subst t.
      destruct (keep a) eqn:Ka.
      * exists s. split; [reflexivity|]. split; [exact Ht|].
        intros c H. cbn in H. apply Ascii.eqb_eq in H. now subst c.
      * exists (String a s). split; [reflexivity|]. split.
        -- intros c H. cbn in H. apply orb_true_iff in H as [H | H]; [|auto].
           apply Ascii.eqb_eq in H. now subst c.
        -- intros c H. discriminate H.
    + exists t. split; [cbn [append] in *; now f_equal|]. split; [exact Ht|].
      intros c H. apply He. exact H.
Qed.

Lemma only_char_repeat (c : ascii) (t : string) :
  (forall a, contains_char a t = true -> a = c) ->
  t = repeat_char c (String.length t).
Proof.
  induction t as [|b t IH]; intros H; [reflexivity|].
  cbn [String.length repeat_char].
  assert (b = c) by (apply H; cbn; now rewrite Ascii.eqb_refl).
  subst b. f_equal. apply IH. intros a Ha. apply H. cbn. now rewrite Ha, orb_true_r.
Qed.

Lemma run_base_url (rt : runtime) (srv : server) (ops : list operation) (w : world) :
  base_url (client (run rt srv ops w)) = base_url (client w) /\
  exists added,
    sent (run rt srv ops w) = (sent w ++ added)%list /\
    Forall (fun rq => rq_url rq = base_url (client w) ++ "/mcp") added.
Proof.
  revert w. induction ops as [|op ops IH]; intros w; cbn [run fold_left].
  - split; [reflexivity|]. exists []. split; [now rewrite app_nil_r | constructor].
  - fold (run rt srv ops (run_operation rt srv w op)).
    assert (Hop : base_url (client (run_operation rt srv w op)) = base_url (client w) /\
                  exists added,
                    sent (run_operation rt srv w op) = (sent w ++ added)%list /\
                    Forall (fun rq => rq_url rq = base_url (client w) ++ "/mcp") added).
    { assert (Hinit : forall w0, exists b w1,
                 Client.initialize srv w0 = (Ok b, w1) /\
                 base_url (client w1) = base_url (client w0) /\
                 exists added,
                   sent w1 = (sent w0 ++ added)%list /\
                   Forall (fun rq => rq_url rq = base_url (client w0) ++ "/mcp") added).
      { intros w0. unfold_client.
        destruct (initialized (client w0)) eqn:Hi.
        - exists true, w0. repeat split. exists [].
          split; [now rewrite app_nil_r | constructor].
        - repeat break;
            (eexists; eexists; split; [reflexivity|]; cbn; split; [reflexivity|]);
            first [ exists []; split; [now rewrite app_nil_r | constructor]
                  | eexists [_]; split; [reflexivity | repeat constructor]
                  | eexists [_; _]; split;
                    [cbn; rewrite <- app_assoc; reflexivity | repeat constructor] ]. }
      destruct op as [|name args]; cbn [run_operation].
      - destruct (Hinit w) as (b & w1 & -> & Hu & Hadd). cbn [snd]. split; assumption.
      - rewrite call_tool_eq. destruct (Hinit w) as (b & w1 & -> & Hu & added & Hs & Hf).
        cbn [snd posted client sent base_url]. split; [exact Hu|].
        exists (added ++ [tools_call_post name args w1])%list.
        rewrite Hs, <- app_assoc. split; [reflexivity|].
        apply Forall_app. split; [exact Hf|]. constructor; [|constructor].
        unfold tools_call_post. cbn. now rewrite Hu. }
    destruct Hop as (Hu & added & Hs & Hf).
    destruct (IH (run_operation rt srv w op)) as (Hu' & added' & Hs' & Hf').
    split; [congruence|]. exists (added ++ added')%list.
    rewrite Hs', Hs, <- app_assoc. split; [reflexivity|].
    apply Forall_app. split; [exact Hf|]. now rewrite Hu in Hf'.
Qed.

(** X12. [MCPClient.__init__] removes every ["/"] at the end of the URL
    it is given and nothing else, and starts the session with no session
    id, request id 0 and the flag unset; whatever is done with the
    session afterwards, every request is posted to that base URL followed
    by ["/mcp"]. *)
Theorem client_base_url
    (rt : runtime) (srv : server) (url : string) (ops : list operation) :
  let c := Client.init url in
  (exists n, url = base_url c ++ repeat_char "/" n) /\
  ends_with "/" (base_url c) = false /\
  (session_id c, request_id c, initialized c) = (None, 0, false) /\
  Forall (fun rq => rq_url rq = base_url c ++ "/mcp")
         (sent (run rt srv ops (fresh url))).
Proof.
  intros c. subst c. unfold Client.init. cbn [base_url session_id request_id initialized].
  destruct (rstrip_by_split (fun c => negb (Ascii.eqb c "/")) url) as (t & Hs & Ht & He).
  split; [|split; [|split; [reflexivity|]]].
  - exists (String.length t). rewrite <- only_char_repeat; [exact Hs|].
    intros a Ha. specialize (Ht a Ha). apply negb_false_iff in Ht.
    now apply Ascii.eqb_eq.
  - destruct (ends_with "/" _) eqn:E; [|reflexivity].
    specialize (He _ E). discriminate He.
  - destruct (run_base_url rt srv ops (fresh url)) as (_ & added & Hs' & Hf).
    rewrite Hs'. exact Hf.
Qed.



(** X14. On a session whose flag is unset, when the post of the
    [initialize] request raises, or its response has a status outside
    200..299, [initialize] returns [False] after that single request:
    nothing of the client changes (a session id in the response header is
    not stored) and no notification is posted. *)
Theorem initialize_rejected (srv : server) (w : world) :
  initialized (client w) = false ->
  let rq := initialize_post (base_url (client w)) in
  let after := {| client := client w; sent := (sent w ++ [rq])%list |} in
  (forall e, srv (sent w ++ [rq])%list = Raise e ->
             Client.initialize srv w = (Ok false, after)) /\
  (forall response,
      srv (sent w ++ [rq])%list = Ok response ->
      raise_for_status response <> Ok tt ->
      Client.initialize srv w = (Ok false, after)).
Proof.
  intros Hi rq after. subst rq after. unfold initialize_post.
  unfold_client. rewrite Hi. split.
  - intros e ->. reflexivity.
  - intros response -> Hs.
    destruct (raise_for_status response) as [[]|e]; [congruence | reflexivity].
Qed.

Lemma initialize_rejected_witness :
  Client.initialize (status_server 503) (fresh "http://mcp")
  = (Ok false, {| client := Client.init "http://mcp";
                  sent := [initialize_post "http://mcp"] |}) /\
  Client.initialize unreachable_server (fresh "http://mcp")
  = (Ok false, {| client := Client.init "http://mcp";
                  sent := [initialize_post "http://mcp"] |}).
Proof.
  destruct (initialize_rejected (status_server 503) (fresh "http://mcp") eq_refl)
    as [_ Hstatus].
  destruct (initialize_rejected unreachable_server (fresh "http://mcp") eq_refl)
    as [Hraise _].
  split.
  - apply (Hstatus _ eq_refl). discriminate.
  - exact (Hraise _ eq_refl).
Defined.

Lemma run_operation_initialized (rt : runtime) (srv : server) (w : world) (op : operation) :
  initialized (client w) = true ->
  run_operation rt srv w op =
  match op with
  | Initialize => w
  | CallTool name args => posted (tools_call_post name args w) w
  end.
Proof.
  intros Hi. destruct op as [|name args]; cbn [run_operation].
  - now rewrite (initialize_when_set srv w Hi).
  - now rewrite call_tool_eq, (initialize_when_set srv w Hi).
Qed.

(** X15. Once its flag is set, a session stays initialised and keeps its
    session id.  Whatever is called on it afterwards, the handshake is
    not repeated: the requests posted are [tools/call] requests, one per
    call of [call_tool] with the name and the arguments of that call, and
    each carries the session id as its header (no header when the
    session has none). *)
Theorem initialized_session_invariant
    (rt : runtime) (srv : server) (ops : list operation) (w : world) :
  initialized (client w) = true ->
  let w' := run rt srv ops w in
  initialized (client w') = true /\
  session_id (client w') = session_id (client w) /\
  exists added,
    sent w' = (sent w ++ added)%list /\
    map rq_session added
    = map (fun _ => Client.session_header (client w)) (filter is_call ops) /\
    map tools_call_params added
    = map (fun op => match op with
                     | CallTool name args => Some (call_params name args)
                     | Initialize => None
                     end) (filter is_call ops).
Proof.
  revert w. induction ops as [|op ops IH]; intros w Hi; cbn [run fold_left].
  - split; [exact Hi|]. split; [reflexivity|]. exists [].
    split; [now rewrite app_nil_r|]. split; reflexivity.
  - fold (run rt srv ops (run_operation rt srv w op)).
    rewrite (run_operation_initialized rt srv w op Hi).
    destruct op as [|name args]; cbn [filter is_call].
    + now apply IH.
    + destruct (IH (posted (tools_call_post name args w) w)) as (Hi' & Hs' & added & Hlog & Hh & Hp);
        [exact Hi|].
      cbv zeta. split; [exact Hi'|]. split; [exact Hs'|].
      exists (tools_call_post name args w :: added).
      split; [rewrite Hlog; cbn [posted sent]; now rewrite <- app_assoc|].
      cbn [map]. rewrite Hh, Hp. split; reflexivity.
Qed.

Lemma initialized_session_invariant_witness :
  let w := snd (Client.initialize (streaming_server "") (fresh "http://mcp")) in
  let w' := run bare_runtime (streaming_server "")
              [CallTool "get_aws_news" (JDict [("topic", JStr "s3")]); Initialize;
               CallTool "get_aws_feed_news" (JDict [])] w in
  session_id (client w') = Some "abc" /\
  map rq_session (sent w') = [None; Some "abc"; Some "abc"; Some "abc"] /\
  map tools_call_id (sent w') = [None; None; Some 1; Some 2].
Proof.
  cbv zeta.
  destruct (initialized_session_invariant bare_runtime (streaming_server "")
              [CallTool "get_aws_news" (JDict [("topic", JStr "s3")]); Initialize;
               CallTool "get_aws_feed_news" (JDict [])]
              (snd (Client.initialize (streaming_server "") (fresh "http://mcp")))
              eq_refl) as (_ & Hsid & _).
  split; [rewrite Hsid; reflexivity|]. split; reflexivity.
Defined.

Lemma initialize_posts_at_most_two (srv : server) (w : world) :
  exists extra,
    sent (snd (Client.initialize srv w)) = (sent w ++ extra)%list /\
    Forall is_handshake extra /\ (List.length extra <= 2)%nat /\
    (initialized (client w) = true -> extra = []) /\
    request_id (client (snd (Client.initialize srv w))) = request_id (client w).
Proof.
  unfold_client. destruct (initialized (client w)) eqn:Hi.
  - exists []. cbn. rewrite app_nil_r. repeat split; auto.
  - repeat break; cbn [snd sent client request_id];
      first [ exists []; rewrite app_nil_r;
              repeat split; [constructor | cbn; lia | discriminate]
            | eexists [_]; split; [reflexivity|];
              split; [repeat constructor; solve [left; reflexivity | right; reflexivity]|];
              repeat split; [cbn; lia | discriminate]
            | eexists [_; _]; split; [rewrite <- app_assoc; reflexivity|];
              split; [repeat constructor; solve [left; reflexivity | right; reflexivity]|];
              repeat split; [cbn; lia | discriminate] ].
Qed.

(** X16. Every call of [call_tool] posts exactly one [tools/call]
    request, as its last request, with the name and the arguments it was
    given and the session's next request id; before it come the requests
    of a handshake attempt, none for a session whose flag is set and at
    most two otherwise.  It posts nothing after the [tools/call]
    request: a failed call is not retried. *)
Theorem call_tool_posts_one_request
    (rt : runtime) (srv : server) (name : string) (args : json) (w : world) :
  exists handshake rq,
    sent (snd (Client.call_tool rt srv name args w)) = (sent w ++ handshake ++ [rq])%list /\
    Forall is_handshake handshake /\
    (List.length handshake <= 2)%nat /\
    (initialized (client w) = true -> handshake = []) /\
    tools_call_params rq = Some (call_params name args) /\
    tools_call_id rq = Some (request_id (client w) + 1).
Proof.
  rewrite call_tool_eq.
  destruct (initialize_posts_at_most_two srv w) as (extra & Hlog & Hh & Hlen & Hset & Hid).
  exists extra, (tools_call_post name args (snd (Client.initialize srv w))).
  cbn [snd posted sent]. rewrite Hlog, <- app_assoc.
  split; [reflexivity|]. split; [exact Hh|]. split; [exact Hlen|]. split; [exact Hset|].
  unfold tools_call_post, tools_call_params, tools_call_id, call_params. cbn.
  rewrite Hid. split; reflexivity.
Qed.

(** X17. The scan of an SSE body reads only the lines that start with
    ["data: "], and reads no line after the first one that yields a text
    or raises: lines of other kinds can be taken out, and whatever comes
    after that first line, well formed or not, changes nothing. *)
Theorem sse_scan_reads_data_lines_until_first_text (lines more : list string) :
  Client.sse_scan lines = Client.sse_scan (filter (startswith "data: ") lines) /\
  (Client.sse_scan lines <> Ok None ->
   Client.sse_scan (lines ++ more) = Client.sse_scan lines).
Proof.
  split.
  - induction lines as [|line lines IH]; [reflexivity|].
    cbn [Client.sse_scan filter]. unfold startswith.
    destruct (strip_prefix "data: " line) as [data_json|] eqn:E; [|exact IH].
    cbn [Client.sse_scan]. rewrite E, IH. reflexivity.
  - induction lines as [|line lines IH]; [intros H; now contradiction H|].
    cbn [Client.sse_scan app]. intros H.
    destruct (strip_prefix "data: " line) as [data_json|]; [|now apply IH].
    destruct (json_loads data_json) as [event_data|]; [|now apply IH].
    destruct (Client.sse_event event_data) as [[text|]|e]; try reflexivity.
    now apply IH.
Qed.

Lemma sse_scan_reads_data_lines_until_first_text_witness :
  Client.sse_scan ([dq "data: {'result': {'content': [{'text': 'first'}]}}"]
                   ++ [dq "data: {'result': {'content': [7]}}"; "data: oops"])
  = Ok (Some (JStr "first")).
Proof.
  rewrite (proj2 (sse_scan_reads_data_lines_until_first_text
                    [dq "data: {'result': {'content': [{'text': 'first'}]}}"]
                    [dq "data: {'result': {'content': [7]}}"; "data: oops"]));
    [reflexivity | discriminate].
Defined.

(** *** The conversation loop *)

Lemma handshake_not_call (rq : http_request) :
  is_handshake rq -> tools_call_params rq = None.
Proof.
  unfold tools_call_params. intros [-> | ->]; reflexivity.
Qed.

Lemma calls_posted_app (l1 l2 : list http_request) :
  calls_posted (l1 ++ l2) = (calls_posted l1 ++ calls_posted l2)%list.
Proof.
  induction l1 as [|rq l1 IH]; [reflexivity|]. cbn [app calls_posted].
  destruct (tools_call_params rq); [cbn [app]; now rewrite IH | exact IH].
Qed.

Lemma calls_posted_handshake (l : list http_request) :
  Forall is_handshake l -> calls_posted l = [].
Proof.
  induction 1 as [|rq l Hrq _ IH]; [reflexivity|]. cbn [calls_posted].
  now rewrite (handshake_not_call rq Hrq).
Qed.

Lemma call_tool_calls_posted (rt : runtime) (srv : server) (name : string) (args : json)
    (w : world) :
  exists added,
    sent (snd (Client.call_tool rt srv name args w)) = (sent w ++ added)%list /\
    calls_posted added = [call_params name args].
Proof.
  rewrite call_tool_eq.
  destruct (initialize_posts_at_most_two srv w) as (extra & Hlog & Hh & _).
  exists (extra ++ [tools_call_post name args (snd (Client.initialize srv w))])%list.
  cbn [snd posted sent]. rewrite Hlog, <- app_assoc. split; [reflexivity|].
  rewrite calls_posted_app, (calls_posted_handshake extra Hh). reflexivity.
Qed.

Lemma execute_tool_calls_posts (rt : runtime) (srv : server) (calls : list tool_call)
    (c : chat) :
  exists r grown w' added,
    Chat.execute_tool_calls rt srv calls c =
    (r, {| messages := (messages c ++ grown)%list;
           iteration := iteration c; asked := asked c; mcp := w' |}) /\
    sent w' = (sent (mcp c) ++ added)%list /\
    calls_posted added = parsed_calls calls.
Proof.
  revert c. induction calls as [|tc calls IH]; intros c.
  - exists (Ok tt), [], (mcp c), []. cbn. rewrite !app_nil_r.
    destruct c; repeat split; auto.
  - cbn [Chat.execute_tool_calls parsed_calls]. unfold bind at 1, lift, py_json_loads.
    destruct (json_loads (tc_arguments tc)) as [function_args|] eqn:Hargs.
    + unfold bind at 1. unfold Chat.mcp_call_tool, zoom.
      destruct (call_tool_calls_posted rt srv (tc_name tc) function_args (mcp c))
        as (added1 & Hlog1 & Hposted1).
      rewrite call_tool_eq in *. cbn [snd] in Hlog1.
      unfold bind at 1, Chat.append_message, modify. cbn [messages iteration asked mcp].
      match goal with
      | |- context [Chat.execute_tool_calls rt srv calls ?c1] =>
          destruct (IH c1) as (r & grown & w' & added & -> & Hlog & Hposted)
      end.
      cbn [messages iteration asked mcp] in *.
      eexists r, (_ :: grown)%list, w', (added1 ++ added)%list.
      rewrite <- app_assoc. cbn [app]. split; [reflexivity|].
      rewrite Hlog, Hlog1, <- app_assoc. split; [reflexivity|].
      rewrite calls_posted_app, Hposted1, Hposted. reflexivity.
    + exists (Raise (DecodeError (tc_arguments tc))), [], (mcp c), [].
      cbn. rewrite !app_nil_r. destruct c. repeat split; auto.
Qed.

(** One pass through the body of the [while], with what it does to the
    conversation and to the client's log. *)
Lemma iteration_step_trace (rt : runtime) (srv : server) (llm : model) (c : chat) :
  let reply := llm (asked c ++ [messages c])%list in
  exists r c' grown added,
    Chat.iteration_step rt srv llm c = (Ok r, c') /\
    iteration c' = S (iteration c) /\
    asked c' = (asked c ++ [messages c])%list /\
    messages c' = (messages c ++ grown)%list /\
    sent (mcp c') = (sent (mcp c) ++ added)%list /\
    calls_posted added = requested reply /\
    (match reply with Ok m => tool_calls m = [] | Raise _ => True end ->
     r = Some (final_text rt reply) /\ grown = [] /\ mcp c' = mcp c).
Proof.
  cbv zeta.
  unfold Chat.iteration_step, Chat.next_iteration, modify, try_except.
  unfold bind at 1. unfold Chat.iteration_body, Chat.ask_model.
  unfold bind at 1. cbn [messages iteration asked mcp].
  destruct (llm (asked c ++ [messages c])%list) as [reply|e] eqn:Hllm.
  - cbn [requested final_text].
    destruct (tool_calls reply) as [|tc calls] eqn:Hcalls.
    + unfold ret. eexists _, _, [], []. split; [reflexivity|].
      cbn [messages iteration asked mcp]. rewrite !app_nil_r.
      repeat split; reflexivity.
    + unfold bind at 1, Chat.append_message, modify.
      cbn [messages iteration asked mcp]. unfold bind at 1.
      match goal with
      | |- context [Chat.execute_tool_calls rt srv ?cs ?c1] =>
          destruct (execute_tool_calls_posts rt srv cs c1)
            as (r & grown & w' & added & -> & Hlog & Hposted)
      end.
      cbn [messages iteration asked mcp] in *. rewrite <- app_assoc in *. cbn [app] in *.
      destruct r as [[]|e]; unfold ret;
        (eexists _, _, (_ :: grown)%list, added; split; [reflexivity|]);
        cbn [messages iteration asked mcp];
        (repeat (split; [first [reflexivity | assumption]|])); intros [=].
  - cbn [requested final_text]. unfold ret. eexists _, _, [], [].
    split; [reflexivity|]. cbn [messages iteration asked mcp]. rewrite !app_nil_r.
    repeat split; reflexivity.
Qed.

Lemma dispatch_loop_trace (rt : runtime) (srv : server) (llm : model) (fuel : nat) :
  forall c,
    let c' := snd (Chat.dispatch_loop rt srv llm fuel c) in
    exists grown queries added,
      messages c' = (messages c ++ grown)%list /\
      asked c' = (asked c ++ queries)%list /\
      (iteration c' = iteration c + List.length queries)%nat /\
      Forall (fun q => exists more, q = (messages c ++ more)%list) queries /\
      sent (mcp c') = (sent (mcp c) ++ added)%list.
Proof.
  induction fuel as [|fuel IH]; intros c; cbv zeta.
  - exists [], [], []. cbn. rewrite !app_nil_r. repeat split; auto.
  - rewrite dispatch_loop_unfold.
    destruct (iteration c <? Chat.max_iterations)%nat.
    + destruct (iteration_step_trace rt srv llm c)
        as (r & c1 & grown1 & added1 & -> & Hit & Hasked & Hmsg & Hlog & _).
      destruct r as [text|].
      * exists grown1, [messages c], added1. cbn [snd List.length].
        split; [exact Hmsg|]. split; [exact Hasked|]. split; [lia|].
        split; [|exact Hlog]. constructor; [|constructor].
        exists []. now rewrite app_nil_r.
      * destruct (IH c1) as (grown & queries & added & Hmsg' & Hasked' & Hit' & Hq & Hlog').
        exists (grown1 ++ grown)%list, (messages c :: queries), (added1 ++ added)%list.
        rewrite Hmsg', Hasked', Hit', Hlog', Hmsg, Hasked, Hit, Hlog, <- !app_assoc.
        cbn [List.length app].
        split; [reflexivity|]. split; [reflexivity|]. split; [lia|]. split; [|reflexivity].
        constructor; [exists []; now rewrite app_nil_r|].
        eapply Forall_impl; [|exact Hq]. cbv beta.
        intros q [more ->]. rewrite Hmsg, <- app_assoc. eexists. reflexivity.
    + exists [], [], []. cbn. rewrite !app_nil_r. repeat split; auto.
Qed.

(** X18. Whatever the model and the server do, [chat_with_llm] only
    appends to its conversation and to the client's log: the
    conversation it ends with begins with the system prompt, the history
    and the user's message.  It asks the model once per iteration, and
    every conversation it shows to the model begins alike. *)
Theorem chat_history_grows
    (rt : runtime) (srv : server) (llm : model) (fuel : nat) (user_message : json)
    (conversation_history : list json) (asked0 : list (list json)) (w : world) :
  let first_messages :=
    (Chat.system_message :: conversation_history ++ [Chat.user_record user_message])%list in
  let c' := snd (Chat.chat_with_llm rt srv llm fuel user_message conversation_history
                   asked0 w) in
  exists grown queries added,
    messages c' = (first_messages ++ grown)%list /\
    asked c' = (asked0 ++ queries)%list /\
    List.length queries = iteration c' /\
    Forall (fun q => exists more, q = (first_messages ++ more)%list) queries /\
    sent (mcp c') = (sent w ++ added)%list.
Proof.
  cbv zeta. unfold Chat.chat_with_llm.
  destruct (dispatch_loop_trace rt srv llm fuel
              (Chat.start user_message conversation_history asked0 w))
    as (grown & queries & added & Hmsg & Hasked & Hit & Hq & Hlog).
  exists grown, queries, added. cbn [Chat.start messages asked iteration mcp] in *.
  split; [exact Hmsg|]. split; [exact Hasked|]. split; [now rewrite Hit|].
  split; [exact Hq | exact Hlog].
Qed.

(** X19. When the first reply of the model requests no tool call, or
    the call of the model raises, [chat_with_llm] returns after that one
    iteration, with the content of the reply or with the text
    [I encountered an error: ...]; it has added nothing to the
    conversation and has not touched the MCP client: no request is
    posted. *)
Theorem chat_answers_without_tools
    (rt : runtime) (srv : server) (llm : model) (fuel : nat) (user_message : json)
    (conversation_history : list json) (asked0 : list (list json)) (w : world) :
  let c := Chat.start user_message conversation_history asked0 w in
  let reply := llm (asked0 ++ [messages c])%list in
  match reply with Ok m => tool_calls m = [] | Raise _ => True end ->
  Chat.chat_with_llm rt srv llm (S fuel) user_message conversation_history asked0 w =
  (Ok (Some (final_text rt reply)),
   {| messages := messages c; iteration := 1;
      asked := (asked0 ++ [messages c])%list; mcp := w |}).
Proof.
  cbv zeta. intros Hreply. unfold Chat.chat_with_llm. rewrite dispatch_loop_unfold.
  set (c := Chat.start user_message conversation_history asked0 w) in *.
  change (iteration c <? Chat.max_iterations)%nat with true. cbv iota.
  destruct (iteration_step_trace rt srv llm c)
    as (r & c1 & grown & added & E & Hit & Hasked & Hmsg & _ & _ & Hend).
  rewrite E. change (asked c) with asked0 in *.
  destruct (Hend Hreply) as (-> & -> & Hmcp).
  rewrite app_nil_r in Hmsg.
  destruct c1 as [m i a w1]. cbn [messages iteration asked mcp] in *. subst.
  reflexivity.
Qed.

Lemma chat_answers_without_tools_witness :
  (forall rt,
      Chat.chat_with_llm rt unreachable_server (answering_model "Nothing new today.") 6
        (JStr "hello") [] [] (fresh "http://mcp")
      = (Ok (Some (JStr "Nothing new today.")),
         {| messages := [Chat.system_message; Chat.user_record (JStr "hello")];
            iteration := 1;
            asked := [[Chat.system_message; Chat.user_record (JStr "hello")]];
            mcp := fresh "http://mcp" |})) /\
  (forall rt,
      fst (Chat.chat_with_llm rt unreachable_server (fun _ => Raise (Raised "quota exceeded")) 6
             (JStr "hello") [] [] (fresh "http://mcp"))
      = Ok (Some (JStr "I encountered an error: quota exceeded"))).
Proof.
  split; intros rt.
  - exact (chat_answers_without_tools rt unreachable_server
             (answering_model "Nothing new today.") 5 (JStr "hello") [] []
             (fresh "http://mcp") eq_refl).
  - exact (f_equal fst (chat_answers_without_tools rt unreachable_server
             (fun _ => Raise (Raised "quota exceeded")) 5 (JStr "hello") [] []
             (fresh "http://mcp") I)).
Defined.


(** *** The start-up check *)

Lemma caught_text_is_error (rt : runtime) (e : exn) :
  py_startswith (caught_text rt e) "Error" = Ok true.
Proof. unfold caught_text. now destruct (is_HTTPError e). Qed.

Lemma validate_mcp_server_eq (rt : runtime) (srv : server) (w : world) :
  let w1 := snd (Client.initialize srv w) in
  let rq := tools_call_post "get_aws_feed_news" Validate.probe_arguments w1 in
  Validate.validate_mcp_server rt srv w =
  match fst (Client.initialize srv w) with
  | Ok true =>
      (Ok match srv (sent w1 ++ [rq])%list with
          | Ok response =>
              match Client.call_tool_response response with
              | Ok (JStr body) => negb (startswith "Error" body)
              | _ => false
              end
          | Raise _ => false
          end,
       posted rq w1)
  | _ => (Ok false, w1)
  end.
Proof.
  cbv zeta.
  destruct (initialize_effect srv w) as (b & w1 & E & _ & _ & Hflag & _).
  unfold Validate.validate_mcp_server, try_except. unfold bind at 1.
  rewrite E. cbn [fst snd]. destruct b; cbn [negb]; [|reflexivity].
  assert (Hi : initialized (client w1) = true) by (rewrite Hflag; apply orb_true_r).
  unfold bind at 1. rewrite call_tool_eq, (initialize_when_set srv w1 Hi).
  cbn [snd]. unfold bind, lift, ret.
  destruct (srv _) as [response|e].
  - destruct (Client.call_tool_response response) as [v|e].
    + destruct v as [|b|z|body|l|d]; cbn [py_startswith]; try reflexivity.
      now destruct (startswith "Error" body).
    + now rewrite caught_text_is_error.
  - now rewrite caught_text_is_error.
Qed.

(** X21. [validate_mcp_server] never raises.  It returns [True] exactly
    when the handshake succeeds and the server's response to the probe
    call of [get_aws_feed_news] makes [call_tool] return a string that
    does not start with [Error]; a failure of the call of any kind
    (transport, status, parsing) gives [False].  After a successful
    handshake it posts the one probe request; after a failed one it
    posts nothing more. *)
Theorem validate_mcp_server_outcome (rt : runtime) (srv : server) (w : world) :
  let w1 := snd (Client.initialize srv w) in
  let rq := tools_call_post "get_aws_feed_news" Validate.probe_arguments w1 in
  let verdict := fst (Validate.validate_mcp_server rt srv w) in
  let w' := snd (Validate.validate_mcp_server rt srv w) in
  (verdict = Ok true \/ verdict = Ok false) /\
  (verdict = Ok true <->
   fst (Client.initialize srv w) = Ok true /\
   exists response body,
     srv (sent w1 ++ [rq])%list = Ok response /\
     Client.call_tool_response response = Ok (JStr body) /\
     startswith "Error" body = false) /\
  (fst (Client.initialize srv w) = Ok true -> w' = posted rq w1) /\
  (fst (Client.initialize srv w) <> Ok true -> w' = w1).
Proof.
  cbv zeta. rewrite validate_mcp_server_eq.
  destruct (fst (Client.initialize srv w)) as [[|]|e]; cbn [fst snd].
  - set (w1 := snd (Client.initialize srv w)).
    set (rq := tools_call_post "get_aws_feed_news" Validate.probe_arguments w1).
    split; [|split; [|split; [reflexivity | congruence]]].
    + match goal with |- Ok ?b = _ \/ _ => destruct b end; [now left | now right].
    + split.
      * intros [= H]. split; [reflexivity|].
        destruct (srv (sent w1 ++ [rq])%list) as [response|e]; [|discriminate H].
        destruct (Client.call_tool_response response) as [[|b|z|body|l|d]|e] eqn:Hresp;
          try discriminate H.
        exists response, body. split; [reflexivity|]. split; [exact Hresp|].
        now destruct (startswith "Error" body).
      * intros (_ & response & body & -> & -> & ->). reflexivity.
  - split; [now right|]. split; [split; [discriminate | intros [[=] _]]|].
    split; [discriminate | reflexivity].
  - split; [now right|]. split; [split; [discriminate | intros [[=] _]]|].
    split; [discriminate | reflexivity].
Qed.

Lemma validate_mcp_server_outcome_witness :
  (forall rt,
      fst (Validate.validate_mcp_server rt empty_content_server (fresh "http://mcp"))
      = Ok true) /\
  (forall rt,
      fst (Validate.validate_mcp_server rt json_rpc_error_server (fresh "http://mcp"))
      = Ok false) /\
  (forall rt,
      Validate.validate_mcp_server rt (status_server 503) (fresh "http://mcp")
      = (Ok false, {| client := Client.init "http://mcp";
                      sent := [initialize_post "http://mcp"] |})).
Proof.
  split; [|split]; intros rt.
  - apply (proj1 (proj2 (validate_mcp_server_outcome rt empty_content_server
                           (fresh "http://mcp")))).
    split; [reflexivity|]. eexists. eexists.
    split; [reflexivity|]. split; reflexivity.
  - destruct (validate_mcp_server_outcome rt json_rpc_error_server (fresh "http://mcp"))
      as ([Hyes | Hno] & Hiff & _); [|exact Hno].
    destruct (proj1 Hiff Hyes) as (_ & response & text & [= <-] & [= <-] & Hs).
    discriminate Hs.
  - destruct (validate_mcp_server_outcome rt (status_server 503) (fresh "http://mcp"))
      as ([Hyes | Hno] & Hiff & _ & Hfail).
    + destruct (proj1 Hiff Hyes) as ([=] & _).
    + rewrite (surjective_pairing (Validate.validate_mcp_server _ _ _)), Hno, Hfail;
        [reflexivity | discriminate].
Defined.

(** *** The Slack handlers *)

Lemma chat_first_query (rt : runtime) (srv : server) (llm : model) (fuel : nat)
    (user_message : json) (asked0 : list (list json)) (w : world) :
  exists answer c' more,
    Chat.chat_with_llm rt srv llm (S (Chat.max_iterations + fuel)) user_message [] asked0 w
    = (Ok (Some answer), c') /\
    asked c' = (asked0 ++ opening user_message :: more)%list.
Proof.
  unfold Chat.chat_with_llm.
  set (c := Chat.start user_message [] asked0 w).
  destruct (dispatch_loop_returns rt srv llm (S (Chat.max_iterations + fuel)) c)
    as (answer & c' & E & _); [cbn; lia|].
  exists answer, c'. rewrite E.
  rewrite dispatch_loop_unfold in E.
  change (iteration c <? Chat.max_iterations)%nat with true in E. cbv iota in E.
  destruct (iteration_step_trace rt srv llm c)
    as (r & c1 & grown & added & E1 & _ & Hasked & _).
  rewrite E1 in E. change (asked c) with asked0 in Hasked.
  change (messages c) with (opening user_message) in Hasked.
  destruct r as [text|].
  - injection E as <- <-. exists []. split; [reflexivity | exact Hasked].
  - pose proof (dispatch_loop_trace rt srv llm (Chat.max_iterations + fuel) c1) as H.
    cbv zeta in H. rewrite E in H. cbn [snd] in H.
    destruct H as (_ & queries & _ & _ & Hq & _).
    exists queries. split; [reflexivity|]. rewrite Hq, Hasked, <- app_assoc. reflexivity.
Qed.

Lemma ask_eq (rt : runtime) (srv : server) (llm : model) (text : json) (b : bot) :
  exists answer more w',
    fst (Chat.chat_with_llm rt srv llm (S Chat.max_iterations) text []
           (llm_asked b) (bot_mcp b)) = Ok (Some answer) /\
    Handlers.ask rt srv llm text b =
    (Ok answer,
     {| llm_asked := (llm_asked b ++ opening text :: more)%list;
        bot_mcp := w';
        said := said b |}).
Proof.
  unfold Handlers.ask.
  destruct (chat_first_query rt srv llm 0 text (llm_asked b) (bot_mcp b))
    as (answer & c' & more & E & Hasked).
  rewrite Nat.add_0_r in E. rewrite E. cbn [fst].
  exists answer, more, (mcp c'). split; [reflexivity|]. now rewrite Hasked.
Qed.

Ltac say_leaf :=
  cbn [snd said]; rewrite <- ?app_assoc; cbn [app];
  eexists; split; [reflexivity|];
  split; [cbn [List.length]; lia|]; repeat constructor.

(** X22. For an event with a [ts], [handle_mention] always says
    something, at most three messages, and every one of them goes to the
    thread of the event: its [thread_ts] when it has one, its [ts]
    otherwise.  An event without [ts] makes the handler raise [KeyError]
    with nothing said, even when it has a [thread_ts]. *)
Theorem handle_mention_answers_in_thread
    (rt : runtime) (srv : server) (llm : model) (api : slack)
    (d : Dict.t json) (b : bot) :
  let outcome := Handlers.handle_mention rt srv llm api (JDict d) b in
  match Dict.get "ts" d with
  | Some ts =>
      exists added,
        said (snd outcome) = (said b ++ added)%list /\
        (1 <= List.length added <= 3)%nat /\
        Forall (fun c => say_thread_ts c = Some (Dict.get_default "thread_ts" ts d)) added
  | None => outcome = (Raise (KeyError "ts"), b)
  end.
Proof.
  cbv zeta. unfold Handlers.handle_mention, try_except, thread_of.
  unfold bind at 1 2 3, lift. cbn [py_getitem].
  destruct (Dict.get "ts" d) as [ts|] eqn:Hts.
  - destruct (Dict.get "user" d) as [user_id|].
    2: { unfold bind, Handlers.say. say_leaf. }
    destruct (Dict.get "text" d) as [text|].
    2: { unfold bind, Handlers.say. say_leaf. }
    unfold bind at 1 2.
    destruct (without_mention text) as [question|e].
    2: { unfold bind, Handlers.say. say_leaf. }
    destruct (String.eqb question "").
    + unfold bind, Handlers.say. cbn [said llm_asked bot_mcp].
      destruct (api _) as [[]|e]; say_leaf.
    + unfold bind at 1 2. unfold Handlers.say at 1 2. cbn [said llm_asked bot_mcp].
      destruct (api _) as [[]|e].
      2: { unfold bind, Handlers.say. say_leaf. }
      match goal with
      | |- context [Handlers.ask rt srv llm ?x ?s] =>
          destruct (ask_eq rt srv llm x s) as (answer & more & w' & _ & ->)
      end.
      unfold bind, Handlers.say. cbn [said llm_asked bot_mcp].
      destruct (api _) as [[]|e]; say_leaf.
  - destruct (Dict.get "user" d) as [user_id|]; [|reflexivity].
    destruct (Dict.get "text" d) as [text|]; reflexivity.
Qed.

Lemma handle_mention_answers_in_thread_witness :
  (exists added,
      said (snd (Handlers.handle_mention bare_runtime unreachable_server
                   (answering_model "Nothing new today.") rejecting_slack
                   (JDict sample_mention) idle_bot))
      = ([] ++ added)%list /\
      (1 <= List.length added <= 3)%nat /\
      Forall (fun c => say_thread_ts c = Some (JStr "1730.1")) added) /\
  Handlers.handle_mention bare_runtime unreachable_server
    (answering_model "Nothing new today.") accepting_slack
    (JDict [("user", JStr "U2"); ("text", JStr "hello"); ("thread_ts", JStr "1730.1")])
    idle_bot
  = (Raise (KeyError "ts"), idle_bot).
Proof.
  split.
  - exact (handle_mention_answers_in_thread bare_runtime unreachable_server
             (answering_model "Nothing new today.") rejecting_slack sample_mention idle_bot).
  - exact (handle_mention_answers_in_thread bare_runtime unreachable_server
             (answering_model "Nothing new today.") accepting_slack
             [("user", JStr "U2"); ("text", JStr "hello"); ("thread_ts", JStr "1730.1")]
             idle_bot).
Defined.












(** X24. [handle_direct_message] leaves alone every event that has a
    [bot_id] or a [thread_ts], or whose [channel_type] is not [im]: it
    says nothing and does not ask the model.  A direct message from a
    user is answered: the model is asked, with a fresh conversation, for
    the stripped text, and its answer is said once, outside any thread;
    if Slack rejects that, an apology is said after it.  A blank text is
    left alone as well. *)
Theorem handle_direct_message_answers_direct_messages
    (rt : runtime) (srv : server) (llm : model) (api : slack)
    (d : Dict.t json) (b : bot) :
  let outcome := Handlers.handle_direct_message rt srv llm api (JDict d) b in
  let direct :=
    negb (truthy (Dict.get_default "bot_id" JNull d))
    && negb (truthy (Dict.get_default "thread_ts" JNull d))
    && is_str (Dict.get_default "channel_type" JNull d) "im" in
  (direct = false -> outcome = (Ok tt, b)) /\
  (direct = true ->
   forall text,
     Dict.get "user" d <> None ->
     Dict.get_default "text" (JStr "") d = JStr text ->
     if String.eqb (strip text) "" then outcome = (Ok tt, b)
     else
       exists answer more w',
         fst (Chat.chat_with_llm rt srv llm (S Chat.max_iterations) (JStr (strip text)) []
                (llm_asked b) (bot_mcp b)) = Ok (Some answer) /\
         let first := {| say_text := answer; say_thread_ts := None |} in
         snd outcome =
         {| llm_asked := (llm_asked b ++ opening (JStr (strip text)) :: more)%list;
            bot_mcp := w';
            said := (said b ++ first ::
                     match api (said b ++ [first])%list with
                     | Ok _ => []
                     | Raise e => [ {| say_text := JStr (Handlers.sorry rt e);
                                       say_thread_ts := None |} ]
                     end)%list |}).
Proof.
  cbv zeta.
  assert (Hstart :
    Handlers.handle_direct_message rt srv llm api (JDict d) b =
    if negb (truthy (Dict.get_default "bot_id" JNull d))
       && negb (truthy (Dict.get_default "thread_ts" JNull d))
       && is_str (Dict.get_default "channel_type" JNull d) "im"
    then
      try_except
        (user_id <- lift (py_getitem (JDict d) "user") ;;
         text <- lift (py_strip (Dict.get_default "text" (JStr "") d)) ;;
         if String.eqb text "" then ret tt
         else
           response <- Handlers.ask rt srv llm (JStr text) ;;
           Handlers.say api response None)%M
        (fun e => Handlers.say api (JStr (Handlers.sorry rt e)) None)
        b
    else (Ok tt, b)).
  { unfold Handlers.handle_direct_message.
    unfold bind at 1, lift. cbn [py_get].
    destruct (truthy (Dict.get_default "bot_id" JNull d)); cbn [negb andb]; [reflexivity|].
    unfold bind at 1.
    destruct (truthy (Dict.get_default "thread_ts" JNull d)); cbn [negb andb];
      [reflexivity|].
    unfold bind at 1.
    destruct (is_str (Dict.get_default "channel_type" JNull d) "im"); cbn [negb];
      [|reflexivity].
    unfold try_except, bind, lift. cbn [py_getitem].
    destruct (Dict.get "user" d); reflexivity. }
  rewrite Hstart. clear Hstart.
  destruct (negb (truthy (Dict.get_default "bot_id" JNull d))
            && negb (truthy (Dict.get_default "thread_ts" JNull d))
            && is_str (Dict.get_default "channel_type" JNull d) "im").
  2: { split; [reflexivity | discriminate]. }
  split; [discriminate|]. intros _ text Huser Htext.
  rewrite Htext. cbn [py_strip py_getitem].
  destruct (Dict.get "user" d) as [user_id|]; [|contradiction].
  destruct (String.eqb (strip text) "") eqn:Hblank;
    unfold try_except; unfold bind at 1 2, lift; rewrite Hblank; [reflexivity|].
  unfold bind at 1.
  match goal with
  | |- context [Handlers.ask rt srv llm ?x ?s] =>
      destruct (ask_eq rt srv llm x s) as (answer & more & w' & Hanswer & ->)
  end.
  exists answer, more, w'. split; [exact Hanswer|].
  unfold Handlers.say. cbn [said llm_asked bot_mcp].
  destruct (api _) as [[]|e]; cbn [snd said llm_asked bot_mcp].
  - reflexivity.
  - rewrite <- app_assoc. reflexivity.
Qed.

Lemma handle_direct_message_answers_direct_messages_witness :
  said (snd (Handlers.handle_direct_message bare_runtime unreachable_server
               (answering_model "Nothing new today.") rejecting_slack
               (JDict sample_direct_message) idle_bot))
  = [ {| say_text := JStr "Nothing new today."; say_thread_ts := None |};
      {| say_text := JStr "Sorry, I encountered an error: channel_not_found";
         say_thread_ts := None |} ] /\
  llm_asked (snd (Handlers.handle_direct_message bare_runtime unreachable_server
                    (answering_model "Nothing new today.") rejecting_slack
                    (JDict sample_direct_message) idle_bot))
  = [opening (JStr "what is new?")] /\
  Handlers.handle_direct_message bare_runtime unreachable_server
    (answering_model "Nothing new today.") accepting_slack
    (JDict (Dict.set "thread_ts" (JStr "1730.1") sample_direct_message)) idle_bot
  = (Ok tt, idle_bot).
Proof.
  destruct (proj2 (handle_direct_message_answers_direct_messages bare_runtime
                     unreachable_server (answering_model "Nothing new today.")
                     rejecting_slack sample_direct_message idle_bot)
              eq_refl "  what is new?  " ltac:(discriminate) eq_refl)
    as (answer & more & w' & Hanswer & Hout).
  split; [reflexivity|]. split; [reflexivity|].
  exact (proj1 (handle_direct_message_answers_direct_messages bare_runtime
                  unreachable_server (answering_model "Nothing new today.")
                  accepting_slack
                  (Dict.set "thread_ts" (JStr "1730.1") sample_direct_message) idle_bot)
           eq_refl).
Defined.

Lemma chat_history_grows_witness :
  exists grown queries added,
    messages (snd (Chat.chat_with_llm bare_runtime accepting_server one_call_model 6
                     (JStr "What is new?") [] [] (fresh "http://mcp")))
    = ((Chat.system_message :: [] ++ [Chat.user_record (JStr "What is new?")]) ++ grown)%list /\
    asked (snd (Chat.chat_with_llm bare_runtime accepting_server one_call_model 6
                  (JStr "What is new?") [] [] (fresh "http://mcp")))
    = ([] ++ queries)%list /\
    List.length queries = 2%nat /\
    Forall (fun q => exists more,
                q = ((Chat.system_message :: [] ++ [Chat.user_record (JStr "What is new?")])
                     ++ more)%list) queries /\
    sent (mcp (snd (Chat.chat_with_llm bare_runtime accepting_server one_call_model 6
                      (JStr "What is new?") [] [] (fresh "http://mcp"))))
    = ([] ++ added)%list.
Proof.
  exact (chat_history_grows bare_runtime accepting_server one_call_model 6
           (JStr "What is new?") [] [] (fresh "http://mcp")).
Defined.

